(** * Webhound backend: job lifecycle, result extraction and job store

    A shallow embedding of [backend/main.py] (the request handlers and the
    background task [process_dataset]), [backend/database.py] (the
    SQLite-backed [JobDatabase]) and the pipeline runner [create_dataset]
    of [backend/crewai_setup_working.py], with the statements of the
    design document checked against it, and further properties of the
    code after them.

    Conventions of the embedding.
    - A Python [str] is a [string]: a sequence of code points below 256.
    - A Python value that can travel through the pipeline payload is a
      [pyval]; a [dict] is an association list in insertion order, its
      keys pairwise distinct, read with [dict_get] (first match).
    - Code that can raise returns a [result]; code that touches the
      database runs in the state-and-exception monad [M] over [world].
    - [json.loads], [json.dumps], [str] on arbitrary values, the text of
      interpreter-raised exceptions and the wall clock are what a
      [runtime] supplies; the theorems hold for every runtime. A sample
      runtime, with a reference JSON reader for [json.loads], serves the
      worked examples.
    - [json.loads] is taken to decode or to raise [JSONDecodeError]; the
      [RecursionError] of a very deeply nested text is not modelled. *)

From Stdlib Require Import ZArith List Ascii String Floats Uint63.
From stdpp Require Import base option list strings pretty gmap fin_maps sorting.

Local Open Scope string_scope.
Local Open Scope Z_scope.
Set Warnings "-register-all".

(** ** Python strings *)

Module PyStr.

Definition nl : ascii := ascii_of_nat 10.
Definition dquote : ascii := ascii_of_nat 34.

(** [str.isspace] on one code point below 256; also the class [\s] of
    [re] on [str] patterns. *)
Definition is_space (c : ascii) : bool :=
  let n := nat_of_ascii c in
  ((9 <=? n) && (n <=? 13) || (28 <=? n) && (n <=? 32)
   || (n =? 133) || (n =? 160))%nat.

(** [str.lower] on one code point below 256. *)
Definition lower_char (c : ascii) : ascii :=
  let n := nat_of_ascii c in
  if ((65 <=? n) && (n <=? 90)
      || (192 <=? n) && (n <=? 214) || (216 <=? n) && (n <=? 222))%nat
  then ascii_of_nat (n + 32) else c.

Fixpoint lower (s : string) : string :=
  match s with
  | EmptyString => EmptyString
  | String c s' => String (lower_char c) (lower s')
  end.

(** [sub in s] for strings. *)
Fixpoint contains (sub s : string) : bool :=
  String.prefix sub s ||
  match s with
  | EmptyString => false
  | String _ s' => contains sub s'
  end.

Fixpoint drop (n : nat) (s : string) : string :=
  match n, s with
  | O, _ => s
  | S n', String _ s' => drop n' s'
  | S _, EmptyString => EmptyString
  end.

Fixpoint lstrip (s : string) : string :=
  match s with
  | String c s' => if is_space c then lstrip s' else s
  | EmptyString => EmptyString
  end.

(** [rstrip] keeps a character when it is not white space or when
    something that is kept follows it. *)
Fixpoint rstrip (s : string) : string :=
  match s with
  | EmptyString => EmptyString
  | String c s' =>
      match rstrip s' with
      | EmptyString => if is_space c then EmptyString else String c EmptyString
      | r => String c r
      end
  end.

(** [s.strip()] *)
Definition strip (s : string) : string := rstrip (lstrip s).

End PyStr.

(** ** The two regular expressions of the code base *)

Module Re.
Import PyStr.

Definition fence : string := "```".
Definition fence_close : string := String nl fence.

(** [(.*?)\n```] under [re.DOTALL]: the lazy group takes the shortest
    text after which a newline and a fence follow. *)
Fixpoint lazy_group (t : string) : option string :=
  if String.prefix fence_close t then Some EmptyString
  else match t with
       | EmptyString => None
       | String c t' => String c <$> lazy_group t'
       end.

(** [\s*\n(.*?)\n```]: the greedy [\s*] first tries to take one more
    white-space character and only then lets [\n] match here. *)
Fixpoint ws_newline_group (t : string) : option string :=
  match t with
  | EmptyString => None
  | String c t' =>
      let here := if Ascii.eqb c nl then lazy_group t' else None in
      if is_space c
      then match ws_newline_group t' with
           | Some g => Some g
           | None => here
           end
      else here
  end.

(** The whole pattern [```(?:json)?\s*\n(.*?)\n```] anchored at the start
    of [t]; the optional [json] is tried first, then skipped. *)
Definition match_code_block_at (t : string) : option string :=
  if String.prefix fence t then
    let t1 := drop 3 t in
    if String.prefix "json" t1 then
      match ws_newline_group (drop 4 t1) with
      | Some g => Some g
      | None => ws_newline_group t1
      end
    else ws_newline_group t1
  else None.

(** [re.search(r'```(?:json)?\s*\n(.*?)\n```', t, re.DOTALL)], returning
    [group(1)] of the leftmost match. *)
Fixpoint code_block_search (t : string) : option string :=
  match match_code_block_at t with
  | Some g => Some g
  | None =>
      match t with
      | EmptyString => None
      | String _ t' => code_block_search t'
      end
  end.

(** The longest prefix of [t] that ends in a closing brace. *)
Fixpoint upto_last_brace (t : string) : option string :=
  match t with
  | EmptyString => None
  | String c t' =>
      match upto_last_brace t' with
      | Some r => Some (String c r)
      | None => if Ascii.eqb c "}" then Some (String c EmptyString) else None
      end
  end.

(** [re.search(r'\{.*\}', t, re.DOTALL)], returning [group()]: from the
    first opening brace to the last closing brace after it
    ([crewai_setup_working.py], [create_dataset]). *)
Fixpoint brace_search (t : string) : option string :=
  match t with
  | EmptyString => None
  | String c t' =>
      if Ascii.eqb c "{" then String c <$> upto_last_brace t'
      else brace_search t'
  end.

End Re.

(** ** Python values *)

Inductive pyval : Type :=
  | PNone
  | PBool (b : bool)
  | PInt (z : Z)
  | PFloat (f : float)
  | PStr (s : string)
  | PList (l : list pyval)
  | PDict (d : list (string * pyval)).

Definition pydict : Type := list (string * pyval).

(** [d.get(k)] *)
Fixpoint dict_get (d : pydict) (k : string) : option pyval :=
  match d with
  | [] => None
  | (k', v) :: d' => if String.eqb k k' then Some v else dict_get d' k
  end.

(** [d.get(k, dflt)] *)
Definition dict_get_default (d : pydict) (k : string) (dflt : pyval) : pyval :=
  default dflt (dict_get d k).

(** [d[k] = v]: an existing key keeps its position. *)
Fixpoint dict_set (d : pydict) (k : string) (v : pyval) : pydict :=
  match d with
  | [] => [(k, v)]
  | (k', v') :: d' =>
      if String.eqb k k' then (k', v) :: d' else (k', v') :: dict_set d' k v
  end.

(** [bool(v)] *)
Definition truthy (v : pyval) : bool :=
  match v with
  | PNone => false
  | PBool b => b
  | PInt z => negb (z =? 0)
  | PFloat f => negb (PrimFloat.eqb f PrimFloat.zero)
  | PStr s => negb (String.eqb s "")
  | PList l => match l with [] => false | _ => true end
  | PDict d => match d with [] => false | _ => true end
  end.

Definition is_dict (v : pyval) : bool :=
  match v with PDict _ => true | _ => false end.

(** [v == "..."] against a string literal. *)
Definition eq_str (v : pyval) (lit : string) : bool :=
  match v with PStr s => String.eqb s lit | _ => false end.

(** ** A reference reader for [json.loads]

    [json_loads_ref] follows the grammar of Python's [json] scanner on
    documents whose numbers are integers and whose [\u] escapes stay below
    U+0100. On other documents (fractions, exponents, [NaN], [Infinity],
    larger escapes) it answers [None] although Python decodes them; it is
    used for worked examples within that fragment only. [None] otherwise
    stands for [json.JSONDecodeError]. *)

Module JsonRef.

Definition is_json_ws (c : ascii) : bool :=
  let n := nat_of_ascii c in
  ((n =? 32) || (n =? 9) || (n =? 10) || (n =? 13))%nat.

Fixpoint skip_ws (s : string) : string :=
  match s with
  | String c s' => if is_json_ws c then skip_ws s' else s
  | EmptyString => EmptyString
  end.

Definition digit_val (c : ascii) : option Z :=
  let n := nat_of_ascii c in
  if ((48 <=? n) && (n <=? 57))%nat then Some (Z.of_nat n - 48) else None.

Definition hex_val (c : ascii) : option Z :=
  let n := nat_of_ascii c in
  if ((48 <=? n) && (n <=? 57))%nat then Some (Z.of_nat n - 48)
  else if ((65 <=? n) && (n <=? 70))%nat then Some (Z.of_nat n - 55)
  else if ((97 <=? n) && (n <=? 102))%nat then Some (Z.of_nat n - 87)
  else None.

(** The digits at the head of [s], accumulated into [acc]. *)
Fixpoint read_digits (s : string) (acc : Z) : Z * string :=
  match s with
  | String c s' =>
      match digit_val c with
      | Some d => read_digits s' (10 * acc + d)
      | None => (acc, s)
      end
  | EmptyString => (acc, s)
  end.

(** An integer literal, a zero or a digit run without leading zero; a
    fraction or exponent behind it is outside the fragment. *)
Definition read_nat_literal (s : string) : option (Z * string) :=
  match s with
  | String c s' =>
      match digit_val c with
      | Some d =>
          let '(n, rest) := if d =? 0 then (0, s') else read_digits s' d in
          match rest with
          | String c' _ =>
              if (Ascii.eqb c' "." || Ascii.eqb c' "e" || Ascii.eqb c' "E")%bool
              then None else Some (n, rest)
          | EmptyString => Some (n, rest)
          end
      | None => None
      end
  | EmptyString => None
  end.

(** The characters of a string literal after its opening quote. *)
Fixpoint read_string (s : string) : option (string * string) :=
  match s with
  | EmptyString => None
  | String c s' =>
      if Ascii.eqb c PyStr.dquote then Some (EmptyString, s')
      else if Ascii.eqb c "\" then
        match s' with
        | String e s'' =>
            let plain (x : ascii) :=
              '(r, rest) ← read_string s''; Some (String x r, rest) in
            if Ascii.eqb e PyStr.dquote then plain e
            else if Ascii.eqb e "\" then plain e
            else if Ascii.eqb e "/" then plain e
            else if Ascii.eqb e "b" then plain (ascii_of_nat 8)
            else if Ascii.eqb e "f" then plain (ascii_of_nat 12)
            else if Ascii.eqb e "n" then plain (ascii_of_nat 10)
            else if Ascii.eqb e "r" then plain (ascii_of_nat 13)
            else if Ascii.eqb e "t" then plain (ascii_of_nat 9)
            else if Ascii.eqb e "u" then
              match s'' with
              | String h1 (String h2 (String h3 (String h4 s3))) =>
                  a ← hex_val h1; b ← hex_val h2;
                  c' ← hex_val h3; d ← hex_val h4;
                  if (a =? 0) && (b =? 0) then
                    '(r, rest) ← read_string s3;
                    Some (String (ascii_of_nat (Z.to_nat (16 * c' + d))) r, rest)
                  else None
              | _ => None
              end
            else None
        | EmptyString => None
        end
      else if (nat_of_ascii c <? 32)%nat then None
      else '(r, rest) ← read_string s'; Some (String c r, rest)
  end.

(** One JSON value at the head of [s] (no leading white space), with
    the text that follows it. [fuel] bounds the nesting and the number
    of members read. *)
Fixpoint read_value (fuel : nat) (s : string) : option (pyval * string) :=
  match fuel with
  | O => None
  | S fuel' =>
      match s with
      | EmptyString => None
      | String c s' =>
          if Ascii.eqb c PyStr.dquote then
            '(str, rest) ← read_string s'; Some (PStr str, rest)
          else if Ascii.eqb c "{" then
            match skip_ws s' with
            | String c1 r1 =>
                if Ascii.eqb c1 "}" then Some (PDict [], r1)
                else '(d, rest) ← read_members fuel' (String c1 r1) [];
                     Some (PDict d, rest)
            | EmptyString => None
            end
          else if Ascii.eqb c "[" then
            match skip_ws s' with
            | String c1 r1 =>
                if Ascii.eqb c1 "]" then Some (PList [], r1)
                else '(l, rest) ← read_elements fuel' (String c1 r1);
                     Some (PList l, rest)
            | EmptyString => None
            end
          else if String.prefix "null" s then Some (PNone, PyStr.drop 4 s)
          else if String.prefix "true" s then Some (PBool true, PyStr.drop 4 s)
          else if String.prefix "false" s then Some (PBool false, PyStr.drop 5 s)
          else if Ascii.eqb c "-" then
            '(n, rest) ← read_nat_literal s'; Some (PInt (- n), rest)
          else '(n, rest) ← read_nat_literal s; Some (PInt n, rest)
      end
  end
(** The members of an object from its first key on, up to and including
    the closing brace; a repeated key keeps its last value. *)
with read_members (fuel : nat) (s : string) (acc : pydict)
  : option (pydict * string) :=
  match fuel with
  | O => None
  | S fuel' =>
      match s with
      | String q s1 =>
          if Ascii.eqb q PyStr.dquote then
            '(k, r1) ← read_string s1;
            match skip_ws r1 with
            | String colon r2 =>
                if Ascii.eqb colon ":" then
                  '(v, r3) ← read_value fuel' (skip_ws r2);
                  let acc' := dict_set acc k v in
                  match skip_ws r3 with
                  | String c r4 =>
                      if Ascii.eqb c "}" then Some (acc', r4)
                      else if Ascii.eqb c "," then
                        read_members fuel' (skip_ws r4) acc'
                      else None
                  | EmptyString => None
                  end
                else None
            | EmptyString => None
            end
          else None
      | EmptyString => None
      end
  end
(** The elements of an array from its first element on, up to and
    including the closing bracket. *)
with read_elements (fuel : nat) (s : string) : option (list pyval * string) :=
  match fuel with
  | O => None
  | S fuel' =>
      '(v, r1) ← read_value fuel' s;
      match skip_ws r1 with
      | String c r2 =>
          if Ascii.eqb c "]" then Some ([v], r2)
          else if Ascii.eqb c "," then
            '(l, rest) ← read_elements fuel' (skip_ws r2); Some (v :: l, rest)
          else None
      | EmptyString => None
      end
  end.

(** [json.loads(s)]: one value, white space allowed around it, nothing
    else behind it. Every call of the reader consumes a character, so
    the length of the text is fuel enough. *)
Definition json_loads_ref (s : string) : option pyval :=
  '(v, rest) ← read_value (S (String.length s)) (skip_ws s);
  match skip_ws rest with
  | EmptyString => Some v
  | String _ _ => None
  end.

End JsonRef.

(** ** Dates and times ([datetime.datetime]) *)

Record datetime : Type := mk_datetime {
  year : Z; month : Z; day : Z;
  hour : Z; minute : Z; second : Z; microsecond : Z
}.

Definition is_leap (y : Z) : bool :=
  ((y mod 4 =? 0) && negb (y mod 100 =? 0)) || (y mod 400 =? 0).

Definition days_in_month (y m : Z) : Z :=
  if m =? 2 then (if is_leap y then 29 else 28)
  else if (m =? 4) || (m =? 6) || (m =? 9) || (m =? 11) then 30
  else 31.

Fixpoint lex_ltb (a b : list Z) : bool :=
  match a, b with
  | x :: a', y :: b' => (x <? y) || ((x =? y) && lex_ltb a' b')
  | _, _ => false
  end.

Definition dt_fields (t : datetime) : list Z :=
  [year t; month t; day t; hour t; minute t; second t; microsecond t].

(** The order SQLite applies to two stored timestamps: they are kept as
    text in the form [YYYY-MM-DD HH:MM:SS[.ffffff]], and for four-digit
    years the order of the texts is the order of the fields. *)
Definition dt_ltb (a b : datetime) : bool := lex_ltb (dt_fields a) (dt_fields b).

(** [t.replace(hour=0, minute=0, second=0, microsecond=0)] *)
Definition at_midnight (t : datetime) : datetime :=
  mk_datetime (year t) (month t) (day t) 0 0 0 0.

(** ** Exceptions and results *)

(** Exceptions the interpreter, [re] and [sqlite3] raise inside the
    modelled code. *)
Inductive builtin_error : Type :=
  | TypeError_len (v : pyval)          (* len() of a value that has none *)
  | TypeError_search (v : pyval)       (* re.search on a non-string *)
  | AttributeError_get (v : pyval)     (* .get on a value that is no dict *)
  | KeyError_0                         (* raw_data[0] on a dict *)
  | IndexError_0                       (* v[0] on an empty list or string *)
  | TypeError_subscript (v : pyval)    (* v[0] on a value without items *)
  | InterfaceError_bind (v : pyval)    (* sqlite3 cannot bind a list or dict *)
  | OverflowError_bind (z : Z)         (* int outside SQLite's 64 bits *)
  | IntegrityError_job_id (id : string)(* INSERT of an existing primary key *)
  | ValueError_day (d : Z)             (* datetime.replace: day out of range *)
  | ZeroDivisionError.                 (* int / 0 *)

Inductive pyexc : Type :=
  | Raised (msg : string)              (* raised by the pipeline; str(e) = msg *)
  | Builtin (e : builtin_error).

Inductive outcome (A : Type) : Type :=
  | Return (a : A)
  | Raise (e : pyexc).
Arguments Return {A} a.
Arguments Raise {A} e.

#[global] Instance outcome_ret : MRet outcome := @Return.
#[global] Instance outcome_bind : MBind outcome := λ A B f m,
  match m with
  | Return a => f a
  | Raise e => Raise e
  end.
#[global] Instance outcome_fmap : FMap outcome := λ A B f m,
  match m with
  | Return a => Return (f a)
  | Raise e => Raise e
  end.

(** ** The jobs table *)

(** One row of [jobs] (the key [job_id] is the key of the map). Columns
    declared [TEXT] hold [NULL] or a text: SQLite's column affinity turns
    a bound number into its text. *)
Record row : Type := mk_row {
  query : string;
  status : string;
  dataset : option string;
  sources : option string;
  raw_data : option string;
  total_records : Z;
  validation_status : option string;
  quality_score : option string;
  validation_notes : option string;
  user_rating : option string;
  rating_timestamp : option datetime;
  created_at : datetime;
  updated_at : datetime
}.

(** The keyword arguments [update_job] is called with. *)
Inductive field : Type :=
  | F_status (s : string)
  | F_dataset (v : pyval)
  | F_sources (v : pyval)
  | F_raw_data (v : pyval)
  | F_total_records (n : Z)
  | F_validation_status (v : pyval)
  | F_quality_score (v : pyval)
  | F_validation_notes (v : pyval).

(** The database file, the number of clock readings made so far, and a
    journal of the [UPDATE] statements [update_job] has executed, oldest
    first. The journal is an observer's record: no operation reads it. *)
Record world : Type := mk_world {
  jobs : gmap string row;
  ticks : nat;
  journal : list (string * list field)
}.

(** The database right after [init_db] on a new file. *)
Definition init_world : world := mk_world ∅ 0 [].

Definition M (A : Type) : Type := world → world * outcome A.

#[global] Instance M_ret : MRet M := λ A a w, (w, Return a).
#[global] Instance M_bind : MBind M := λ A B f m w,
  match m w with
  | (w', Return a) => f a w'
  | (w', Raise e) => (w', Raise e)
  end.

Definition lift {A} (o : outcome A) : M A := λ w, (w, o).

(** [try: body  except Exception as e: handler(e)] *)
Definition try_except {A} (body : M A) (handler : pyexc → M A) : M A := λ w,
  match body w with
  | (w', Return a) => (w', Return a)
  | (w', Raise e) => handler e w'
  end.

(** The world a computation leaves behind, and its result. *)
Definition exec {A} (m : M A) (w : world) : world := (m w).1.
Definition result {A} (m : M A) (w : world) : outcome A := (m w).2.

(** What the interpreter and its libraries supply. *)
Record runtime : Type := mk_runtime {
  json_loads : string → option pyval;   (* None: json.JSONDecodeError *)
  json_dumps : pyval → string;
  py_str : pyval → string;              (* str(v) *)
  error_text : builtin_error → string;  (* str(e) *)
  sqlite_real_text : float → option string;
                                        (* a REAL kept in a TEXT column; NaN is NULL *)
  clock : nat → datetime                (* the n-th reading of datetime.now() *)
}.

(** ** Floating point: true division and [round(x, 1)] *)

Module PyFloat.

(** [float(n)] for a count; exact below 2^53. *)
Definition of_count (n : Z) : float := PrimFloat.of_uint63 (Uint63.of_Z n).

(** Division of [a] by [b > 0] rounded to the nearest integer, ties to
    the even one. *)
Definition div_half_even (a b : Z) : Z :=
  let q := a / b in
  let r := a mod b in
  if 2 * r <? b then q
  else if b <? 2 * r then q + 1
  else if Z.even q then q else q + 1.

(** [round(x, 1)] on a float: the exact value of [x] is rounded to one
    decimal, ties to even, and the nearest float to that decimal is
    returned. Zero, infinities, NaN and floats without a fractional part
    come back unchanged. Exact for magnitudes below 2^49. *)
Definition round1 (x : float) : float :=
  match Prim2SF x with
  | S754_finite s m e =>
      if 0 <=? e then x
      else
        let tenths := div_half_even (10 * Z.pos m) (2 ^ (- e)) in
        let q := PrimFloat.div (of_count tenths) (of_count 10) in
        if s then PrimFloat.opp q else q
  | _ => x
  end.

End PyFloat.

(** ** [database.py]: class [JobDatabase] *)

Module JobDatabase.
Section Methods.
Context (rt : runtime).

(** [datetime.now()] *)
Definition now : M datetime := λ w,
  (mk_world (jobs w) (S (ticks w)) (journal w), Return (clock rt (ticks w))).

Definition fits_int64 (z : Z) : bool := (- 2 ^ 63 <=? z) && (z <? 2 ^ 63).

(** The text a value leaves in a [TEXT] column. With [serialise] the
    column is one of [dataset], [sources], [raw_data], for which
    [update_job] passes lists and dicts through [json.dumps]; in the
    other columns sqlite3 refuses to bind them. *)
Definition bind_text (serialise : bool) (v : pyval) : outcome (option string) :=
  match v with
  | PNone => Return None
  | PStr s => Return (Some s)
  | PBool b => Return (Some (if b then "1" else "0"))
  | PInt z =>
      if fits_int64 z then Return (Some (pretty z))
      else Raise (Builtin (OverflowError_bind z))
  | PFloat f => Return (sqlite_real_text rt f)
  | PList _ | PDict _ =>
      if serialise then Return (Some (json_dumps rt v))
      else Raise (Builtin (InterfaceError_bind v))
  end.

Definition set_status (s : string) (r : row) : row :=
  mk_row (query r) s (dataset r) (sources r) (raw_data r) (total_records r)
    (validation_status r) (quality_score r) (validation_notes r)
    (user_rating r) (rating_timestamp r) (created_at r) (updated_at r).
Definition set_dataset (c : option string) (r : row) : row :=
  mk_row (query r) (status r) c (sources r) (raw_data r) (total_records r)
    (validation_status r) (quality_score r) (validation_notes r)
    (user_rating r) (rating_timestamp r) (created_at r) (updated_at r).
Definition set_sources (c : option string) (r : row) : row :=
  mk_row (query r) (status r) (dataset r) c (raw_data r) (total_records r)
    (validation_status r) (quality_score r) (validation_notes r)
    (user_rating r) (rating_timestamp r) (created_at r) (updated_at r).
Definition set_raw_data (c : option string) (r : row) : row :=
  mk_row (query r) (status r) (dataset r) (sources r) c (total_records r)
    (validation_status r) (quality_score r) (validation_notes r)
    (user_rating r) (rating_timestamp r) (created_at r) (updated_at r).
Definition set_total_records (n : Z) (r : row) : row :=
  mk_row (query r) (status r) (dataset r) (sources r) (raw_data r) n
    (validation_status r) (quality_score r) (validation_notes r)
    (user_rating r) (rating_timestamp r) (created_at r) (updated_at r).
Definition set_validation_status (c : option string) (r : row) : row :=
  mk_row (query r) (status r) (dataset r) (sources r) (raw_data r)
    (total_records r) c (quality_score r) (validation_notes r)
    (user_rating r) (rating_timestamp r) (created_at r) (updated_at r).
Definition set_quality_score (c : option string) (r : row) : row :=
  mk_row (query r) (status r) (dataset r) (sources r) (raw_data r)
    (total_records r) (validation_status r) c (validation_notes r)
    (user_rating r) (rating_timestamp r) (created_at r) (updated_at r).
Definition set_validation_notes (c : option string) (r : row) : row :=
  mk_row (query r) (status r) (dataset r) (sources r) (raw_data r)
    (total_records r) (validation_status r) (quality_score r) c
    (user_rating r) (rating_timestamp r) (created_at r) (updated_at r).
Definition set_rating (rating : string) (t : datetime) (r : row) : row :=
  mk_row (query r) (status r) (dataset r) (sources r) (raw_data r)
    (total_records r) (validation_status r) (quality_score r)
    (validation_notes r) (Some rating) (Some t) (created_at r) (updated_at r).
Definition set_updated_at (t : datetime) (r : row) : row :=
  mk_row (query r) (status r) (dataset r) (sources r) (raw_data r)
    (total_records r) (validation_status r) (quality_score r)
    (validation_notes r) (user_rating r) (rating_timestamp r) (created_at r) t.

(** One [key = ?] of the [SET] clause with its bound value. *)
Definition bind_field (f : field) : outcome (row → row) :=
  match f with
  | F_status s => Return (set_status s)
  | F_dataset v => set_dataset <$> bind_text true v
  | F_sources v => set_sources <$> bind_text true v
  | F_raw_data v => set_raw_data <$> bind_text true v
  | F_total_records n => Return (set_total_records n)
  | F_validation_status v => set_validation_status <$> bind_text false v
  | F_quality_score v => set_quality_score <$> bind_text false v
  | F_validation_notes v => set_validation_notes <$> bind_text false v
  end.

Fixpoint bind_fields (kwargs : list field) : outcome (row → row) :=
  match kwargs with
  | [] => Return id
  | f :: rest =>
      g ← bind_field f; h ← bind_fields rest; Return (λ r, h (g r))
  end.

(** The SQL statements the methods execute, on the table as a map. *)

(** [INSERT INTO jobs ...]: the primary key must be new. *)
Definition sql_insert (job_id : string) (r : row) : M unit := λ w,
  match jobs w !! job_id with
  | Some _ => (w, Raise (Builtin (IntegrityError_job_id job_id)))
  | None => (mk_world (<[job_id := r]> (jobs w)) (ticks w) (journal w), Return ())
  end.

(** [UPDATE jobs SET ... WHERE job_id = ?], returning [rowcount]. *)
Definition sql_update (job_id : string) (f : row → row) : M Z := λ w,
  (mk_world (alter f job_id (jobs w)) (ticks w) (journal w),
   Return (match jobs w !! job_id with Some _ => 1 | None => 0 end)).

(** [DELETE FROM jobs WHERE job_id = ?], returning [rowcount]. *)
Definition sql_delete (job_id : string) : M Z := λ w,
  (mk_world (delete job_id (jobs w)) (ticks w) (journal w),
   Return (match jobs w !! job_id with Some _ => 1 | None => 0 end)).

(** The rows that satisfy a [WHERE] clause, and the others. *)
Definition rows_where (p : row → bool) (t : gmap string row) : gmap string row :=
  filter (λ kv, p kv.2 = true) t.
Definition rows_where_not (p : row → bool) (t : gmap string row) : gmap string row :=
  filter (λ kv, p kv.2 = false) t.

(** [DELETE FROM jobs WHERE p], returning [rowcount]. *)
Definition sql_delete_where (p : row → bool) : M Z := λ w,
  (mk_world (rows_where_not p (jobs w)) (ticks w) (journal w),
   Return (Z.of_nat (size (rows_where p (jobs w))))).

(** [SELECT COUNT( * ) FROM jobs WHERE p] *)
Definition sql_count_where (p : row → bool) : M Z := λ w,
  (w, Return (Z.of_nat (size (rows_where p (jobs w))))).

(** [SELECT * FROM jobs WHERE job_id = ?], [fetchone()] *)
Definition sql_select (job_id : string) : M (option row) := λ w,
  (w, Return (jobs w !! job_id)).

Definition journal_append (job_id : string) (kwargs : list field) : M unit := λ w,
  (mk_world (jobs w) (ticks w) (journal w ++ [(job_id, kwargs)]), Return ()).

(** [create_job]: a new row in state [processing]; the two timestamps
    are two readings of the clock. *)
Definition create_job (job_id query : string) : M unit :=
  t1 ← now; t2 ← now;
  sql_insert job_id
    (mk_row query "processing" None None None 0 None None None None None t1 t2).

(** [update_job(job_id, **kwargs)]: one [UPDATE] of the given columns
    and of [updated_at]; a value sqlite3 cannot bind raises before any
    column is written. *)
Definition update_job (job_id : string) (kwargs : list field) : M unit :=
  t ← now;
  upd ← lift (bind_fields kwargs);
  _ ← sql_update job_id (λ r, set_updated_at t (upd r));
  journal_append job_id kwargs.

(** A [TEXT] column read back by [get_job]: a non-empty text is decoded
    with [json.loads], [dflt] standing in when that fails. *)
Definition decode_column (dflt : pyval) (c : option string) : pyval :=
  match c with
  | None => PNone
  | Some s => if String.eqb s "" then PStr "" else default dflt (json_loads rt s)
  end.

Record job_dict : Type := mk_job_dict {
  jd_row : row;            (* the columns as stored *)
  jd_dataset : pyval;      (* job_dict['dataset'] *)
  jd_sources : pyval;      (* job_dict['sources'] *)
  jd_raw_data : pyval      (* job_dict['raw_data'] *)
}.

Definition get_job (job_id : string) : M (option job_dict) :=
  fetched ← sql_select job_id;
  mret ((λ r, mk_job_dict r
                (decode_column (PList []) (dataset r))
                (decode_column (PList []) (sources r))
                (decode_column (PDict []) (raw_data r))) <$> fetched).

(** [delete_job]: [rowcount > 0] *)
Definition delete_job (job_id : string) : M bool :=
  rowcount ← sql_delete job_id;
  mret (0 <? rowcount).

(** [t.replace(day=d)] *)
Definition replace_day (t : datetime) (d : Z) : outcome datetime :=
  if (1 <=? d) && (d <=? days_in_month (year t) (month t))
  then Return (mk_datetime (year t) (month t) d
                 (hour t) (minute t) (second t) (microsecond t))
  else Raise (Builtin (ValueError_day d)).

(** [created_at < ?] *)
Definition is_old (cutoff : datetime) (r : row) : bool :=
  dt_ltb (created_at r) cutoff.

(** [cleanup_old_jobs(days)]: the cutoff is today's midnight with its
    day-of-month field lowered by [days]. *)
Definition cleanup_old_jobs (days : Z) : M Z :=
  t ← now;
  let cutoff_date := at_midnight t in
  cutoff_date ← lift (replace_day cutoff_date (day cutoff_date - days));
  sql_delete_where (is_old cutoff_date).

Definition valid_rating (rating : string) : bool :=
  String.eqb rating "good_dog" || String.eqb rating "bad_dog".

(** [rate_job(job_id, rating)] *)
Definition rate_job (job_id rating : string) : M bool :=
  if negb (valid_rating rating) then mret false
  else
    t1 ← now; t2 ← now;
    rowcount ← sql_update job_id (λ r, set_updated_at t2 (set_rating rating t1 r));
    mret (0 <? rowcount).

Record rating_stats : Type := mk_rating_stats {
  total_rated : Z;
  good_dogs : Z;
  bad_dogs : Z;
  good_percentage : pyval;
  bad_percentage : pyval
}.

(** [a / b] on two counts. *)
Definition truediv (a b : Z) : outcome float :=
  if b =? 0 then Raise (Builtin ZeroDivisionError)
  else Return (PrimFloat.div (PyFloat.of_count a) (PyFloat.of_count b)).

(** [(n / total * 100) if total > 0 else 0] *)
Definition percentage (n total : Z) : outcome pyval :=
  if 0 <? total then
    q ← truediv n total;
    Return (PFloat (PrimFloat.mul q (PyFloat.of_count 100)))
  else Return (PInt 0).

(** [round(v, 1)]: an [int] comes back as it is. *)
Definition round_1 (v : pyval) : pyval :=
  match v with
  | PFloat f => PFloat (PyFloat.round1 f)
  | _ => v
  end.

Definition get_job_rating_stats : M rating_stats :=
  total_rated ←
    sql_count_where (λ r, bool_decide (is_Some (user_rating r)));
  good_dogs ←
    sql_count_where (λ r, bool_decide (user_rating r = Some "good_dog"));
  bad_dogs ←
    sql_count_where (λ r, bool_decide (user_rating r = Some "bad_dog"));
  good_percentage ← lift (percentage good_dogs total_rated);
  bad_percentage ← lift (percentage bad_dogs total_rated);
  mret (mk_rating_stats total_rated good_dogs bad_dogs
          (round_1 good_percentage) (round_1 bad_percentage)).

End Methods.
End JobDatabase.

(** ** [main.py]: the background task and the request handlers *)

Module Main.

(** What a request handler answers. *)
Inductive http (A : Type) : Type :=
  | Ok200 (body : A)
  | HTTPException (status_code : Z) (detail : string).
Arguments Ok200 {A} body.
Arguments HTTPException {A} status_code detail.

Record JobRatingResponse : Type := mk_JobRatingResponse {
  resp_job_id : string;
  resp_rating : string;
  resp_success : bool;
  resp_message : string
}.

Section Handlers.
Context (rt : runtime).

(** [str(e)] *)
Definition exc_str (e : pyexc) : string :=
  match e with
  | Raised msg => msg
  | Builtin b => error_text rt b
  end.

(** [len(v)] *)
Definition py_len (v : pyval) : outcome Z :=
  match v with
  | PStr s => Return (Z.of_nat (String.length s))
  | PList l => Return (Z.of_nat (length l))
  | PDict d => Return (Z.of_nat (length d))
  | _ => Raise (Builtin (TypeError_len v))
  end.

(** [v[0]]; the keys of a dict are strings, so [0] is none of them. *)
Definition py_first (v : pyval) : outcome pyval :=
  match v with
  | PList (x :: _) => Return x
  | PStr (String c _) => Return (PStr (String c EmptyString))
  | PList [] | PStr EmptyString => Raise (Builtin IndexError_0)
  | PDict _ => Raise (Builtin KeyError_0)
  | _ => Raise (Builtin (TypeError_subscript v))
  end.

(** [re.search(r'```(?:json)?\s*\n(.*?)\n```', v, re.DOTALL)], giving
    [group(1)] of the match. *)
Definition search_code_block (v : pyval) : outcome (option string) :=
  match v with
  | PStr s => Return (Re.code_block_search s)
  | _ => Raise (Builtin (TypeError_search v))
  end.

(** The five locals that step 3 of [process_dataset] computes. *)
Record parsed : Type := mk_parsed {
  parsed_data : pyval;
  parsed_sources : pyval;
  parsed_validation_status : pyval;
  parsed_quality_score : pyval;
  parsed_validation_notes : pyval
}.

(** The five fields read off a dict, [data] being given. *)
Definition fields_of (data : pyval) (d : pydict) : parsed :=
  mk_parsed data
    (dict_get_default d "sources" (PList []))
    (dict_get_default d "validation_status" (PStr "completed"))
    (dict_get_default d "quality_score" (PStr "unknown"))
    (dict_get_default d "validation_notes" (PStr "")).

(** [parsed_json.get("data", [])] and the four [get]s after it. *)
Definition fields_of_parsed_json (parsed_json : pyval) : outcome parsed :=
  match parsed_json with
  | PDict pj => Return (fields_of (dict_get_default pj "data" (PList [])) pj)
  | _ => Raise (Builtin (AttributeError_get parsed_json))
  end.

(** Step 3 of [process_dataset], "Parse the result structure": the
    [if isinstance(dataset, dict): ... else: ...] block. *)
Definition extract_result (query : string) (dataset : pyval) : outcome parsed :=
  match dataset with
  | PDict d =>
      let raw_data := dict_get_default d "data" (PList []) in
      nonempty ←
        (if truthy raw_data
         then n ← py_len raw_data; Return (0 <? n)
         else Return false);
      if nonempty : bool then
        first_item ← py_first raw_data;
        match first_item with
        | PDict fi =>
            match dict_get fi "result" with
            | Some result_str =>
                code_block_match ← search_code_block result_str;
                match code_block_match with
                | Some group1 =>
                    let json_content := PyStr.strip group1 in
                    match json_loads rt json_content with
                    | Some parsed_json => fields_of_parsed_json parsed_json
                    | None => Return (fields_of raw_data d)
                    end
                | None => Return (fields_of raw_data d)
                end
            | None => Return (fields_of raw_data d)
            end
        | _ => Return (fields_of raw_data d)
        end
      else Return (fields_of raw_data d)
  | _ =>
      Return (mk_parsed
                (PList [PDict [("query", PStr query);
                               ("result", PStr (py_str rt dataset))]])
                (PList []) (PStr "completed") (PStr "unknown")
                (PStr "Processing completed"))
  end.

Definition quota_keywords : list string :=
  ["quota"; "429"; "resourceexhausted"; "rate limit"; "exceeded"].

(** [any(keyword in error_message.lower() for keyword in [...])] *)
Definition is_quota_error (error_message : string) : bool :=
  existsb (λ keyword, PyStr.contains keyword (PyStr.lower error_message))
    quota_keywords.

(** [dataset.get("validation_status") == "quota_exceeded"] behind the
    [isinstance(dataset, dict)] test. *)
Definition reports_quota (dataset : pyval) : bool :=
  match dataset with
  | PDict d =>
      match dict_get d "validation_status" with
      | Some v => eq_str v "quota_exceeded"
      | None => false
      end
  | _ => false
  end.

Definition quota_in_result_update : list field :=
  [F_status "quota_exceeded"; F_dataset (PList []); F_sources (PList []);
   F_total_records 0; F_validation_status (PStr "quota_exceeded");
   F_quality_score (PStr "unknown");
   F_validation_notes
     (PStr "API quota exceeded. Please try again later or upgrade your plan.")].

Definition completed_update (p : parsed) (total : Z) : list field :=
  [F_status "completed"; F_dataset (parsed_data p);
   F_sources (parsed_sources p); F_total_records total;
   F_validation_status (parsed_validation_status p);
   F_quality_score (parsed_quality_score p);
   F_validation_notes (parsed_validation_notes p)].

Definition quota_error_update (error_message : string) : list field :=
  [F_status "quota_exceeded"; F_dataset (PList []); F_sources (PList []);
   F_total_records 0; F_validation_status (PStr "quota_exceeded");
   F_quality_score (PStr "unknown");
   F_validation_notes
     (PStr ("API quota exceeded: " ++ error_message
            ++ ". Please try again later or upgrade your plan."))].

Definition failed_update (error_message : string) : list field :=
  [F_status "failed"; F_dataset (PList []); F_sources (PList []);
   F_total_records 0; F_validation_status (PStr "failed");
   F_quality_score (PStr "unknown");
   F_validation_notes (PStr ("Error: " ++ error_message))].

(** The [try] block of [process_dataset]. [pipeline] is what
    [await create_dataset_async(query)] did: return a payload or raise. *)
Definition process_dataset_body (pipeline : outcome pyval)
    (job_id query : string) : M unit :=
  dataset ← lift pipeline;
  _ ← JobDatabase.update_job rt job_id [F_raw_data dataset];
  if reports_quota dataset then
    JobDatabase.update_job rt job_id quota_in_result_update
  else
    p ← lift (extract_result query dataset);
    total ← lift (py_len (parsed_data p));
    JobDatabase.update_job rt job_id (completed_update p total).

(** The [except Exception as e] block. *)
Definition process_dataset_handler (job_id : string) (e : pyexc) : M unit :=
  let error_message := exc_str e in
  if is_quota_error error_message
  then JobDatabase.update_job rt job_id (quota_error_update error_message)
  else JobDatabase.update_job rt job_id (failed_update error_message).

Definition process_dataset (pipeline : outcome pyval)
    (job_id query : string) : M unit :=
  try_except (process_dataset_body pipeline job_id query)
             (process_dataset_handler job_id).

(** [POST /api/jobs/{job_id}/rate] *)
Definition rate_job (job_id rating : string) : M (http JobRatingResponse) :=
  if negb (String.eqb rating "good_dog" || String.eqb rating "bad_dog") then
    mret (HTTPException 400 "Rating must be 'good_dog' or 'bad_dog'")
  else
    job ← JobDatabase.get_job rt job_id;
    match job with
    | None => mret (HTTPException 404 "Job not found")
    | Some _ =>
        success ← JobDatabase.rate_job rt job_id rating;
        if success : bool then
          mret (Ok200 (mk_JobRatingResponse job_id rating true
                         ("Job rated as " ++ rating)))
        else mret (HTTPException 500 "Failed to update rating")
    end.

(** [POST /api/admin/cleanup]: the count the handler puts in its message. *)
Definition cleanup_old_jobs (days : Z) : M Z :=
  JobDatabase.cleanup_old_jobs rt days.

(** [POST /api/datasets/generate], up to the scheduling of the
    background task. *)
Definition generate_dataset (job_id query : string) : M unit :=
  JobDatabase.create_job rt job_id query.

End Handlers.
End Main.

(** ** [crewai_setup_working.py]: looking for JSON in the crew's output *)

Module CrewAI.
Section CreateDataset.
Context (rt : runtime).

(** The payload [create_dataset] returns in place of a parsed one. *)
Definition unparsed_payload (query raw notes : string) : pyval :=
  PDict [("data", PList [PDict [("query", PStr query); ("result", PStr raw)]]);
         ("sources", PList []);
         ("validation_status", PStr "completed");
         ("quality_score", PStr "unknown");
         ("validation_notes", PStr notes)].

(** What the search for JSON in [str(result.raw)] ends in: a decoded
    value, to which [create_dataset] then adds the missing fields (not
    modelled), or one of its two payloads for a failed parse. *)
Inductive found : Type :=
  | Decoded (parsed_result : pyval)
  | Unparsed (payload : pyval).

(** [create_dataset], from the search for a code block to
    [json.loads], with the [except json.JSONDecodeError] branch. *)
Definition find_json (query raw : string) : found :=
  let json_content :=
    match Re.code_block_search raw with
    | Some group1 => Some (PyStr.strip group1)
    | None => Re.brace_search raw
    end in
  match json_content with
  | Some content =>
      match json_loads rt content with
      | Some parsed_result => Decoded parsed_result
      | None =>
          Unparsed (unparsed_payload query raw
                      "JSON parsing failed, but workflow completed")
      end
  | None => Unparsed (unparsed_payload query raw "No JSON found in result")
  end.

End CreateDataset.
End CrewAI.

(** ** [crewai_setup_working.py]: class [WebhoundCrewAI] *)

Module WebhoundCrewAI.

(** What [crew.kickoff()] hands back: an object whose attribute [raw],
    when it has one, is [raw], and whose [str] is [shown]. *)
Record crew_output : Type := mk_crew_output {
  raw : option pyval;
  shown : string
}.

(** What the class is run against: the environment variable, the
    libraries that build the agents and the crew, the crew's run, and
    the texts of two interpreter errors. *)
Record crew : Type := mk_crew {
  gemini_api_key : option string;      (* os.getenv("GEMINI_API_KEY") *)
  build_agents : outcome unit;         (* the model, the tool and the agents *)
  build_crew : string → outcome unit;  (* the tasks and the crew for a query *)
  kickoff : string → outcome crew_output;
  not_a_container_text : pyval → string;
                                       (* str(e) of the TypeError of ['k' in v] *)
  no_item_assignment_text : pyval → string
                                       (* str(e) of the TypeError of [v['k'] = x] *)
}.

Section Methods.
Context (rt : runtime) (c : crew).

(** [__init__] *)
Definition init : outcome unit :=
  match gemini_api_key c with
  | None | Some EmptyString =>
      Raise (Raised "GEMINI_API_KEY not found in environment variables")
  | Some _ => build_agents c
  end.

(** ['key' in v]: a key of a dict, an element of a list, a substring
    of a string. *)
Definition contains_key (key : string) (v : pyval) : outcome bool :=
  match v with
  | PDict d => Return (match dict_get d key with Some _ => true | None => false end)
  | PList l => Return (existsb (λ x, eq_str x key) l)
  | PStr s => Return (PyStr.contains key s)
  | _ => Raise (Raised (not_a_container_text c v))
  end.

(** [v['key'] = x] *)
Definition set_item (v : pyval) (key : string) (x : pyval) : outcome pyval :=
  match v with
  | PDict d => Return (PDict (dict_set d key x))
  | _ => Raise (Raised (no_item_assignment_text c v))
  end.

(** [if 'key' not in parsed_result: parsed_result['key'] = dflt] *)
Definition ensure_field (key : string) (dflt : pyval) (parsed_result : pyval)
    : outcome pyval :=
  present ← contains_key key parsed_result;
  if present : bool then Return parsed_result
  else set_item parsed_result key dflt.

(** "Ensure all required fields are present" *)
Definition ensure_required_fields (parsed_result : pyval) : outcome pyval :=
  p ← ensure_field "data" (PList []) parsed_result;
  p ← ensure_field "sources" (PList []) p;
  p ← ensure_field "validation_status" (PStr "completed") p;
  p ← ensure_field "quality_score" (PStr "unknown") p;
  ensure_field "validation_notes" (PStr "") p.

(** The [try] block of [create_dataset] after [crew.kickoff()]. *)
Definition parse_result (query : string) (result : crew_output) : outcome pyval :=
  match raw result with
  | Some r =>
      if truthy r then
        match CrewAI.find_json rt query (py_str rt r) with
        | CrewAI.Decoded parsed_result => ensure_required_fields parsed_result
        | CrewAI.Unparsed payload => Return payload
        end
      else Return (CrewAI.unparsed_payload query (shown result)
                     "Workflow completed successfully")
  | None => Return (CrewAI.unparsed_payload query (shown result)
                      "Workflow completed successfully")
  end.

(** The payload of the [except Exception] block. *)
Definition error_payload (st notes : string) : pyval :=
  PDict [("data", PList []);
         ("sources", PList []);
         ("validation_status", PStr st);
         ("quality_score", PStr "unknown");
         ("validation_notes", PStr notes)].

(** [create_dataset]; the five keywords of its [except] block are those
    of [main.py]. *)
Definition create_dataset (query : string) : outcome pyval :=
  _ ← build_crew c query;
  match result ← kickoff c query; parse_result query result with
  | Return payload => Return payload
  | Raise e =>
      let error_message := Main.exc_str rt e in
      if Main.is_quota_error error_message
      then Return (error_payload "quota_exceeded"
                     ("API quota exceeded: " ++ error_message))
      else Return (error_payload "failed" ("Error: " ++ error_message))
  end.

(** [create_dataset_async] *)
Definition create_dataset_async (query : string) : outcome pyval :=
  _ ← init;
  create_dataset query.

End Methods.
End WebhoundCrewAI.


(** ** [database.py]: the listing and statistics queries *)

Module JobQueries.

(** A row of [get_recent_queries]. *)
Record recent_query : Type := mk_recent_query {
  rq_job_id : string;
  rq_query : string;
  rq_created_at : datetime;
  rq_status : string;
  rq_user_rating : option string
}.

(** A row of [get_unique_recent_queries]. *)
Record unique_query : Type := mk_unique_query {
  uq_query : string;
  uq_last_asked : datetime;
  uq_times_asked : Z
}.

(** What [get_job_stats] returns; [status_counts] is a dict. *)
Record job_stats : Type := mk_job_stats {
  total_jobs : Z;
  status_counts : gmap string Z;
  recent_jobs_24h : Z
}.

Section Methods.
Context (rt : runtime).

(** The order in which SQLite visits the rows of the table. The SQL
    leaves it open; it decides the order of rows that tie in an
    [ORDER BY]. *)
Context (scan : gmap string row → list (string * row)).

(** An [int] bound as a statement parameter. *)
Definition bind_int (z : Z) : outcome Z :=
  if JobDatabase.fits_int64 z then Return z
  else Raise (Builtin (OverflowError_bind z)).

(** [ORDER BY created DESC] *)
Fixpoint insert_newest_first {A} (created : A → datetime) (x : A) (l : list A)
    : list A :=
  match l with
  | [] => [x]
  | y :: l' =>
      if dt_ltb (created y) (created x) then x :: l
      else y :: insert_newest_first created x l'
  end.

Definition order_by_desc {A} (created : A → datetime) (l : list A) : list A :=
  foldr (insert_newest_first created) [] l.

(** [LIMIT ?]: a negative limit is no limit. *)
Definition sql_limit {A} (limit : Z) (l : list A) : list A :=
  if limit <? 0 then l else take (Z.to_nat limit) l.

(** [SELECT * FROM jobs ORDER BY created_at DESC LIMIT ?] *)
Definition sql_select_newest (limit : Z) : M (list (string * row)) := λ w,
  (w, Return (sql_limit limit
                (order_by_desc (λ kr, created_at kr.2) (scan (jobs w))))).

(** A [TEXT] column as sqlite3 returns it. *)
Definition undecoded (c : option string) : pyval :=
  match c with
  | None => PNone
  | Some s => PStr s
  end.

(** The dict [get_all_jobs] makes of a row: [dataset] and [sources] are
    decoded as in [get_job], [raw_data] is left as it is stored. *)
Definition listed_job (r : row) : JobDatabase.job_dict :=
  JobDatabase.mk_job_dict r
    (JobDatabase.decode_column rt (PList []) (dataset r))
    (JobDatabase.decode_column rt (PList []) (sources r))
    (undecoded (raw_data r)).

(** [get_all_jobs(limit)]; each dict comes with its [job_id]. *)
Definition get_all_jobs (limit : Z) : M (list (string * JobDatabase.job_dict)) :=
  limit ← lift (bind_int limit);
  rows ← sql_select_newest limit;
  mret ((λ kr, (kr.1, listed_job kr.2)) <$> rows).

Definition recent_query_of (kr : string * row) : recent_query :=
  mk_recent_query kr.1 (query kr.2) (created_at kr.2) (status kr.2)
    (user_rating kr.2).

Definition recent_query_eqb (a b : recent_query) : bool :=
  String.eqb (rq_job_id a) (rq_job_id b)
  && String.eqb (rq_query a) (rq_query b)
  && bool_decide (dt_fields (rq_created_at a) = dt_fields (rq_created_at b))
  && String.eqb (rq_status a) (rq_status b)
  && bool_decide (rq_user_rating a = rq_user_rating b).

(** [SELECT DISTINCT]: a row equal to an earlier one is dropped. *)
Fixpoint distinct (l : list recent_query) : list recent_query :=
  match l with
  | [] => []
  | x :: l' => x :: List.filter (λ y, negb (recent_query_eqb x y)) (distinct l')
  end.

(** [SELECT DISTINCT job_id, query, created_at, status, user_rating
    FROM jobs ORDER BY created_at DESC LIMIT ?] *)
Definition sql_select_recent (limit : Z) : M (list recent_query) := λ w,
  (w, Return (sql_limit limit
                (order_by_desc rq_created_at
                   (distinct (recent_query_of <$> scan (jobs w)))))).

(** [get_recent_queries(limit)] *)
Definition get_recent_queries (limit : Z) : M (list recent_query) :=
  limit ← lift (bind_int limit);
  sql_select_recent limit.

(** [MAX] of two timestamps. *)
Definition dt_max (a b : datetime) : datetime := if dt_ltb a b then b else a.

(** One more row for [GROUP BY query], with [MAX(created_at)] and
    [COUNT( * )] kept per group. *)
Fixpoint add_to_group (q : string) (t : datetime) (groups : list unique_query)
    : list unique_query :=
  match groups with
  | [] => [mk_unique_query q t 1]
  | g :: rest =>
      if String.eqb (uq_query g) q
      then mk_unique_query q (dt_max (uq_last_asked g) t) (uq_times_asked g + 1)
             :: rest
      else g :: add_to_group q t rest
  end.

Definition group_by_query (rows : list (string * row)) : list unique_query :=
  foldr (λ kr groups, add_to_group (query kr.2) (created_at kr.2) groups) [] rows.

(** [SELECT query, MAX(created_at) as last_asked, COUNT( * ) as times_asked
    FROM jobs GROUP BY query ORDER BY last_asked DESC LIMIT ?] *)
Definition sql_select_unique (limit : Z) : M (list unique_query) := λ w,
  (w, Return (sql_limit limit
                (order_by_desc uq_last_asked (group_by_query (scan (jobs w)))))).

(** [get_unique_recent_queries(limit)] *)
Definition get_unique_recent_queries (limit : Z) : M (list unique_query) :=
  limit ← lift (bind_int limit);
  sql_select_unique limit.

(** [SELECT status, COUNT( * ) FROM jobs GROUP BY status], put into a
    dict row by row. *)
Definition count_by_status (t : gmap string row) : gmap string Z :=
  map_fold (λ _ r counts,
              <[status r := default 0 (counts !! status r) + 1]> counts) ∅ t.

Definition sql_count_by_status : M (gmap string Z) := λ w,
  (w, Return (count_by_status (jobs w))).

(** [get_job_stats()]; the local [yesterday] is today's midnight. *)
Definition get_job_stats : M job_stats :=
  total_jobs ← JobDatabase.sql_count_where (λ _, true);
  status_counts ← sql_count_by_status;
  t ← JobDatabase.now rt;
  let yesterday := at_midnight t in
  recent_jobs ←
    JobDatabase.sql_count_where (λ r, negb (dt_ltb (created_at r) yesterday));
  mret (mk_job_stats total_jobs status_counts recent_jobs).

End Methods.
End JobQueries.

(** ** [main.py]: the other request handlers *)

Module Endpoints.

(** The body of [GET /api/datasets/{job_id}/raw]. *)
Record RawData : Type := mk_RawData {
  raw_job_id : string;
  raw_query : string;
  raw_status : string;
  raw_payload : pyval;
  raw_created_at : datetime;
  raw_updated_at : datetime
}.

(** The keyword arguments of the model [DatasetResult]. *)
Record DatasetResult : Type := mk_DatasetResult {
  res_job_id : string;
  res_status : string;
  res_query : string;
  res_dataset : pyval;
  res_sources : pyval;
  res_total_records : Z;
  res_validation_status : option string;
  res_quality_score : option string;
  res_validation_notes : option string;
  res_user_rating : option string
}.

(** [FileResponse(path=..., filename=..., media_type=...)] *)
Record FileResponse : Type := mk_FileResponse {
  file_path : string;
  file_name : string;
  media_type : string
}.

(** The body of [GET /api/queries/recent]. *)
Record RecentQueriesResponse : Type := mk_RecentQueriesResponse {
  recent_queries : list JobQueries.recent_query;
  unique_queries : list JobQueries.unique_query
}.

Section Handlers.
Context (rt : runtime).

(** The field validation of the model [DatasetResult] (pydantic): the
    validated model, or the validation error. *)
Context (validate : DatasetResult → outcome DatasetResult).

(** [pd.DataFrame(records).to_csv(path, index=False)]: done, or the
    error pandas raises. *)
Context (to_csv : pyval → string → outcome unit).

Context (scan : gmap string row → list (string * row)).

(** [v or dflt] *)
Definition py_or (v dflt : pyval) : pyval := if truthy v then v else dflt.

(** [GET /api/datasets/{job_id}/raw] *)
Definition get_raw_data (job_id : string) : M (Main.http RawData) :=
  try_except
    (job ← JobDatabase.get_job rt job_id;
     match job with
     | None => mret (Main.HTTPException 404 "Job not found")
     | Some jd =>
         let raw_data := JobDatabase.jd_raw_data jd in
         if negb (truthy raw_data)
         then mret (Main.HTTPException 404 "Raw data not found for this job")
         else
           let r := JobDatabase.jd_row jd in
           mret (Main.Ok200 (mk_RawData job_id (query r) (status r) raw_data
                               (created_at r) (updated_at r)))
     end)
    (λ e, mret (Main.HTTPException 500
                  ("Failed to get raw data: " ++ Main.exc_str rt e))).

(** [GET /api/datasets/{job_id}/results] *)
Definition get_dataset_results (job_id : string) : M (Main.http DatasetResult) :=
  job ← JobDatabase.get_job rt job_id;
  match job with
  | None => mret (Main.HTTPException 404 "Job not found")
  | Some jd =>
      let r := JobDatabase.jd_row jd in
      validated ←
        lift (validate
                (mk_DatasetResult job_id (status r) (query r)
                   (py_or (JobDatabase.jd_dataset jd) (PList []))
                   (py_or (JobDatabase.jd_sources jd) (PList []))
                   (total_records r)
                   (validation_status r) (quality_score r)
                   (validation_notes r) (user_rating r)));
      mret (Main.Ok200 validated)
  end.

(** [GET /api/datasets/{job_id}/download] *)
Definition download_dataset_csv (job_id : string) : M (Main.http FileResponse) :=
  job ← JobDatabase.get_job rt job_id;
  match job with
  | None => mret (Main.HTTPException 404 "Job not found")
  | Some jd =>
      if negb (String.eqb (status (JobDatabase.jd_row jd)) "completed")
      then mret (Main.HTTPException 400 "Dataset not ready for download")
      else
        let csv_filename := "webhound_dataset_" ++ job_id ++ ".csv" in
        let csv_path := "/tmp/" ++ csv_filename in
        if truthy (JobDatabase.jd_dataset jd) then
          _ ← lift (to_csv (JobDatabase.jd_dataset jd) csv_path);
          mret (Main.Ok200 (mk_FileResponse csv_path csv_filename "text/csv"))
        else mret (Main.HTTPException 400 "No data to download")
  end.

(** [GET /api/queries/recent]; the two response models are built from
    columns that have the types they ask for. *)
Definition get_recent_queries (limit : Z) : M (Main.http RecentQueriesResponse) :=
  try_except
    (recent ← JobQueries.get_recent_queries scan limit;
     unique ← JobQueries.get_unique_recent_queries scan limit;
     mret (Main.Ok200 (mk_RecentQueriesResponse recent unique)))
    (λ e, mret (Main.HTTPException 500
                  ("Failed to get recent queries: " ++ Main.exc_str rt e))).

(** [GET /api/admin/stats] *)
Definition get_database_stats : M JobQueries.job_stats :=
  JobQueries.get_job_stats rt.

(** [GET /api/admin/jobs] *)
Definition get_all_jobs (limit : Z) : M (list (string * JobDatabase.job_dict)) :=
  JobQueries.get_all_jobs rt scan limit.

(** [DELETE /api/admin/jobs/{job_id}] *)
Definition delete_job (job_id : string) : M (Main.http string) :=
  success ← JobDatabase.delete_job job_id;
  if success : bool then mret (Main.Ok200 "Job deleted successfully")
  else mret (Main.HTTPException 404 "Job not found").

End Handlers.
End Endpoints.

(** ** A sample runtime

    One concrete choice of what the interpreter supplies, for worked
    examples. [json.loads] is the reference reader and [json.dumps] a
    writer with Python's default separators and ASCII escapes. Floats do
    not occur in the examples: their texts here are place holders. *)

Module Sample.

Definition hex_digit (n : nat) : ascii :=
  ascii_of_nat (if (n <? 10)%nat then 48 + n else 87 + n).

(** One character inside a JSON string literal ([ensure_ascii=True]). *)
Definition escape_char (c : ascii) : string :=
  let n := nat_of_ascii c in
  if Ascii.eqb c PyStr.dquote then String "\" (String c EmptyString)
  else if Ascii.eqb c "\" then "\\"
  else if (n =? 10)%nat then "\n"
  else if (n =? 13)%nat then "\r"
  else if (n =? 9)%nat then "\t"
  else if (n =? 8)%nat then "\b"
  else if (n =? 12)%nat then "\f"
  else if ((32 <=? n) && (n <=? 126))%nat then String c EmptyString
  else "\u00" ++ String (hex_digit (n / 16)) (String (hex_digit (n mod 16)) EmptyString).

Fixpoint escape (s : string) : string :=
  match s with
  | EmptyString => EmptyString
  | String c s' => escape_char c ++ escape s'
  end.

Definition quoted (s : string) : string :=
  String PyStr.dquote (escape s ++ String PyStr.dquote EmptyString).

Fixpoint json_dumps (v : pyval) : string :=
  match v with
  | PNone => "null"
  | PBool b => if b then "true" else "false"
  | PInt z => pretty z
  | PFloat _ => "0.0"
  | PStr s => quoted s
  | PList l =>
      "[" ++ (fix elements (l : list pyval) : string :=
                match l with
                | [] => ""
                | [x] => json_dumps x
                | x :: l' => json_dumps x ++ ", " ++ elements l'
                end) l ++ "]"
  | PDict d =>
      "{" ++ (fix members (d : list (string * pyval)) : string :=
                match d with
                | [] => ""
                | [(k, x)] => quoted k ++ ": " ++ json_dumps x
                | (k, x) :: d' => quoted k ++ ": " ++ json_dumps x ++ ", " ++ members d'
                end) d ++ "}"
  end.

(** [str(v)] on [None], [bool], [int] and [str]; a container is shown
    in its JSON text here. *)
Definition py_str (v : pyval) : string :=
  match v with
  | PNone => "None"
  | PBool b => if b then "True" else "False"
  | PStr s => s
  | _ => json_dumps v
  end.

(** Messages after those of CPython, abridged. *)
Definition error_text (e : builtin_error) : string :=
  match e with
  | TypeError_len _ => "object has no len()"
  | TypeError_search _ => "expected string or bytes-like object"
  | AttributeError_get _ => "object has no attribute 'get'"
  | KeyError_0 => "0"
  | IndexError_0 => "index out of range"
  | TypeError_subscript _ => "object is not subscriptable"
  | InterfaceError_bind _ => "Error binding parameter: type is not supported"
  | OverflowError_bind _ => "Python int too large to convert to SQLite INTEGER"
  | IntegrityError_job_id _ => "UNIQUE constraint failed: jobs.job_id"
  | ValueError_day _ => "day is out of range for month"
  | ZeroDivisionError => "division by zero"
  end.

(** Noon of 15 January 2025, a microsecond later at every reading. *)
Definition clock (n : nat) : datetime := mk_datetime 2025 1 15 12 0 0 (Z.of_nat n).

Definition rt : runtime :=
  mk_runtime JsonRef.json_loads_ref json_dumps py_str error_text
    (λ _, Some "0.0") clock.

End Sample.

(** ** Worked examples: texts and payloads *)

Module Examples.
Import Sample.

(** A text written with apostrophes where the JSON text has quotes. *)
Fixpoint dq (s : string) : string :=
  match s with
  | EmptyString => EmptyString
  | String c s' => String (if Ascii.eqb c "'" then PyStr.dquote else c) (dq s')
  end.

Definition newline : string := String PyStr.nl EmptyString.

(** The [result] text of the design document's example: a fenced block
    tagged [json] around an object with [data] and [sources]. *)
Definition fenced_text : string :=
  "```json" ++ newline ++ dq "{'data':[{'a':1}],'sources':['u']}" ++ newline ++ "```".

(** [{"data": [{"result": text}]}] *)
Definition payload_with_result (text : string) : pyval :=
  PDict [("data", PList [PDict [("result", PStr text)]])].

Definition fenced_payload : pyval := payload_with_result fenced_text.


(** A fenced object whose [validation_notes] is a list of notes. *)
Definition fenced_listed_notes : string :=
  "```json" ++ newline
  ++ dq "{'data':[{'a':1}],'validation_notes':['checked']}" ++ newline ++ "```".

(** The same object with no fence around it. *)
Definition bare_json_text : string := dq "{'data':[{'a':1}],'sources':['u']}".

(** A job that was just submitted. *)
Definition submitted : world :=
  exec (Main.generate_dataset rt "job-1" "some query") init_world.

(** One job rated good and two rated bad out of four. *)
Definition rated_world : world :=
  let submit id w := exec (Main.generate_dataset rt id "q") w in
  let rate id rating w := exec (Main.rate_job rt id rating) w in
  rate "c" "bad_dog"
    (rate "b" "bad_dog"
       (rate "a" "good_dog"
          (submit "d" (submit "c" (submit "b" (submit "a" init_world)))))).

End Examples.

(** ** More worked examples *)

(** Two more payloads for worked examples: a record whose [result]
    column is a number, and a fenced block that holds a JSON array. *)
Definition numeric_result_payload : pyval :=
  PDict [("data", PList [PDict [("team", PStr "A"); ("result", PInt 3)]])].

Definition fenced_array_text : string :=
  "```json" ++ Examples.newline ++ Examples.dq "[{'a':1}]"
  ++ Examples.newline ++ "```".

(** A crew whose run returns [output], with CPython's error texts. *)
Definition sample_crew (run : outcome WebhoundCrewAI.crew_output)
    : WebhoundCrewAI.crew :=
  WebhoundCrewAI.mk_crew (Some "key") (Return ()) (λ _, Return ()) (λ _, run)
    (λ _, "argument of this type is not iterable")
    (λ v, match v with
          | PList _ => "list indices must be integers or slices, not str"
          | _ => "object does not support item assignment"
          end).


(** A crew built without the API key. *)
Definition keyless_crew : WebhoundCrewAI.crew :=
  WebhoundCrewAI.mk_crew None (Return ()) (λ _, Return ())
    (λ _, Raise (Raised "never run")) (λ _, "") (λ _, "").

(** Crew output that is the text [text]. *)
Definition text_output (text : string) : outcome WebhoundCrewAI.crew_output :=
  Return (WebhoundCrewAI.mk_crew_output (Some (PStr text)) text).

(** A fenced object with two records and nothing else. *)
Definition fenced_rows_text : string :=
  "```json" ++ Examples.newline
  ++ Examples.dq "{'data':[{'city':'Oslo'},{'city':'Bergen'}]}"
  ++ Examples.newline ++ "```".

(** The job row right after submission in [Examples.submitted]. *)
Definition submitted_row : row :=
  mk_row "some query" "processing" None None None 0 None None None None None
    (Sample.clock 0) (Sample.clock 1).

(** The five locals of step 3 for the fenced example. *)
Definition fenced_parsed : Main.parsed :=
  Main.mk_parsed (PList [PDict [("a", PInt 1)]]) (PList [PStr "u"])
    (PStr "completed") (PStr "unknown") (PStr "").

(** The job of [Examples.submitted] after its task ran on the fenced
    example. *)
Definition completed_world : world :=
  exec (Main.process_dataset Sample.rt (Return Examples.fenced_payload)
          "job-1" "some query") Examples.submitted.

(** * The vocabulary of the statements *)


(** [n / total * 100] in floating point. *)
Definition percent_float (n total : Z) : float :=
  PrimFloat.mul (PrimFloat.div (PyFloat.of_count n) (PyFloat.of_count total))
    (PyFloat.of_count 100).

(** The cutoff [cleanup_old_jobs] computes when it computes one:
    midnight of the day whose number in the current month is today's
    minus [days]. *)
Definition cutoff_of (today : datetime) (days : Z) : datetime :=
  mk_datetime (year today) (month today) (day today - days) 0 0 0 0.

(** The payload is a mapping whose [data] list starts with a mapping
    that has a [result] text. *)
Definition has_result_text (d : pydict) (outer_data : pyval) (text : string) : Prop :=
  ∃ fi rest,
    outer_data = PList (PDict fi :: rest)
    ∧ dict_get d "data" = Some outer_data
    ∧ dict_get fi "result" = Some (PStr text).

(** The columns a [completed] update leaves, given the five bound texts. *)
Definition completed_columns (cd cs : option string) (total : Z)
    (cv cq cn : option string) (r : row) : row :=
  mk_row (query r) "completed" cd cs (raw_data r) total cv cq cn
    (user_rating r) (rating_timestamp r) (created_at r) (updated_at r).


(** The update names the column [raw_data]. *)
Definition writes_raw_data (kwargs : list field) : bool :=
  existsb (λ f, match f with F_raw_data _ => true | _ => false end) kwargs.

(** The status an update sets, if it sets one. *)
Fixpoint status_set_by (kwargs : list field) : option string :=
  match kwargs with
  | [] => None
  | F_status s :: _ => Some s
  | _ :: rest => status_set_by rest
  end.

(** One of the three statuses a job ends in. *)
Definition terminal_status (s : string) : Prop :=
  s = "completed" ∨ s = "failed" ∨ s = "quota_exceeded".

(** What can happen to the store, one event at a time. [SaveRaw] is the
    background task stopped after its first write: the task makes two
    writes, and a reader may see the table between them. *)
Inductive event : Type :=
  | Generate (job_id query : string)
  | SaveRaw (job_id : string) (dataset : pyval)
  | Process (pipeline : outcome pyval) (job_id query : string)
  | Rate (job_id rating : string)
  | GetJob (job_id : string)
  | RatingStats
  | Delete (job_id : string)
  | Cleanup (days : Z).

Section Vocabulary.
Context (rt : runtime).

(** The columns a terminal update written with literals leaves: status
    and validation status [st], no records, no sources, notes [notes]. *)
Definition terminal_columns (st notes : string) (r : row) : row :=
  mk_row (query r) st (Some (json_dumps rt (PList [])))
    (Some (json_dumps rt (PList []))) (raw_data r) 0 (Some st)
    (Some "unknown") (Some notes) (user_rating r) (rating_timestamp r)
    (created_at r) (updated_at r).

(** The design document's step 1 for the records, in its words: parse
    the interior of a fenced block if there is one; else parse the
    brace-delimited substring; take [data] of the parsed object, or keep
    the outer list when nothing parses. *)
Definition spec_embedded_json (text : string) : option pyval :=
  match Re.code_block_search text with
  | Some interior => json_loads rt (PyStr.strip interior)
  | None =>
      match Re.brace_search text with
      | Some braces => json_loads rt braces
      | None => None
      end
  end.

Definition spec_records (outer_data : pyval) (text : string) : pyval :=
  match spec_embedded_json text with
  | Some (PDict pj) => dict_get_default pj "data" (PList [])
  | _ => outer_data
  end.


(** The world after one event; what the event answers is dropped. *)
Definition handle (ev : event) (w : world) : world :=
  match ev with
  | Generate job_id q => exec (Main.generate_dataset rt job_id q) w
  | SaveRaw job_id dataset =>
      exec (JobDatabase.update_job rt job_id [F_raw_data dataset]) w
  | Process pipeline job_id q => exec (Main.process_dataset rt pipeline job_id q) w
  | Rate job_id rating => exec (Main.rate_job rt job_id rating) w
  | GetJob job_id => exec (JobDatabase.get_job rt job_id) w
  | RatingStats => exec JobDatabase.get_job_rating_stats w
  | Delete job_id => exec (JobDatabase.delete_job job_id) w
  | Cleanup days => exec (Main.cleanup_old_jobs rt days) w
  end.

(** The world after a history of events, starting from an empty table. *)
Definition after (history : list event) : world :=
  foldl (λ w ev, handle ev w) init_world history.

(** A [dataset] or [sources] column that holds no record: [NULL], or
    the text of the empty list. *)
Definition empty_column (c : option string) : Prop :=
  c = None ∨ c = Some (json_dumps rt (PList [])).

(** The invariant of the table, row by row. *)
Definition records_only_when_completed (r : row) : Prop :=
  status r ≠ "completed" → empty_column (dataset r) ∧ empty_column (sources r).

End Vocabulary.

(** [m] keeps [P] true of every row of the table, whatever it returns
    or raises. *)
Definition keeps (P : row → Prop) {A} (m : M A) : Prop :=
  ∀ w, map_Forall (λ _ r, P r) (jobs w) →
       map_Forall (λ _ r, P r) (jobs (m w).1).

(** * Further vocabulary *)







(** [m] changes no row but that of [job_id], and creates none. *)
Definition touches_only (job_id : string) {A} (m : M A) : Prop :=
  ∀ w k, k ≠ job_id ∨ jobs w !! job_id = None →
         jobs (m w).1 !! k = jobs w !! k.

(** The columns the [except] block of [process_dataset] writes for the
    error text [msg]. *)
Definition error_columns (rt : runtime) (msg : string) (r : row) : row :=
  if Main.is_quota_error msg
  then terminal_columns rt "quota_exceeded"
         ("API quota exceeded: " ++ msg
          ++ ". Please try again later or upgrade your plan.") r
  else terminal_columns rt "failed" ("Error: " ++ msg) r.

(** [isinstance(v, str)] *)
Definition is_str (v : pyval) : bool :=
  match v with PStr _ => true | _ => false end.



(** Each of the five required names is [in] the payload. *)
Definition has_required_fields (c : WebhoundCrewAI.crew) (payload : pyval) : Prop :=
  ∀ key, key ∈ ["data"; "sources"; "validation_status"; "quality_score";
                "validation_notes"] →
         WebhoundCrewAI.contains_key c key payload = Return true.

(** The payload of [create_dataset]'s [except] block for the error text
    [msg], and the job row the task makes of it at time [t]. *)
Definition crew_error_payload (msg : string) : pyval :=
  if Main.is_quota_error msg
  then WebhoundCrewAI.error_payload "quota_exceeded" ("API quota exceeded: " ++ msg)
  else WebhoundCrewAI.error_payload "failed" ("Error: " ++ msg).

Definition crew_error_row (rt : runtime) (msg : string) (r : row) (t : datetime)
    : row :=
  let empty := Some (json_dumps rt (PList [])) in
  let raw := Some (json_dumps rt (crew_error_payload msg)) in
  if Main.is_quota_error msg
  then mk_row (query r) "quota_exceeded" empty empty raw 0
         (Some "quota_exceeded") (Some "unknown")
         (Some "API quota exceeded. Please try again later or upgrade your plan.")
         (user_rating r) (rating_timestamp r) (created_at r) t
  else mk_row (query r) "completed" empty empty raw 0
         (Some "failed") (Some "unknown") (Some ("Error: " ++ msg))
         (user_rating r) (rating_timestamp r) (created_at r) t.


(** The first record, if there is one, is no mapping with a [result]. *)
Definition first_has_no_result (rows : list pyval) : Prop :=
  match rows with
  | PDict fi :: _ => dict_get fi "result" = None
  | _ => True
  end.

(** The rating of a row is unset or one of the two values. *)
Definition rating_known (r : row) : Prop :=
  user_rating r = None
  ∨ user_rating r = Some "good_dog"
  ∨ user_rating r = Some "bad_dog".

(** The shape of a job row by its status: a job in processing has
    nothing but its query and, possibly, raw data; a failed or
    quota_exceeded job has the columns of a terminal update. *)
Definition job_shape (rt : runtime) (r : row) : Prop :=
  (status r = "processing"
   ∧ dataset r = None ∧ sources r = None ∧ total_records r = 0
   ∧ validation_status r = None ∧ quality_score r = None
   ∧ validation_notes r = None)
  ∨ (status r = "completed" ∧ 0 <= total_records r)
  ∨ ((status r = "failed" ∨ status r = "quota_exceeded")
     ∧ dataset r = Some (json_dumps rt (PList []))
     ∧ sources r = Some (json_dumps rt (PList []))
     ∧ total_records r = 0
     ∧ validation_status r = Some (status r)
     ∧ quality_score r = Some "unknown"
     ∧ ∃ notes, validation_notes r = Some notes).

(** [x] is not older than [y]; a list sorted by it is newest first. *)
Definition not_older_than {A} (created : A → datetime) (x y : A) : Prop :=
  dt_ltb (created x) (created y) = false.

(** The number of rows a [LIMIT] leaves of [n]. *)
Definition limited (limit : Z) (n : nat) : nat :=
  if limit <? 0 then n else Nat.min (Z.to_nat limit) n.

(** The group [g] sums up the jobs of table [t] that asked its query:
    it counts them, its time is the creation time of one of them, and
    none of them is newer. *)
Definition sums_up (t : gmap string row) (g : JobQueries.unique_query) : Prop :=
  JobQueries.uq_times_asked g
  = Z.of_nat (size (JobDatabase.rows_where
                      (λ r, String.eqb (query r) (JobQueries.uq_query g)) t))
  ∧ (∃ k r, t !! k = Some r
       ∧ query r = JobQueries.uq_query g
       ∧ created_at r = JobQueries.uq_last_asked g)
  ∧ ∀ k r, t !! k = Some r → query r = JobQueries.uq_query g →
           dt_ltb (JobQueries.uq_last_asked g) (created_at r) = false.

(** The sum of the counts in a dict. *)
Definition sum_counts (counts : gmap string Z) : Z :=
  map_fold (λ _ n acc, n + acc) 0 counts.

(** The number of jobs of table [t] in status [s]. *)
Definition jobs_in_status (s : string) (t : gmap string row) : nat :=
  size (JobDatabase.rows_where (λ r, String.eqb (status r) s) t).

(** * Properties *)

(** ** How the database methods run *)

Section DatabaseRuns.
Context (rt : runtime).

Lemma update_job_binds job_id kwargs upd w :
  JobDatabase.bind_fields rt kwargs = Return upd →
  JobDatabase.update_job rt job_id kwargs w
  = (mk_world
       (alter (λ r, JobDatabase.set_updated_at (clock rt (ticks w)) (upd r))
          job_id (jobs w))
       (S (ticks w)) (journal w ++ [(job_id, kwargs)]),
     Return ()).
Proof.
  intros Hb. unfold JobDatabase.update_job, mbind, M_bind, lift; simpl.
  by rewrite Hb.
Qed.

Lemma update_job_refused job_id kwargs e w :
  JobDatabase.bind_fields rt kwargs = Raise e →
  JobDatabase.update_job rt job_id kwargs w
  = (mk_world (jobs w) (S (ticks w)) (journal w), Raise e).
Proof.
  intros Hb. unfold JobDatabase.update_job, mbind, M_bind, lift; simpl.
  by rewrite Hb.
Qed.

Lemma failed_update_binds msg :
  JobDatabase.bind_fields rt (Main.failed_update msg)
  = Return (terminal_columns rt "failed" ("Error: " ++ msg)).
Proof. reflexivity. Qed.

Lemma quota_error_update_binds msg :
  JobDatabase.bind_fields rt (Main.quota_error_update msg)
  = Return (terminal_columns rt "quota_exceeded"
              ("API quota exceeded: " ++ msg
               ++ ". Please try again later or upgrade your plan.")).
Proof. reflexivity. Qed.

Lemma quota_in_result_update_binds :
  JobDatabase.bind_fields rt Main.quota_in_result_update
  = Return (terminal_columns rt "quota_exceeded"
              "API quota exceeded. Please try again later or upgrade your plan.").
Proof. reflexivity. Qed.

(** The handler of [process_dataset] writes one terminal update and
    does not raise. *)
Lemma handler_run job_id e w :
  let msg := Main.exc_str rt e in
  let kwargs := if Main.is_quota_error msg then Main.quota_error_update msg
                else Main.failed_update msg in
  let upd := if Main.is_quota_error msg
             then terminal_columns rt "quota_exceeded"
                    ("API quota exceeded: " ++ msg
                     ++ ". Please try again later or upgrade your plan.")
             else terminal_columns rt "failed" ("Error: " ++ msg) in
  Main.process_dataset_handler rt job_id e w
  = (mk_world
       (alter (λ r, JobDatabase.set_updated_at (clock rt (ticks w)) (upd r))
          job_id (jobs w))
       (S (ticks w)) (journal w ++ [(job_id, kwargs)]),
     Return ()).
Proof.
  unfold Main.process_dataset_handler; cbv zeta.
  destruct (Main.is_quota_error (Main.exc_str rt e)).
  - apply update_job_binds, quota_error_update_binds.
  - apply update_job_binds, failed_update_binds.
Qed.

End DatabaseRuns.

(** ** Substrings *)

Lemma append_nil_l (s : string) : "" ++ s = s.
Proof. reflexivity. Qed.

Lemma append_cons (c : ascii) (s t : string) :
  String c s ++ t = String c (s ++ t).
Proof. reflexivity. Qed.

Lemma prefix_nil (s : string) : String.prefix "" s = true.
Proof. by destruct s. Qed.

Lemma prefix_cons (c c' : ascii) (s t : string) :
  String.prefix (String c s) (String c' t)
  = if ascii_dec c c' then String.prefix s t else false.
Proof. reflexivity. Qed.

Lemma prefix_cons_nil (c : ascii) (s : string) :
  String.prefix (String c s) "" = false.
Proof. reflexivity. Qed.

Lemma prefix_app (sub s : string) :
  String.prefix sub s = true ↔ ∃ post, s = sub ++ post.
Proof.
  revert s. induction sub as [|c sub IH]; intros s.
  - rewrite prefix_nil. split; [intros _; by exists s | done].
  - destruct s as [|c' s].
    + rewrite prefix_cons_nil. split; [done | intros [post ?]; discriminate].
    + rewrite prefix_cons. destruct (ascii_dec c c') as [->|Hne].
      * rewrite IH. split; intros [post Hp]; exists post;
          rewrite ?append_cons in *; congruence.
      * split; [done | intros [post Hp]; rewrite append_cons in Hp; congruence].
Qed.



(** ** The job after a pipeline error *)

Section PipelineErrors.
Context (rt : runtime).


End PipelineErrors.


(** ** Rating *)

Section Rating.
Context (rt : runtime).

(** C9. A rating other than the two enumerated values is answered with
    status 400 whatever the job id, also when no such job exists, and
    the world (table, clock, journal) is left as it was: the check of
    the value comes before the lookup of the job. *)
Theorem invalid_rating_is_rejected_before_lookup
    (job_id rating : string) (w : world) :
  rating ≠ "good_dog" → rating ≠ "bad_dog" →
  Main.rate_job rt job_id rating w
  = (w, Return (Main.HTTPException 400 "Rating must be 'good_dog' or 'bad_dog'")).
Proof.
  intros Hg Hb. unfold Main.rate_job.
  apply String.eqb_neq in Hg, Hb. by rewrite Hg, Hb.
Qed.

Lemma alter_existing (f : row → row) (k : string) (t : gmap string row) (r : row) :
  t !! k = Some r → alter f k t = <[k := f r]> t.
Proof.
  intros Hr. apply map_eq. intros k'.
  destruct (decide (k = k')) as [<-|Hne].
  - by rewrite lookup_alter_eq, lookup_insert_eq, Hr.
  - by rewrite lookup_alter_ne, lookup_insert_ne.
Qed.

(** A rating of an existing job with one of the two values. *)
Lemma rate_job_existing (job_id rating : string) (w : world) (r : row) :
  jobs w !! job_id = Some r →
  JobDatabase.valid_rating rating = true →
  Main.rate_job rt job_id rating w
  = (mk_world
       (<[job_id := JobDatabase.set_updated_at (clock rt (S (ticks w)))
                      (JobDatabase.set_rating rating (clock rt (ticks w)) r)]>
          (jobs w))
       (S (S (ticks w))) (journal w),
     Return (Main.Ok200 (Main.mk_JobRatingResponse job_id rating true
                           ("Job rated as " ++ rating)))).
Proof.
  intros Hr Hv. unfold Main.rate_job.
  unfold JobDatabase.valid_rating in Hv. rewrite Hv; simpl.
  unfold mbind, mret, M_bind, M_ret, JobDatabase.get_job,
    JobDatabase.sql_select, JobDatabase.rate_job, JobDatabase.valid_rating;
    simpl.
  rewrite Hr, Hv; simpl. rewrite Hr; simpl.
  by rewrite (alter_existing _ _ _ r Hr).
Qed.

(** C7, as the code has it: the two ratings are "good_dog" and
    "bad_dog". Rating an existing job "good_dog" and then "bad_dog"
    succeeds twice and changes, in the whole table, only that job's
    user_rating (now "bad_dog"), rating_timestamp and updated_at; the
    status and every other column keep their values, and no UPDATE of
    update_job is journalled. *)
Theorem rating_twice_changes_rating_columns_only
    (job_id : string) (w : world) (r : row) :
  jobs w !! job_id = Some r →
  let first := Main.rate_job rt job_id "good_dog" in
  let second := Main.rate_job rt job_id "bad_dog" in
  (∃ body, result first w = Return (Main.Ok200 body))
  ∧ (∃ body, result second (exec first w) = Return (Main.Ok200 body))
  ∧ jobs (exec second (exec first w))
    = <[job_id :=
          mk_row (query r) (status r) (dataset r) (sources r) (raw_data r)
            (total_records r) (validation_status r) (quality_score r)
            (validation_notes r) (Some "bad_dog")
            (Some (clock rt (ticks w + 2)%nat)) (created_at r)
            (clock rt (ticks w + 3)%nat)]> (jobs w)
  ∧ journal (exec second (exec first w)) = journal w.
Proof.
  intros Hr first second. unfold first, second, result, exec.
  rewrite (rate_job_existing _ "good_dog" _ r Hr eq_refl); simpl.
  erewrite (rate_job_existing _ "bad_dog");
    [| apply lookup_insert_eq | reflexivity]; simpl.
  split; [eauto |]. split; [eauto |]. split; [| done].
  rewrite insert_insert_eq.
  replace (ticks w + 2)%nat with (S (S (ticks w))) by lia.
  replace (ticks w + 3)%nat with (S (S (S (ticks w)))) by lia.
  reflexivity.
Qed.

End Rating.

Lemma invalid_rating_is_rejected_before_lookup_witness :
  init_world.(jobs) !! "no-such-job" = None
  ∧ Main.rate_job Sample.rt "no-such-job" "approve" init_world
    = (init_world,
       Return (Main.HTTPException 400 "Rating must be 'good_dog' or 'bad_dog'")).
Proof.
  split; [reflexivity |].
  apply (invalid_rating_is_rejected_before_lookup Sample.rt
           "no-such-job" "approve" init_world); discriminate.
Defined.

Lemma rating_twice_changes_rating_columns_only_witness :
  ∃ r', jobs (exec (Main.rate_job Sample.rt "job-1" "bad_dog")
                (exec (Main.rate_job Sample.rt "job-1" "good_dog")
                   Examples.submitted)) !! "job-1" = Some r'
        ∧ status r' = "processing" ∧ user_rating r' = Some "bad_dog".
Proof.
  edestruct (rating_twice_changes_rating_columns_only Sample.rt "job-1"
               Examples.submitted) as (_ & _ & Hjobs & _).
  - vm_compute. reflexivity.
  - rewrite Hjobs, lookup_insert_eq. eexists. split; [reflexivity |].
    split; reflexivity.
Defined.

(** C7 as the design document words it fails: "approve" and "reject" are
    not ratings the code accepts. Both requests are answered with status
    400 and the job's user_rating stays unset. *)
Lemma approve_then_reject_is_refused :
  let first := Main.rate_job Sample.rt "job-1" "approve" in
  let second := Main.rate_job Sample.rt "job-1" "reject" in
  result first Examples.submitted
  = Return (Main.HTTPException 400 "Rating must be 'good_dog' or 'bad_dog'")
  ∧ result second (exec first Examples.submitted)
    = Return (Main.HTTPException 400 "Rating must be 'good_dog' or 'bad_dog'")
  ∧ user_rating <$> jobs (exec second (exec first Examples.submitted)) !! "job-1"
    = Some None
  ∧ user_rating <$> jobs (exec second (exec first Examples.submitted)) !! "job-1"
    ≠ Some (Some "reject").
Proof. vm_compute. repeat split; congruence. Qed.

(** ** Rating statistics *)

Section RatingStats.

Lemma percentage_guarded (n total : Z) :
  0 <= total →
  JobDatabase.percentage n total
  = Return (if total =? 0 then PInt 0 else PFloat (percent_float n total)).
Proof.
  intros Hge. unfold JobDatabase.percentage, JobDatabase.truediv.
  destruct (Z.ltb_spec 0 total) as [Hpos|Hle].
  - destruct (Z.eqb_spec total 0) as [->|_]; [lia | reflexivity].
  - destruct (Z.eqb_spec total 0) as [_|Hne]; [reflexivity | lia].
Qed.


End RatingStats.

Set Warnings "-inexact-float".
Example rating_stats_one_good_two_bad :
  result JobDatabase.get_job_rating_stats Examples.rated_world
  = Return (JobDatabase.mk_rating_stats 3 1 2 (PFloat 33.3) (PFloat 66.7)).
Proof. vm_compute. reflexivity. Qed.
Set Warnings "inexact-float".

Example rating_stats_nothing_rated :
  result JobDatabase.get_job_rating_stats Examples.submitted
  = Return (JobDatabase.mk_rating_stats 0 0 0 (PInt 0) (PInt 0)).
Proof. vm_compute. reflexivity. Qed.

(** ** Purging old jobs *)

Section Cleanup.
Context (rt : runtime).

(** Within the current month the purge works: it removes exactly the
    rows created strictly before the cutoff and returns their number. *)
Lemma cleanup_within_month (days : Z) (w : world) :
  let today := clock rt (ticks w) in
  let cutoff := cutoff_of today days in
  1 <= day today - days <= days_in_month (year today) (month today) →
  let run := JobDatabase.cleanup_old_jobs rt days in
  result run w
  = Return (Z.of_nat (size (JobDatabase.rows_where
                              (JobDatabase.is_old cutoff) (jobs w))))
  ∧ ∀ job_id r,
      jobs (exec run w) !! job_id = Some r
      ↔ jobs w !! job_id = Some r ∧ dt_ltb (created_at r) cutoff = false.
Proof.
  intros today cutoff Hday run.
  unfold run, result, exec, JobDatabase.cleanup_old_jobs,
    JobDatabase.replace_day, JobDatabase.sql_delete_where,
    mbind, M_bind, lift; simpl. fold today.
  destruct (Z.leb_spec 1 (day today - days)); [| lia].
  destruct (Z.leb_spec (day today - days)
              (days_in_month (year today) (month today))); [| lia].
  simpl. split; [reflexivity |].
  intros job_id r. unfold JobDatabase.rows_where_not.
  by rewrite map_lookup_filter_Some.
Qed.

(** As soon as [days] reaches today's day of the month, the purge
    raises [ValueError] and deletes nothing. *)
Lemma cleanup_raises_outside_month (days : Z) (w : world) :
  let today := clock rt (ticks w) in
  day today <= days →
  JobDatabase.cleanup_old_jobs rt days w
  = (mk_world (jobs w) (S (ticks w)) (journal w),
     Raise (Builtin (ValueError_day (day today - days)))).
Proof.
  intros today Hday.
  unfold JobDatabase.cleanup_old_jobs, JobDatabase.replace_day,
    mbind, M_bind, lift; simpl. fold today.
  destruct (Z.leb_spec 1 (day today - days)); [lia | reflexivity].
Qed.

End Cleanup.

(** C3 fails on the code. On 15 January 2025 a purge of the jobs older
    than 30 days, the default of the admin endpoint, raises ValueError
    (day -15 is out of range) on every table: no job is deleted and no
    count is returned, although jobs created before 16 December 2024
    may be present. *)
Theorem cleanup_30_days_raises_on_the_15th (w : world) :
  Main.cleanup_old_jobs Sample.rt 30 w
  = (mk_world (jobs w) (S (ticks w)) (journal w),
     Raise (Builtin (ValueError_day (-15)))).
Proof. reflexivity. Qed.

(** A job created on 1 November 2024 survives that purge. *)
Example old_job_survives_failed_cleanup :
  let old_clock (n : nat) := mk_datetime 2024 11 1 9 0 0 (Z.of_nat n) in
  let old_rt := mk_runtime JsonRef.json_loads_ref Sample.json_dumps
                  Sample.py_str Sample.error_text (λ _, None) old_clock in
  let w := exec (Main.generate_dataset old_rt "old-job" "q") init_world in
  created_at <$> jobs w !! "old-job" = Some (mk_datetime 2024 11 1 9 0 0 0)
  ∧ result (Main.cleanup_old_jobs Sample.rt 30) w
    = Raise (Builtin (ValueError_day (-15)))
  ∧ is_Some (jobs (exec (Main.cleanup_old_jobs Sample.rt 30) w) !! "old-job").
Proof. vm_compute. repeat split. by eexists. Qed.

(** ** Extraction *)

Section Extraction.
Context (rt : runtime).

(** On such a payload step 3 is decided by the fenced block alone. *)
Lemma extract_result_on_result_text (query : string) (d : pydict)
    (outer_data : pyval) (text : string) :
  has_result_text d outer_data text →
  Main.extract_result rt query (PDict d)
  = match Re.code_block_search text with
    | Some group1 =>
        match json_loads rt (PyStr.strip group1) with
        | Some parsed_json => Main.fields_of_parsed_json parsed_json
        | None => Return (Main.fields_of outer_data d)
        end
    | None => Return (Main.fields_of outer_data d)
    end.
Proof.
  intros (fi & rest & -> & Hdata & Hres).
  unfold Main.extract_result, dict_get_default. rewrite Hdata; simpl.
  by rewrite Hres.
Qed.

(** C1, as the code has it. When the result text has no fenced code
    block, the extractor makes no search for a brace-delimited substring
    and parses nothing: it returns the outer data list and the outer
    payload's sources and quality fields (with their defaults) at once. *)
Theorem no_fence_means_outer_fields (query : string) (d : pydict)
    (outer_data : pyval) (text : string) :
  has_result_text d outer_data text →
  Re.code_block_search text = None →
  Main.extract_result rt query (PDict d) = Return (Main.fields_of outer_data d).
Proof.
  intros Hshape Hnone.
  by rewrite (extract_result_on_result_text _ _ _ _ Hshape), Hnone.
Qed.

End Extraction.

Lemma no_fence_means_outer_fields_witness :
  Main.extract_result Sample.rt "q"
    (Examples.payload_with_result Examples.bare_json_text)
  = Return (Main.mk_parsed
              (PList [PDict [("result", PStr Examples.bare_json_text)]])
              (PList []) (PStr "completed") (PStr "unknown") (PStr "")).
Proof.
  apply (no_fence_means_outer_fields Sample.rt "q"
           [("data", PList [PDict [("result", PStr Examples.bare_json_text)]])]
           (PList [PDict [("result", PStr Examples.bare_json_text)]])
           Examples.bare_json_text).
  - eexists _, _. repeat split; reflexivity.
  - vm_compute. reflexivity.
Defined.

(** C1 as stated fails. The text below has no fenced block and is, from
    its first brace to its last, a JSON object with a [data] list; the
    design document's step 1b would take that list as the records, the
    extractor returns the outer list with the unparsed text in it. *)
Lemma brace_delimited_json_is_not_parsed :
  let text := Examples.bare_json_text in
  let outer_data := PList [PDict [("result", PStr text)]] in
  Re.code_block_search text = None
  ∧ Re.brace_search text = Some text
  ∧ spec_records Sample.rt outer_data text = PList [PDict [("a", PInt 1)]]
  ∧ Main.parsed_data
      <$> Main.extract_result Sample.rt "q" (Examples.payload_with_result text)
    = Return outer_data
  ∧ Main.parsed_data
      <$> Main.extract_result Sample.rt "q" (Examples.payload_with_result text)
    ≠ Return (spec_records Sample.rt outer_data text).
Proof. vm_compute. repeat split; congruence. Qed.

(** ** The background task on a returned payload *)

Section Completion.
Context (rt : runtime).

(** When the [completed] update binds, each of its five values bound. *)
Lemma completed_update_binds (p : Main.parsed) (total : Z) (upd : row → row) :
  JobDatabase.bind_fields rt (Main.completed_update p total) = Return upd →
  ∃ cd cs cv cq cn,
    JobDatabase.bind_text rt true (Main.parsed_data p) = Return cd
    ∧ JobDatabase.bind_text rt true (Main.parsed_sources p) = Return cs
    ∧ JobDatabase.bind_text rt false (Main.parsed_validation_status p) = Return cv
    ∧ JobDatabase.bind_text rt false (Main.parsed_quality_score p) = Return cq
    ∧ JobDatabase.bind_text rt false (Main.parsed_validation_notes p) = Return cn
    ∧ upd = completed_columns cd cs total cv cq cn.
Proof.
  unfold Main.completed_update; simpl.
  unfold mbind, outcome_bind, fmap, outcome_fmap.
  destruct (JobDatabase.bind_text rt true (Main.parsed_data p)) as [cd|];
    [| discriminate].
  destruct (JobDatabase.bind_text rt true (Main.parsed_sources p)) as [cs|];
    [| discriminate].
  destruct (JobDatabase.bind_text rt false (Main.parsed_validation_status p))
    as [cv|]; [| discriminate].
  destruct (JobDatabase.bind_text rt false (Main.parsed_quality_score p))
    as [cq|]; [| discriminate].
  destruct (JobDatabase.bind_text rt false (Main.parsed_validation_notes p))
    as [cn|]; [| discriminate].
  intros [= <-]. by exists cd, cs, cv, cq, cn.
Qed.

(** The run of [process_dataset] that ends in [completed]: the raw
    payload is written, then the parsed fields. *)
Lemma process_dataset_completes (dataset : pyval) (job_id query : string)
    (w : world) (c : option string) (p : Main.parsed) (total : Z)
    (upd : row → row) :
  JobDatabase.bind_text rt true dataset = Return c →
  Main.reports_quota dataset = false →
  Main.extract_result rt query dataset = Return p →
  Main.py_len (Main.parsed_data p) = Return total →
  JobDatabase.bind_fields rt (Main.completed_update p total) = Return upd →
  Main.process_dataset rt (Return dataset) job_id query w
  = (mk_world
       (alter (λ r, JobDatabase.set_updated_at (clock rt (S (ticks w))) (upd r))
          job_id
          (alter (λ r, JobDatabase.set_updated_at (clock rt (ticks w))
                         (JobDatabase.set_raw_data c r))
             job_id (jobs w)))
       (S (S (ticks w)))
       (journal w ++ [(job_id, [F_raw_data dataset]);
                      (job_id, Main.completed_update p total)]),
     Return ()).
Proof.
  intros Hraw Hq Hp Hlen Hupd.
  unfold Main.process_dataset, try_except, Main.process_dataset_body.
  unfold mbind at 1, M_bind at 1, lift at 1.
  unfold mbind at 1, M_bind at 1.
  erewrite update_job_binds; [| simpl; rewrite Hraw; reflexivity].
  rewrite Hq, Hp. unfold mbind at 1, M_bind at 1, lift at 1.
  rewrite Hlen. unfold mbind at 1, M_bind at 1, lift at 1.
  erewrite update_job_binds; [| exact Hupd]. simpl.
  by rewrite <- app_assoc.
Qed.

(** A payload that is a mapping is always written as raw data. *)
Lemma dict_binds_as_raw_data (d : pydict) :
  JobDatabase.bind_text rt true (PDict d) = Return (Some (json_dumps rt (PDict d))).
Proof. reflexivity. Qed.

End Completion.

Section ExtractionOutcomes.
Context (rt : runtime).

(** [process_dataset] itself never raises: whatever its [try] block
    raises is caught, and the handler's update binds. *)
Lemma process_dataset_never_raises (pipeline : outcome pyval)
    (job_id query : string) (w : world) :
  result (Main.process_dataset rt pipeline job_id query) w = Return ().
Proof.
  unfold result, Main.process_dataset, try_except.
  destruct (Main.process_dataset_body rt pipeline job_id query w)
    as [w' [[]|e]]; [reflexivity |].
  by rewrite handler_run.
Qed.

(** The job row after a run that ends in [completed]. *)
Lemma completed_row (d : pydict) (job_id q : string) (w : world) (r : row)
    (p : Main.parsed) (total : Z) (upd : row → row) :
  jobs w !! job_id = Some r →
  Main.reports_quota (PDict d) = false →
  Main.extract_result rt q (PDict d) = Return p →
  Main.py_len (Main.parsed_data p) = Return total →
  JobDatabase.bind_fields rt (Main.completed_update p total) = Return upd →
  ∃ cd cs cv cq cn,
    JobDatabase.bind_text rt true (Main.parsed_data p) = Return cd
    ∧ JobDatabase.bind_text rt true (Main.parsed_sources p) = Return cs
    ∧ JobDatabase.bind_text rt false (Main.parsed_validation_status p) = Return cv
    ∧ JobDatabase.bind_text rt false (Main.parsed_quality_score p) = Return cq
    ∧ JobDatabase.bind_text rt false (Main.parsed_validation_notes p) = Return cn
    ∧ jobs (exec (Main.process_dataset rt (Return (PDict d)) job_id q) w)
        !! job_id
      = Some (mk_row (query r) "completed" cd cs
                (Some (json_dumps rt (PDict d))) total cv cq cn
                (user_rating r) (rating_timestamp r) (created_at r)
                (clock rt (S (ticks w)))).
Proof.
  intros Hr Hq Hp Hlen Hupd.
  destruct (completed_update_binds rt p total upd Hupd)
    as (cd & cs & cv & cq & cn & Hd & Hs & Hv & Hqs & Hn & ->).
  exists cd, cs, cv, cq, cn. repeat (split; [assumption |]).
  unfold exec.
  rewrite (process_dataset_completes rt (PDict d) job_id q w _ p total _
             (dict_binds_as_raw_data rt d) Hq Hp Hlen Hupd); simpl.
  by rewrite !lookup_alter_eq, Hr.
Qed.


(** C8, as the code has it. When the result text holds a fenced code
    block whose content decodes to a JSON object with a [data] array,
    extraction returns exactly that array as the records, together with
    the object's own sources and quality fields (defaults where absent);
    and when the outer payload carries no quota status and the fields
    can be stored, the job ends completed with that array as its
    records and its length as total_records. *)
Theorem fenced_json_gives_its_data (query : string) (d : pydict)
    (outer_data : pyval) (text group1 : string) (pj : pydict)
    (records : list pyval) :
  has_result_text d outer_data text →
  Re.code_block_search text = Some group1 →
  json_loads rt (PyStr.strip group1) = Some (PDict pj) →
  dict_get pj "data" = Some (PList records) →
  Main.extract_result rt query (PDict d)
  = Return (Main.mk_parsed (PList records)
              (dict_get_default pj "sources" (PList []))
              (dict_get_default pj "validation_status" (PStr "completed"))
              (dict_get_default pj "quality_score" (PStr "unknown"))
              (dict_get_default pj "validation_notes" (PStr "")))
  ∧ ∀ (job_id : string) (w : world) (r : row) (upd : row → row) (r' : row),
      let run := Main.process_dataset rt (Return (PDict d)) job_id query in
      jobs w !! job_id = Some r →
      Main.reports_quota (PDict d) = false →
      JobDatabase.bind_fields rt
        (Main.completed_update (Main.fields_of (PList records) pj)
           (Z.of_nat (length records)))
      = Return upd →
      jobs (exec run w) !! job_id = Some r' →
      status r' = "completed"
      ∧ dataset r' = Some (json_dumps rt (PList records))
      ∧ total_records r' = Z.of_nat (length records)
      ∧ JobDatabase.bind_text rt true (dict_get_default pj "sources" (PList []))
        = Return (sources r').
Proof.
  intros Hshape Hblock Hloads Hdata.
  assert (Main.extract_result rt query (PDict d)
          = Return (Main.fields_of (PList records) pj)) as Hex.
  { rewrite (extract_result_on_result_text rt _ _ _ _ Hshape), Hblock, Hloads.
    unfold Main.fields_of_parsed_json, dict_get_default. by rewrite Hdata. }
  split; [exact Hex |].
  intros job_id w r upd r' run Hr Hq Hupd Hr'.
  destruct (completed_row d job_id query w r _ _ upd Hr Hq Hex eq_refl Hupd)
    as (cd & cs & cv & cq & cn & Hd & Hs & _ & _ & _ & Hrow).
  unfold run in Hr'. rewrite Hrow in Hr'. injection Hr' as <-. simpl.
  simpl in Hd, Hs. rewrite Hs. repeat split; congruence.
Qed.

End ExtractionOutcomes.



Lemma fenced_json_gives_its_data_witness :
  let run := Main.process_dataset Sample.rt (Return Examples.fenced_payload)
               "job-1" "some query" in
  Main.extract_result Sample.rt "some query" Examples.fenced_payload
  = Return (Main.mk_parsed (PList [PDict [("a", PInt 1)]]) (PList [PStr "u"])
              (PStr "completed") (PStr "unknown") (PStr ""))
  ∧ ∃ r', jobs (exec run Examples.submitted) !! "job-1" = Some r'
      ∧ status r' = "completed"
      ∧ dataset r' = Some (Examples.dq "[{'a': 1}]")
      ∧ sources r' = Some (Examples.dq "['u']")
      ∧ total_records r' = 1.
Proof.
  intros run.
  destruct (fenced_json_gives_its_data Sample.rt "some query"
              [("data", PList [PDict [("result", PStr Examples.fenced_text)]])]
              (PList [PDict [("result", PStr Examples.fenced_text)]])
              Examples.fenced_text
              (Examples.dq "{'data':[{'a':1}],'sources':['u']}")
              [("data", PList [PDict [("a", PInt 1)]]);
               ("sources", PList [PStr "u"])]
              [PDict [("a", PInt 1)]])
    as [Hex Hjob].
  - eexists _, _. repeat split; reflexivity.
  - vm_compute. reflexivity.
  - vm_compute. reflexivity.
  - reflexivity.
  - split; [exact Hex |].
    assert (is_Some (jobs (exec run Examples.submitted) !! "job-1")) as [r' Hr'].
    { vm_compute. by eexists. }
    exists r'. split; [exact Hr' |].
    edestruct (Hjob "job-1" Examples.submitted) as (Hst & Hd & Ht & Hs);
      [vm_compute; reflexivity | reflexivity | reflexivity | exact Hr' |].
    repeat split; [exact Hst | exact Hd | | exact Ht].
    injection Hs as <-. reflexivity.
Defined.

(** C8 as stated fails in its general part on two kinds of payload. In
    both the result text is valid JSON in a fenced block with a [data]
    array, and extraction returns that array. First, the object's
    validation_notes is a list: the final update cannot be stored, the
    task's handler takes over and the job ends failed with empty
    records. Second, the outer payload reports quota_exceeded: the task
    never parses the text and the job ends quota_exceeded with empty
    records. *)
Lemma fenced_json_records_can_be_lost :
  let listed := Examples.payload_with_result Examples.fenced_listed_notes in
  let quota := PDict [("data", PList [PDict [("result", PStr Examples.fenced_text)]]);
                      ("validation_status", PStr "quota_exceeded")] in
  let run payload :=
    exec (Main.process_dataset Sample.rt (Return payload) "job-1" "some query")
      Examples.submitted in
  Main.parsed_data <$> Main.extract_result Sample.rt "some query" listed
  = Return (PList [PDict [("a", PInt 1)]])
  ∧ (λ r, (status r, dataset r)) <$> jobs (run listed) !! "job-1"
    = Some ("failed", Some "[]")
  ∧ Main.parsed_data <$> Main.extract_result Sample.rt "some query" quota
    = Return (PList [PDict [("a", PInt 1)]])
  ∧ (λ r, (status r, dataset r)) <$> jobs (run quota) !! "job-1"
    = Some ("quota_exceeded", Some "[]").
Proof. vm_compute. repeat split. Qed.

(** ** The order of the task's writes *)

Section WriteOrder.
Context (rt : runtime).

(** The run of the task when the pipeline returned a mapping: the raw
    payload is written first, then one terminal update, which binds,
    sets a terminal status and leaves [raw_data] alone. *)
Lemma returned_payload_run (d : pydict) (job_id q : string) (w : world) :
  ∃ terminal upd s t n,
    JobDatabase.bind_fields rt terminal = Return upd
    ∧ writes_raw_data terminal = false
    ∧ status_set_by terminal = Some s
    ∧ terminal_status s
    ∧ (∀ r, status (upd r) = s ∧ raw_data (upd r) = raw_data r)
    ∧ Main.process_dataset rt (Return (PDict d)) job_id q w
      = (mk_world
           (alter (λ r, JobDatabase.set_updated_at t (upd r)) job_id
              (alter (λ r, JobDatabase.set_updated_at (clock rt (ticks w))
                             (JobDatabase.set_raw_data
                                (Some (json_dumps rt (PDict d))) r))
                 job_id (jobs w)))
           n
           (journal w ++ [(job_id, [F_raw_data (PDict d)]); (job_id, terminal)]),
         Return ()).
Proof.
  unfold Main.process_dataset, try_except, Main.process_dataset_body.
  unfold mbind at 1, M_bind at 1, lift at 1.
  unfold mbind at 1, M_bind at 1.
  erewrite update_job_binds; [| reflexivity].
  set (w1 := mk_world _ _ _).
  assert (∀ e k, ∃ terminal upd s t n,
            JobDatabase.bind_fields rt terminal = Return upd
            ∧ writes_raw_data terminal = false
            ∧ status_set_by terminal = Some s
            ∧ terminal_status s
            ∧ (∀ r, status (upd r) = s ∧ raw_data (upd r) = raw_data r)
            ∧ Main.process_dataset_handler rt job_id e
                (mk_world (jobs w1) (k + ticks w1) (journal w1))
              = (mk_world
                   (alter (λ r, JobDatabase.set_updated_at t (upd r))
                      job_id (jobs w1))
                   n
                   (journal w ++ [(job_id, [F_raw_data (PDict d)]);
                                  (job_id, terminal)]),
                 Return ())) as Hhandler.
  { intros e k. rewrite handler_run. subst w1; simpl.
    destruct (Main.is_quota_error (Main.exc_str rt e)).
    - eexists _, _, "quota_exceeded", _, _.
      split; [apply quota_error_update_binds |].
      rewrite <- app_assoc. repeat split. unfold terminal_status; tauto.
    - eexists _, _, "failed", _, _.
      split; [apply failed_update_binds |].
      rewrite <- app_assoc. repeat split. unfold terminal_status; tauto. }
  destruct (Main.reports_quota (PDict d)).
  - erewrite update_job_binds; [| apply quota_in_result_update_binds].
    subst w1; simpl.
    eexists _, _, "quota_exceeded", _, _.
    split; [apply quota_in_result_update_binds |].
    rewrite <- app_assoc. repeat split. unfold terminal_status; tauto.
  - unfold mbind at 1, M_bind at 1, lift at 1.
    destruct (Main.extract_result rt q (PDict d)) as [p|e];
      [| apply (Hhandler e 0%nat)].
    unfold mbind at 1, M_bind at 1, lift at 1.
    destruct (Main.py_len (Main.parsed_data p)) as [total|e];
      [| apply (Hhandler e 0%nat)].
    destruct (JobDatabase.bind_fields rt (Main.completed_update p total))
      as [upd|e] eqn:Hupd.
    + erewrite update_job_binds; [| exact Hupd]. subst w1; simpl.
      exists (Main.completed_update p total), upd, "completed".
      eexists _, _. split; [exact Hupd |].
      rewrite <- app_assoc.
      destruct (completed_update_binds rt p total upd Hupd)
        as (cd & cs & cv & cq & cn & _ & _ & _ & _ & _ & ->).
      repeat split. unfold terminal_status; tauto.
    + erewrite update_job_refused; [| exact Hupd].
      apply (Hhandler e 1%nat).
Qed.

End WriteOrder.

Section RawDataOnce.
Context (rt : runtime).



End RawDataOnce.


(** ** Records and sources only on completed jobs *)

Section Lifecycle.
Context (rt : runtime).

Section Keeps.
Context (P : row → Prop).

Lemma keeps_ret {A} (a : A) : keeps P (mret a).
Proof. by intros w. Qed.

Lemma keeps_lift {A} (o : outcome A) : keeps P (lift o).
Proof. by intros w. Qed.

Lemma keeps_now : keeps P (JobDatabase.now rt).
Proof. by intros w. Qed.

Lemma keeps_bind {A B} (m : M A) (k : A → M B) :
  keeps P m → (∀ a, keeps P (k a)) → keeps P (m ≫= k).
Proof.
  intros Hm Hk w Hw. specialize (Hm w Hw).
  unfold mbind, M_bind. destruct (m w) as [w' [a|e]]; simpl in *; [| done].
  by apply Hk.
Qed.

Lemma keeps_bind_lift {A B} (o : outcome A) (k : A → M B) :
  (∀ a, o = Return a → keeps P (k a)) → keeps P (lift o ≫= k).
Proof.
  intros Hk w Hw. unfold mbind, M_bind, lift.
  destruct o as [a|e]; simpl; [| done]. by apply Hk.
Qed.

Lemma keeps_try_except {A} (body : M A) (handler : pyexc → M A) :
  keeps P body → (∀ e, keeps P (handler e)) → keeps P (try_except body handler).
Proof.
  intros Hm Hk w Hw. specialize (Hm w Hw).
  unfold try_except. destruct (body w) as [w' [a|e]]; simpl in *; [done |].
  by apply Hk.
Qed.

Lemma keeps_sql_select (job_id : string) : keeps P (JobDatabase.sql_select job_id).
Proof. by intros w. Qed.

Lemma keeps_sql_count_where (p : row → bool) :
  keeps P (JobDatabase.sql_count_where p).
Proof. by intros w. Qed.

Lemma keeps_journal_append (job_id : string) (kwargs : list field) :
  keeps P (JobDatabase.journal_append job_id kwargs).
Proof. by intros w. Qed.

Lemma keeps_sql_insert (job_id : string) (r : row) :
  P r → keeps P (JobDatabase.sql_insert job_id r).
Proof.
  intros Hr w Hw. unfold JobDatabase.sql_insert.
  destruct (jobs w !! job_id); simpl; [done |].
  by apply map_Forall_insert_2.
Qed.

Lemma keeps_sql_update (job_id : string) (f : row → row) :
  (∀ r, P r → P (f r)) → keeps P (JobDatabase.sql_update job_id f).
Proof.
  intros Hf w Hw k r'; simpl. rewrite lookup_alter.
  case_decide as Hk; [| by apply Hw].
  subst k. destruct (jobs w !! job_id) as [r|] eqn:Hr; simpl; [| intros [=]].
  intros [= <-]. by apply Hf, (Hw job_id).
Qed.

Lemma keeps_sql_delete (job_id : string) : keeps P (JobDatabase.sql_delete job_id).
Proof.
  intros w Hw k r; simpl. intros [_ Hr]%lookup_delete_Some. by apply (Hw k).
Qed.

Lemma keeps_sql_delete_where (p : row → bool) :
  keeps P (JobDatabase.sql_delete_where p).
Proof.
  intros w Hw k r; simpl. unfold JobDatabase.rows_where_not.
  intros [Hr _]%map_lookup_filter_Some. by apply (Hw k).
Qed.

(** [update_job] keeps [P] when the columns it sets do, at any time. *)
Lemma keeps_update_job (job_id : string) (kwargs : list field) :
  (∀ upd t r, JobDatabase.bind_fields rt kwargs = Return upd →
              P r → P (JobDatabase.set_updated_at t (upd r))) →
  keeps P (JobDatabase.update_job rt job_id kwargs).
Proof.
  intros Hupd. unfold JobDatabase.update_job.
  apply keeps_bind; [apply keeps_now | intros t].
  apply keeps_bind_lift. intros upd Hb.
  apply keeps_bind; [| intros _; apply keeps_journal_append].
  apply keeps_sql_update. intros r Hr. by apply Hupd.
Qed.

End Keeps.
Lemma inv_set_updated_at (t : datetime) (r : row) :
  records_only_when_completed rt r →
  records_only_when_completed rt (JobDatabase.set_updated_at t r).
Proof. done. Qed.

Lemma inv_terminal_columns (st notes : string) (r : row) :
  records_only_when_completed rt (terminal_columns rt st notes r).
Proof. intros _. split; by right. Qed.

(** One step through the monadic structure of a method. *)
Ltac keeps_step :=
  first [ apply keeps_ret | apply keeps_lift | apply keeps_now
        | apply keeps_sql_select | apply keeps_sql_count_where
        | apply keeps_journal_append | apply keeps_sql_delete
        | apply keeps_sql_delete_where
        | apply keeps_bind; [| intros ?] ].

Lemma keeps_create_job (job_id q : string) :
  keeps (records_only_when_completed rt) (JobDatabase.create_job rt job_id q).
Proof.
  unfold JobDatabase.create_job. repeat keeps_step.
  apply keeps_sql_insert. intros _. split; by left.
Qed.

Lemma keeps_save_raw (job_id : string) (dataset : pyval) :
  keeps (records_only_when_completed rt)
    (JobDatabase.update_job rt job_id [F_raw_data dataset]).
Proof.
  apply keeps_update_job. intros upd t r Hb Hr. simpl in Hb.
  unfold mbind, outcome_bind, fmap, outcome_fmap in Hb.
  destruct (JobDatabase.bind_text rt true dataset) as [c|]; [| discriminate].
  injection Hb as <-. exact Hr.
Qed.

Lemma keeps_handler (job_id : string) (e : pyexc) :
  keeps (records_only_when_completed rt) (Main.process_dataset_handler rt job_id e).
Proof.
  unfold Main.process_dataset_handler.
  destruct (Main.is_quota_error (Main.exc_str rt e));
    apply keeps_update_job; intros upd t r [= <-] _;
    apply inv_set_updated_at, inv_terminal_columns.
Qed.

Lemma keeps_process_dataset (pipeline : outcome pyval) (job_id q : string) :
  keeps (records_only_when_completed rt) (Main.process_dataset rt pipeline job_id q).
Proof.
  unfold Main.process_dataset.
  apply keeps_try_except; [| apply keeps_handler].
  unfold Main.process_dataset_body.
  apply keeps_bind; [apply keeps_lift | intros dataset].
  apply keeps_bind; [apply keeps_save_raw | intros _].
  destruct (Main.reports_quota dataset).
  - apply keeps_update_job. intros upd t r [= <-] _.
    apply inv_set_updated_at, inv_terminal_columns.
  - apply keeps_bind; [apply keeps_lift | intros p].
    apply keeps_bind; [apply keeps_lift | intros total].
    apply keeps_update_job. intros upd t r Hb _.
    destruct (completed_update_binds rt p total upd Hb)
      as (cd & cs & cv & cq & cn & _ & _ & _ & _ & _ & ->).
    by intros Hst.
Qed.

Lemma keeps_rate_job (job_id rating : string) :
  keeps (records_only_when_completed rt) (Main.rate_job rt job_id rating).
Proof.
  unfold Main.rate_job. destruct (negb _); [apply keeps_ret |].
  apply keeps_bind; [unfold JobDatabase.get_job; repeat keeps_step |].
  intros [jd|]; [| apply keeps_ret].
  apply keeps_bind; [| intros []; apply keeps_ret].
  unfold JobDatabase.rate_job. destruct (negb _); repeat keeps_step.
  apply keeps_sql_update. by intros r Hr.
Qed.

Lemma keeps_get_job (job_id : string) :
  keeps (records_only_when_completed rt) (JobDatabase.get_job rt job_id).
Proof.
  unfold JobDatabase.get_job. repeat keeps_step.
Qed.

Lemma keeps_get_job_rating_stats :
  keeps (records_only_when_completed rt) JobDatabase.get_job_rating_stats.
Proof.
  unfold JobDatabase.get_job_rating_stats. repeat keeps_step.
Qed.

Lemma keeps_delete_job (job_id : string) :
  keeps (records_only_when_completed rt) (JobDatabase.delete_job job_id).
Proof.
  unfold JobDatabase.delete_job. repeat keeps_step.
Qed.

Lemma keeps_cleanup_old_jobs (days : Z) :
  keeps (records_only_when_completed rt) (Main.cleanup_old_jobs rt days).
Proof.
  unfold Main.cleanup_old_jobs, JobDatabase.cleanup_old_jobs.
  repeat keeps_step.
Qed.

Lemma keeps_handle (ev : event) (w : world) :
  map_Forall (λ _ r, records_only_when_completed rt r) (jobs w) →
  map_Forall (λ _ r, records_only_when_completed rt r) (jobs (handle rt ev w)).
Proof.
  destruct ev; simpl; unfold exec.
  - apply keeps_create_job.
  - apply keeps_save_raw.
  - apply keeps_process_dataset.
  - apply keeps_rate_job.
  - apply keeps_get_job.
  - apply keeps_get_job_rating_stats.
  - apply keeps_delete_job.
  - apply keeps_cleanup_old_jobs.
Qed.

(** C5. After any history of submissions, task runs (whole, or stopped
    after the first write), ratings, reads, deletions and purges on a
    table that started empty, a job whose status is not completed has
    empty records and empty sources: each column is NULL, as at
    creation, or holds the empty list, as the failed and quota_exceeded
    updates write it. *)
Theorem records_and_sources_only_when_completed
    (history : list event) (job_id : string) (r : row) :
  jobs (after rt history) !! job_id = Some r →
  status r ≠ "completed" →
  empty_column rt (dataset r) ∧ empty_column rt (sources r).
Proof.
  assert (∀ w, map_Forall (λ _ r, records_only_when_completed rt r) (jobs w) →
               map_Forall (λ _ r, records_only_when_completed rt r)
                 (jobs (foldl (λ w ev, handle rt ev w) w history))) as Hfold.
  { induction history as [|ev history IH]; intros w Hw; simpl; [done |].
    apply IH. by apply keeps_handle. }
  intros Hr. apply (Hfold init_world (map_Forall_empty _) job_id r Hr).
Qed.

End Lifecycle.

Lemma records_and_sources_only_when_completed_witness :
  let history := [Generate "job-1" "q";
                  Process (Raise (Raised "boom")) "job-1" "q"] in
  ∃ r, jobs (after Sample.rt history) !! "job-1" = Some r
    ∧ status r = "failed"
    ∧ empty_column Sample.rt (dataset r)
    ∧ empty_column Sample.rt (sources r).
Proof.
  intros history.
  assert (∃ r, jobs (after Sample.rt history) !! "job-1" = Some r
               ∧ status r = "failed") as (r & Hr & Hst).
  { vm_compute. eexists. split; reflexivity. }
  exists r. split; [exact Hr |]. split; [exact Hst |].
  apply (records_and_sources_only_when_completed Sample.rt history "job-1" r Hr).
  rewrite Hst. discriminate.
Defined.

(** A job that was just created, and one seen between the two writes of
    its task, have NULL records and sources. *)
Example fresh_and_half_processed_jobs :
  (dataset <$> jobs (after Sample.rt [Generate "job-1" "q"]) !! "job-1"
   = Some None)
  ∧ (λ r, (status r, dataset r, sources r))
      <$> jobs (after Sample.rt [Generate "job-1" "q";
                                 SaveRaw "job-1" Examples.fenced_payload])
          !! "job-1"
    = Some ("processing", None, None).
Proof. vm_compute. split; reflexivity. Qed.


(** ** The fenced-block pattern on a plain fenced text *)

Lemma is_space_nl : PyStr.is_space PyStr.nl = true.
Proof. reflexivity. Qed.

Lemma lazy_group_unfold (t : string) :
  Re.lazy_group t
  = if String.prefix Re.fence_close t then Some EmptyString
    else match t with
         | EmptyString => None
         | String c t' => String c <$> Re.lazy_group t'
         end.
Proof. by destruct t. Qed.

Lemma code_block_search_unfold (t : string) :
  Re.code_block_search t
  = match Re.match_code_block_at t with
    | Some g => Some g
    | None =>
        match t with
        | EmptyString => None
        | String _ t' => Re.code_block_search t'
        end
    end.
Proof. by destruct t. Qed.

(** The closing fence cannot start inside [body] and end after it. *)
Lemma fence_close_not_astride (body post : string) :
  String.prefix Re.fence_close body = false →
  body ≠ "" →
  String.prefix Re.fence_close (body ++ Re.fence_close ++ post) = false.
Proof.
  intros Hpre Hne. unfold Re.fence_close, Re.fence in *.
  destruct body as [|c1 body]; [done |]. clear Hne.
  rewrite append_cons, prefix_cons in *.
  destruct (ascii_dec PyStr.nl c1) as [<-|]; [| done].
  destruct body as [|c2 body]; [reflexivity |].
  rewrite append_cons, prefix_cons in *.
  destruct (ascii_dec "`" c2) as [<-|]; [| done].
  destruct body as [|c3 body]; [reflexivity |].
  rewrite append_cons, prefix_cons in *.
  destruct (ascii_dec "`" c3) as [<-|]; [| done].
  destruct body as [|c4 body]; [reflexivity |].
  rewrite append_cons, prefix_cons in *.
  destruct (ascii_dec "`" c4) as [<-|]; [| done].
  by rewrite prefix_nil in Hpre.
Qed.

(** The lazy group stops at the first newline-and-fence. *)
Lemma lazy_group_body (body post : string) :
  PyStr.contains Re.fence_close body = false →
  Re.lazy_group (body ++ Re.fence_close ++ post) = Some body.
Proof.
  induction body as [|c body IH]; intros Hc.
  - rewrite append_nil_l, lazy_group_unfold.
    assert (String.prefix Re.fence_close (Re.fence_close ++ post) = true) as ->
      by (apply prefix_app; by exists post).
    reflexivity.
  - change (PyStr.contains Re.fence_close (String c body))
      with (String.prefix Re.fence_close (String c body)
            || PyStr.contains Re.fence_close body) in Hc.
    apply orb_false_iff in Hc as [Hpre Hrest].
    rewrite lazy_group_unfold, (fence_close_not_astride _ _ Hpre) by done.
    rewrite append_cons, (IH Hrest). reflexivity.
Qed.

(** A text that opens with a fence tagged [json], a newline, a body
    whose first character is not white space and which holds no newline
    followed by a fence, then a newline and the closing fence: the
    pattern matches at once and its group is the body. *)
Lemma code_block_search_fenced (c : ascii) (body post : string) :
  PyStr.is_space c = false →
  PyStr.contains Re.fence_close (String c body) = false →
  Re.code_block_search
    ("```json" ++ String PyStr.nl (String c body) ++ Re.fence_close ++ post)
  = Some (String c body).
Proof.
  intros Hc Hbody.
  assert (Re.match_code_block_at
            ("```json" ++ String PyStr.nl (String c body) ++ Re.fence_close ++ post)
          = Some (String c body)) as Hm.
  { unfold Re.match_code_block_at.
    change (String.prefix Re.fence ("```json" ++ ?t)) with true.
    change (PyStr.drop 3 ("```json" ++ ?t)) with ("json" ++ t).
    change (String.prefix "json" ("json" ++ ?t)) with true.
    change (PyStr.drop 4 ("json" ++ ?t)) with t.
    cbv iota. rewrite !append_cons.
    change (Re.ws_newline_group (String PyStr.nl ?t))
      with (match Re.ws_newline_group t with
            | Some g => Some g
            | None => Re.lazy_group t
            end).
    assert (Re.ws_newline_group (String c (body ++ Re.fence_close ++ post)) = None)
      as ->.
    { change (Re.ws_newline_group (String c ?t))
        with (let here := if Ascii.eqb c PyStr.nl then Re.lazy_group t else None in
              if PyStr.is_space c
              then match Re.ws_newline_group t with
                   | Some g => Some g
                   | None => here
                   end
              else here).
      cbv zeta. rewrite Hc.
      destruct (Ascii.eqb_spec c PyStr.nl) as [->|]; [| done].
      by rewrite is_space_nl in Hc. }
    rewrite <- append_cons. by rewrite (lazy_group_body _ _ Hbody). }
  by rewrite code_block_search_unfold, Hm.
Qed.

(** Text before the fence that holds no backquote is skipped. *)
Lemma code_block_search_skip (pre t : string) :
  PyStr.contains "`" pre = false →
  Re.code_block_search (pre ++ t) = Re.code_block_search t.
Proof.
  induction pre as [|c pre IH]; intros Hc; [reflexivity |].
  change (PyStr.contains "`" (String c pre))
    with (String.prefix "`" (String c pre) || PyStr.contains "`" pre) in Hc.
  apply orb_false_iff in Hc as [Hhead Hrest].
  rewrite prefix_cons, prefix_nil in Hhead.
  rewrite append_cons, code_block_search_unfold, (IH Hrest).
  unfold Re.match_code_block_at, Re.fence. rewrite prefix_cons.
  by destruct (ascii_dec "`" c).
Qed.

Section FencedText.
Context (rt : runtime).

(** The general part of C8 on the text itself: prose without
    backquotes, then a fenced block tagged [json] whose body is a JSON
    object with a [data] array, then anything. *)
Lemma fenced_text_gives_its_data (q : string) (d : pydict) (outer_data : pyval)
    (pre : string) (c : ascii) (body post : string) (pj : pydict)
    (records : list pyval) :
  has_result_text d outer_data
    (pre ++ "```json" ++ String PyStr.nl (String c body) ++ Re.fence_close ++ post) →
  PyStr.contains "`" pre = false →
  PyStr.is_space c = false →
  PyStr.contains Re.fence_close (String c body) = false →
  json_loads rt (PyStr.strip (String c body)) = Some (PDict pj) →
  dict_get pj "data" = Some (PList records) →
  Main.parsed_data <$> Main.extract_result rt q (PDict d) = Return (PList records).
Proof.
  intros Hshape Hpre Hc Hbody Hloads Hdata.
  rewrite (extract_result_on_result_text rt _ _ _ _ Hshape).
  rewrite (code_block_search_skip _ _ Hpre).
  rewrite (code_block_search_fenced c body post Hc Hbody), Hloads.
  unfold Main.fields_of_parsed_json, dict_get_default. by rewrite Hdata.
Qed.


End FencedText.

(** * Further properties *)

(** ** The job store: create, read, delete *)

Section StoreBasics.
Context (rt : runtime).

(** X1. A new job can be read back at once: it is in state processing, has
    no records, sources, raw data, quality fields or rating, counts zero
    records, and carries the two clock readings of its creation; the
    other jobs are as they were. *)
Theorem create_job_then_get_job (job_id q : string) (w : world) :
  jobs w !! job_id = None →
  let create := JobDatabase.create_job rt job_id q in
  result create w = Return ()
  ∧ result (JobDatabase.get_job rt job_id) (exec create w)
    = Return (Some (JobDatabase.mk_job_dict
                      (mk_row q "processing" None None None 0 None None None
                         None None (clock rt (ticks w)) (clock rt (S (ticks w))))
                      PNone PNone PNone))
  ∧ ∀ k, k ≠ job_id → jobs (exec create w) !! k = jobs w !! k.
Proof.
  intros Hnew create. unfold create, result, exec, JobDatabase.create_job,
    JobDatabase.get_job, JobDatabase.sql_insert, JobDatabase.sql_select,
    mbind, mret, M_bind, M_ret; simpl.
  rewrite Hnew; simpl. rewrite lookup_insert_eq; simpl.
  repeat split. intros k Hk. by rewrite lookup_insert_ne.
Qed.

(** X2. Creating a job under an id that is taken raises the integrity error
    of the primary key and leaves every row, the old one included, as it
    was. *)
Theorem create_job_existing_id_raises (job_id q : string) (w : world) (r : row) :
  jobs w !! job_id = Some r →
  let create := JobDatabase.create_job rt job_id q in
  result create w = Raise (Builtin (IntegrityError_job_id job_id))
  ∧ jobs (exec create w) = jobs w
  ∧ journal (exec create w) = journal w.
Proof.
  intros Hr create. unfold create, result, exec, JobDatabase.create_job,
    JobDatabase.sql_insert, mbind, M_bind; simpl.
  by rewrite Hr.
Qed.

(** X3. [delete_job] answers whether the job existed; afterwards the job
    cannot be read, a second delete answers False, and the other jobs
    are as they were. *)
Theorem delete_job_removes_exactly_that_job (job_id : string) (w : world) :
  let delete := JobDatabase.delete_job job_id in
  result delete w = Return (bool_decide (is_Some (jobs w !! job_id)))
  ∧ result (JobDatabase.get_job rt job_id) (exec delete w) = Return None
  ∧ result delete (exec delete w) = Return false
  ∧ ∀ k, k ≠ job_id → jobs (exec delete w) !! k = jobs w !! k.
Proof.
  intros delete. unfold delete, result, exec, JobDatabase.delete_job,
    JobDatabase.get_job, JobDatabase.sql_delete, JobDatabase.sql_select,
    mbind, mret, M_bind, M_ret; simpl.
  rewrite lookup_delete_eq; simpl. repeat split.
  - f_equal. destruct (jobs w !! job_id) as [r|]; symmetry.
    + by apply bool_decide_eq_true_2.
    + apply bool_decide_eq_false_2. by intros [? ?].
  - intros k Hk. by rewrite lookup_delete_ne.
Qed.

End StoreBasics.

Lemma create_job_then_get_job_witness :
  result (JobDatabase.get_job Sample.rt "job-1")
    (exec (JobDatabase.create_job Sample.rt "job-1" "some query") init_world)
  = Return (Some (JobDatabase.mk_job_dict
                    (mk_row "some query" "processing" None None None 0 None
                       None None None None (Sample.clock 0) (Sample.clock 1))
                    PNone PNone PNone)).
Proof.
  apply (create_job_then_get_job Sample.rt "job-1" "some query" init_world).
  reflexivity.
Defined.

Lemma create_job_existing_id_raises_witness :
  result (JobDatabase.create_job Sample.rt "job-1" "again") Examples.submitted
  = Raise (Builtin (IntegrityError_job_id "job-1")).
Proof.
  eapply (create_job_existing_id_raises Sample.rt "job-1" "again"
            Examples.submitted).
  vm_compute. reflexivity.
Defined.

(** ** [update_job]: all or nothing, and merge semantics *)

Section UpdateJob.
Context (rt : runtime).








End UpdateJob.


(** ** The background task: what it touches and how it ends *)

Section TaskFrame.
Context (rt : runtime).

Lemma touches_only_ret (job_id : string) {A} (a : A) :
  touches_only job_id (mret a : M A).
Proof. by intros w k _. Qed.

Lemma touches_only_lift (job_id : string) {A} (o : outcome A) :
  touches_only job_id (lift o).
Proof. by intros w k _. Qed.

Lemma touches_only_bind (job_id : string) {A B} (m : M A) (f : A → M B) :
  touches_only job_id m → (∀ a, touches_only job_id (f a)) →
  touches_only job_id (m ≫= f).
Proof.
  intros Hm Hf w k Hk. unfold mbind, M_bind.
  pose proof (Hm w k Hk) as Hmk.
  destruct (m w) as [w' [a|e]] eqn:Hmw; simpl in *; [| done].
  rewrite <- Hmk. apply Hf.
  destruct Hk as [Hne | Hnone]; [by left | right].
  pose proof (Hm w job_id (or_intror Hnone)) as Hj.
  rewrite Hmw in Hj; simpl in Hj. congruence.
Qed.

Lemma touches_only_try_except (job_id : string) {A}
    (body : M A) (handler : pyexc → M A) :
  touches_only job_id body → (∀ e, touches_only job_id (handler e)) →
  touches_only job_id (try_except body handler).
Proof.
  intros Hm Hf w k Hk. unfold try_except.
  pose proof (Hm w k Hk) as Hmk.
  destruct (body w) as [w' [a|e]] eqn:Hmw; simpl in *; [done |].
  rewrite <- Hmk. apply Hf.
  destruct Hk as [Hne | Hnone]; [by left | right].
  pose proof (Hm w job_id (or_intror Hnone)) as Hj.
  rewrite Hmw in Hj; simpl in Hj. congruence.
Qed.

Lemma touches_only_update_job (job_id : string) (kwargs : list field) :
  touches_only job_id (JobDatabase.update_job rt job_id kwargs).
Proof.
  intros w k Hk.
  destruct (JobDatabase.bind_fields rt kwargs) as [upd|e] eqn:Hb.
  - rewrite (update_job_binds rt _ _ _ _ Hb); simpl.
    destruct Hk as [Hne | Hnone].
    + by rewrite lookup_alter_ne.
    + destruct (decide (job_id = k)) as [<-|Hne].
      * by rewrite lookup_alter_eq, Hnone.
      * by rewrite lookup_alter_ne.
  - by rewrite (update_job_refused rt _ _ _ _ Hb).
Qed.

Lemma touches_only_process_dataset (pipeline : outcome pyval) (job_id q : string) :
  touches_only job_id (Main.process_dataset rt pipeline job_id q).
Proof.
  unfold Main.process_dataset. apply touches_only_try_except.
  - unfold Main.process_dataset_body.
    apply touches_only_bind; [apply touches_only_lift | intros payload].
    apply touches_only_bind; [apply touches_only_update_job | intros _].
    destruct (Main.reports_quota payload); [apply touches_only_update_job |].
    apply touches_only_bind; [apply touches_only_lift | intros p].
    apply touches_only_bind; [apply touches_only_lift | intros total].
    apply touches_only_update_job.
  - intros e. unfold Main.process_dataset_handler.
    destruct (Main.is_quota_error _); apply touches_only_update_job.
Qed.

(** X6. The background task writes to its own job only: whatever the
    pipeline returned or raised, every other job is as it was, and when
    the job has been deleted in the meantime the task does not bring it
    back. It returns in either case. *)
Theorem process_dataset_writes_its_job_only (pipeline : outcome pyval)
    (job_id q : string) (w : world) (k : string) :
  k ≠ job_id ∨ jobs w !! job_id = None →
  let run := Main.process_dataset rt pipeline job_id q in
  result run w = Return ()
  ∧ jobs (exec run w) !! k = jobs w !! k.
Proof.
  intros Hk run. split; [apply process_dataset_never_raises |].
  by apply touches_only_process_dataset.
Qed.

(** The row the task leaves behind, for any outcome of the pipeline. *)
Lemma process_dataset_last_write (pipeline : outcome pyval)
    (job_id q : string) (w : world) (r : row) :
  jobs w !! job_id = Some r →
  ∃ st cd cs rd n cv cq cn t,
    terminal_status st
    ∧ (st = "completed" ∧ (∃ payload, pipeline = Return payload)
       ∨ st ≠ "completed" ∧ n = 0 ∧ cv = Some st ∧ cq = Some "unknown"
         ∧ cd = Some (json_dumps rt (PList []))
         ∧ cs = Some (json_dumps rt (PList [])))
    ∧ jobs (exec (Main.process_dataset rt pipeline job_id q) w) !! job_id
      = Some (mk_row (query r) st cd cs rd n cv cq cn
                (user_rating r) (rating_timestamp r) (created_at r) t).
Proof.
  intros Hr.
  assert (∀ e w1 r1,
            jobs w1 !! job_id = Some r1 →
            query r1 = query r → user_rating r1 = user_rating r →
            rating_timestamp r1 = rating_timestamp r →
            created_at r1 = created_at r →
            ∃ st cd cs rd n cv cq cn t,
              terminal_status st
              ∧ (st = "completed" ∧ (∃ payload, pipeline = Return payload)
                 ∨ st ≠ "completed" ∧ n = 0 ∧ cv = Some st ∧ cq = Some "unknown"
                   ∧ cd = Some (json_dumps rt (PList []))
                   ∧ cs = Some (json_dumps rt (PList [])))
              ∧ jobs (Main.process_dataset_handler rt job_id e w1).1 !! job_id
                = Some (mk_row (query r) st cd cs rd n cv cq cn
                          (user_rating r) (rating_timestamp r) (created_at r) t))
    as Hhandler.
  { intros e w1 r1 Hr1 Hq Hu Ht Hc. rewrite handler_run; simpl.
    rewrite lookup_alter_eq, Hr1; simpl.
    destruct (Main.is_quota_error (Main.exc_str rt e));
      unfold terminal_columns, JobDatabase.set_updated_at; simpl;
      rewrite Hq, Hu, Ht, Hc.
    - eexists "quota_exceeded", _, _, _, _, _, _, _, _.
      split; [unfold terminal_status; tauto |].
      split; [right; split; [discriminate | repeat split] | reflexivity].
    - eexists "failed", _, _, _, _, _, _, _, _.
      split; [unfold terminal_status; tauto |].
      split; [right; split; [discriminate | repeat split] | reflexivity]. }
  unfold exec, Main.process_dataset, try_except, Main.process_dataset_body.
  destruct pipeline as [payload|e].
  2: { unfold mbind, M_bind, lift; simpl. by apply (Hhandler e w r). }
  unfold mbind at 1, M_bind at 1, lift at 1.
  unfold mbind at 1, M_bind at 1.
  destruct (JobDatabase.bind_fields rt [F_raw_data payload]) as [upd0|e0] eqn:Hraw.
  2: { rewrite (update_job_refused rt _ _ _ _ Hraw).
       by apply (Hhandler e0 _ r). }
  rewrite (update_job_binds rt _ _ _ _ Hraw).
  set (w1 := mk_world _ _ _).
  assert (∃ r1, jobs w1 !! job_id = Some r1
                ∧ query r1 = query r ∧ user_rating r1 = user_rating r
                ∧ rating_timestamp r1 = rating_timestamp r
                ∧ created_at r1 = created_at r) as (r1 & Hr1 & Hq1 & Hu1 & Ht1 & Hc1).
  { subst w1; simpl. rewrite lookup_alter_eq, Hr; simpl.
    eexists. split; [reflexivity |].
    simpl in Hraw. unfold mbind, outcome_bind, fmap, outcome_fmap in Hraw.
    destruct (JobDatabase.bind_text rt true payload); [| discriminate].
    by injection Hraw as <-. }
  assert (∀ e w2, jobs w2 = jobs w1 → ∃ st cd cs rd n cv cq cn t,
            terminal_status st
            ∧ (st = "completed" ∧ (∃ p0, Return payload = Return p0 :> outcome pyval)
               ∨ st ≠ "completed" ∧ n = 0 ∧ cv = Some st ∧ cq = Some "unknown"
                 ∧ cd = Some (json_dumps rt (PList []))
                 ∧ cs = Some (json_dumps rt (PList [])))
            ∧ jobs (Main.process_dataset_handler rt job_id e w2).1 !! job_id
              = Some (mk_row (query r) st cd cs rd n cv cq cn
                        (user_rating r) (rating_timestamp r) (created_at r) t))
    as Hh1.
  { intros e w2 Hw2. apply (Hhandler e w2 r1); try done. by rewrite Hw2. }
  clearbody w1.
  destruct (Main.reports_quota payload).
  - erewrite update_job_binds; [| apply quota_in_result_update_binds]. simpl.
    rewrite lookup_alter_eq, Hr1.
    unfold terminal_columns, JobDatabase.set_updated_at; simpl.
    rewrite Hq1, Hu1, Ht1, Hc1.
    eexists "quota_exceeded", _, _, _, _, _, _, _, _.
    split; [unfold terminal_status; tauto |].
    split; [right; split; [discriminate | repeat split] | reflexivity].
  - unfold mbind at 1, M_bind at 1, lift at 1.
    destruct (Main.extract_result rt q payload) as [p|e];
      [| by apply (Hh1 e w1)].
    unfold mbind at 1, M_bind at 1, lift at 1.
    destruct (Main.py_len (Main.parsed_data p)) as [total|e];
      [| by apply (Hh1 e w1)].
    destruct (JobDatabase.bind_fields rt (Main.completed_update p total))
      as [upd|e] eqn:Hupd.
    + erewrite update_job_binds; [| exact Hupd]. simpl.
      destruct (completed_update_binds rt p total upd Hupd)
        as (cd & cs & cv & cq & cn & _ & _ & _ & _ & _ & ->).
      rewrite lookup_alter_eq, Hr1.
      unfold completed_columns, JobDatabase.set_updated_at; simpl.
      rewrite Hq1, Hu1, Ht1, Hc1.
      eexists "completed", _, _, _, _, _, _, _, _.
      split; [unfold terminal_status; tauto |].
      split; [left; eauto | reflexivity].
    + erewrite update_job_refused; [| exact Hupd].
      by apply (Hh1 e).
Qed.

(** X7. Whatever the pipeline returns or raises, the task leaves its job in
    one of the three terminal states, with the query, the creation time
    and the rating it had; unless the state is completed, which needs a
    returned payload, the job counts zero records, its records and
    sources are the empty list, its validation status repeats the state
    and its quality score is unknown. *)
Theorem process_dataset_ends_in_terminal_state (pipeline : outcome pyval)
    (job_id q : string) (w : world) (r : row) :
  jobs w !! job_id = Some r →
  ∃ r', jobs (exec (Main.process_dataset rt pipeline job_id q) w) !! job_id
        = Some r'
    ∧ terminal_status (status r')
    ∧ query r' = query r
    ∧ created_at r' = created_at r
    ∧ user_rating r' = user_rating r
    ∧ rating_timestamp r' = rating_timestamp r
    ∧ (status r' = "completed" → ∃ payload, pipeline = Return payload)
    ∧ (status r' ≠ "completed" →
         total_records r' = 0
         ∧ dataset r' = Some (json_dumps rt (PList []))
         ∧ sources r' = Some (json_dumps rt (PList []))
         ∧ validation_status r' = Some (status r')
         ∧ quality_score r' = Some "unknown").
Proof.
  intros Hr.
  destruct (process_dataset_last_write pipeline job_id q w r Hr)
    as (st & cd & cs & rd & n & cv & cq & cn & t & Hst & Hcase & Hrow).
  eexists. split; [exact Hrow |]. simpl.
  split; [exact Hst |]. repeat (split; [reflexivity |]).
  destruct Hcase as [[Hc Hp] | (Hne & Hn & Hv & Hq & Hd & Hs)].
  - split; [done |]. intros Hne. by destruct Hne.
  - split; [done | by intros _].
Qed.

End TaskFrame.

Lemma process_dataset_writes_its_job_only_witness :
  jobs (exec (Main.process_dataset Sample.rt (Return Examples.fenced_payload)
                "job-1" "some query") init_world) !! "job-1" = None.
Proof.
  apply (process_dataset_writes_its_job_only Sample.rt
           (Return Examples.fenced_payload) "job-1" "some query" init_world "job-1").
  right. reflexivity.
Defined.

Lemma process_dataset_ends_in_terminal_state_witness :
  ∃ r', jobs (exec (Main.process_dataset Sample.rt (Return Examples.fenced_payload)
                      "job-1" "some query") Examples.submitted) !! "job-1"
        = Some r'
    ∧ terminal_status (status r')
    ∧ query r' = "some query".
Proof.
  edestruct (process_dataset_ends_in_terminal_state Sample.rt
               (Return Examples.fenced_payload) "job-1" "some query"
               Examples.submitted)
    as (r' & Hr' & Hst & Hq & _).
  - vm_compute. reflexivity.
  - exists r'. split; [exact Hr' |]. split; [exact Hst |]. exact Hq.
Defined.

(** ** When step 3 raises *)

Section ExtractionFailures.
Context (rt : runtime).


(** The run of the task on a mapping whose parse raises. *)
Lemma extraction_error_run (d : pydict) (job_id q : string) (w : world)
    (e : pyexc) :
  Main.reports_quota (PDict d) = false →
  Main.extract_result rt q (PDict d) = Raise e →
  jobs (exec (Main.process_dataset rt (Return (PDict d)) job_id q) w)
  = alter (λ r, JobDatabase.set_updated_at (clock rt (S (ticks w)))
                  (error_columns rt (Main.exc_str rt e) r)) job_id
      (alter (λ r, JobDatabase.set_updated_at (clock rt (ticks w))
                     (JobDatabase.set_raw_data (Some (json_dumps rt (PDict d))) r))
         job_id (jobs w)).
Proof.
  intros Hq He.
  unfold exec, Main.process_dataset, try_except, Main.process_dataset_body.
  unfold mbind at 1, M_bind at 1, lift at 1.
  unfold mbind at 1, M_bind at 1.
  erewrite update_job_binds; [| reflexivity].
  rewrite Hq, He. unfold mbind at 1, M_bind at 1, lift at 1.
  rewrite handler_run; simpl. unfold error_columns.
  by destruct (Main.is_quota_error (Main.exc_str rt e)).
Qed.

(** X9. A dataset whose first record has a [result] column that is not a
    text (a score, a flag, a missing value) makes the task fail:
    the payload is saved as raw data and then the [except] block writes
    its columns for the [TypeError] of the pattern search, so the job
    ends failed (or quota_exceeded, should the error text hold one of
    the quota keywords) with no records. *)
Theorem non_text_result_fails_the_job (d fi : pydict) (rest : list pyval)
    (v : pyval) (job_id q : string) (w : world) (r : row) :
  dict_get d "data" = Some (PList (PDict fi :: rest)) →
  dict_get fi "result" = Some v →
  is_str v = false →
  Main.reports_quota (PDict d) = false →
  jobs w !! job_id = Some r →
  let run := Main.process_dataset rt (Return (PDict d)) job_id q in
  Main.extract_result rt q (PDict d) = Raise (Builtin (TypeError_search v))
  ∧ jobs (exec run w) !! job_id
    = Some (JobDatabase.set_updated_at (clock rt (S (ticks w)))
              (error_columns rt (error_text rt (TypeError_search v))
                 (JobDatabase.set_updated_at (clock rt (ticks w))
                    (JobDatabase.set_raw_data (Some (json_dumps rt (PDict d))) r)))).
Proof.
  intros Hdata Hres Hv Hq Hr run.
  assert (Main.extract_result rt q (PDict d) = Raise (Builtin (TypeError_search v)))
    as He.
  { unfold Main.extract_result, dict_get_default. rewrite Hdata; simpl.
    rewrite Hres. by destruct v. }
  split; [exact He |].
  unfold run. rewrite (extraction_error_run d job_id q w _ Hq He).
  by rewrite !lookup_alter_eq, Hr.
Qed.

(** X10. A fenced block that decodes to JSON which is not an object (an
    array of records, say) makes the task fail in the same way, on the
    [AttributeError] of [get]. *)
Theorem fenced_json_that_is_no_object_fails_the_job (d : pydict)
    (outer_data : pyval) (text group1 : string) (parsed_json : pyval)
    (job_id q : string) (w : world) (r : row) :
  has_result_text d outer_data text →
  Re.code_block_search text = Some group1 →
  json_loads rt (PyStr.strip group1) = Some parsed_json →
  is_dict parsed_json = false →
  Main.reports_quota (PDict d) = false →
  jobs w !! job_id = Some r →
  let run := Main.process_dataset rt (Return (PDict d)) job_id q in
  Main.extract_result rt q (PDict d)
  = Raise (Builtin (AttributeError_get parsed_json))
  ∧ jobs (exec run w) !! job_id
    = Some (JobDatabase.set_updated_at (clock rt (S (ticks w)))
              (error_columns rt (error_text rt (AttributeError_get parsed_json))
                 (JobDatabase.set_updated_at (clock rt (ticks w))
                    (JobDatabase.set_raw_data (Some (json_dumps rt (PDict d))) r)))).
Proof.
  intros Hshape Hblock Hloads Hpj Hq Hr run.
  assert (Main.extract_result rt q (PDict d)
          = Raise (Builtin (AttributeError_get parsed_json))) as He.
  { rewrite (extract_result_on_result_text rt _ _ _ _ Hshape), Hblock, Hloads.
    by destruct parsed_json. }
  split; [exact He |].
  unfold run. rewrite (extraction_error_run d job_id q w _ Hq He).
  by rewrite !lookup_alter_eq, Hr.
Qed.

End ExtractionFailures.

Lemma non_text_result_fails_the_job_witness :
  (λ r, (status r, total_records r, validation_notes r))
    <$> jobs (exec (Main.process_dataset Sample.rt (Return numeric_result_payload)
                      "job-1" "some query") Examples.submitted) !! "job-1"
  = Some ("failed", 0, Some "Error: expected string or bytes-like object").
Proof.
  edestruct (non_text_result_fails_the_job Sample.rt
               [("data", PList [PDict [("team", PStr "A"); ("result", PInt 3)]])]
               [("team", PStr "A"); ("result", PInt 3)] [] (PInt 3)
               "job-1" "some query" Examples.submitted) as [_ Hrow].
  - reflexivity.
  - reflexivity.
  - reflexivity.
  - reflexivity.
  - vm_compute. reflexivity.
  - unfold numeric_result_payload. rewrite Hrow. vm_compute. reflexivity.
Defined.

Lemma fenced_json_that_is_no_object_fails_the_job_witness :
  (λ r, (status r, total_records r, validation_notes r))
    <$> jobs (exec (Main.process_dataset Sample.rt
                      (Return (Examples.payload_with_result fenced_array_text))
                      "job-1" "some query") Examples.submitted) !! "job-1"
  = Some ("failed", 0, Some "Error: object has no attribute 'get'").
Proof.
  edestruct (fenced_json_that_is_no_object_fails_the_job Sample.rt
               [("data", PList [PDict [("result", PStr fenced_array_text)]])]
               (PList [PDict [("result", PStr fenced_array_text)]])
               fenced_array_text (Examples.dq "[{'a':1}]")
               (PList [PDict [("a", PInt 1)]])
               "job-1" "some query" Examples.submitted) as [_ Hrow].
  - eexists _, _. repeat split; reflexivity.
  - vm_compute. reflexivity.
  - vm_compute. reflexivity.
  - reflexivity.
  - reflexivity.
  - vm_compute. reflexivity.
  - unfold Examples.payload_with_result. rewrite Hrow. vm_compute. reflexivity.
Defined.

(** ** [create_dataset]: the payload it returns *)

Section CreateDataset.
Context (rt : runtime) (c : WebhoundCrewAI.crew).

Lemma dict_get_dict_set (d : pydict) (k k' : string) (v : pyval) :
  dict_get (dict_set d k v) k'
  = if String.eqb k' k then Some v else dict_get d k'.
Proof.
  induction d as [|[k0 v0] d IH]; simpl.
  - by destruct (String.eqb k' k).
  - destruct (String.eqb_spec k k0) as [->|Hne]; simpl.
    + by destruct (String.eqb k' k0).
    + rewrite IH. destruct (String.eqb_spec k' k0) as [->|Hne'].
      * destruct (String.eqb_spec k0 k) as [->|]; [done | reflexivity].
      * reflexivity.
Qed.

(** On a dict, [ensure_field] returns a dict that has the key: with the
    value it had, or else the default; the other keys are as they were. *)
Lemma ensure_field_dict (key : string) (dflt : pyval) (d : pydict) :
  ∃ d', WebhoundCrewAI.ensure_field c key dflt (PDict d) = Return (PDict d')
    ∧ ∀ k, dict_get d' k
           = if String.eqb k key then Some (dict_get_default d key dflt)
             else dict_get d k.
Proof.
  unfold WebhoundCrewAI.ensure_field, dict_get_default; simpl.
  destruct (dict_get d key) as [v|] eqn:Hkey; simpl.
  - exists d. split; [reflexivity |]. intros k.
    destruct (String.eqb_spec k key) as [->|]; [done | reflexivity].
  - eexists. split; [reflexivity |]. intros k. apply dict_get_dict_set.
Qed.

Lemma ensure_required_fields_dict (d : pydict) :
  ∃ d', WebhoundCrewAI.ensure_required_fields c (PDict d) = Return (PDict d')
    ∧ dict_get d' "data" = Some (dict_get_default d "data" (PList []))
    ∧ dict_get d' "sources" = Some (dict_get_default d "sources" (PList []))
    ∧ dict_get d' "validation_status"
      = Some (dict_get_default d "validation_status" (PStr "completed"))
    ∧ dict_get d' "quality_score"
      = Some (dict_get_default d "quality_score" (PStr "unknown"))
    ∧ dict_get d' "validation_notes"
      = Some (dict_get_default d "validation_notes" (PStr "")).
Proof.
  unfold WebhoundCrewAI.ensure_required_fields.
  destruct (ensure_field_dict "data" (PList []) d) as (d1 & -> & H1).
  destruct (ensure_field_dict "sources" (PList []) d1) as (d2 & H2e & H2).
  destruct (ensure_field_dict "validation_status" (PStr "completed") d2)
    as (d3 & H3e & H3).
  destruct (ensure_field_dict "quality_score" (PStr "unknown") d3)
    as (d4 & H4e & H4).
  destruct (ensure_field_dict "validation_notes" (PStr "") d4)
    as (d5 & H5e & H5).
  exists d5. unfold mbind, outcome_bind. rewrite H2e, H3e, H4e.
  split; [exact H5e |].
  unfold dict_get_default in *.
  repeat (rewrite ?H5, ?H4, ?H3, ?H2, ?H1; simpl).
  done.
Qed.

Lemma has_required_fields_intro (payload : pyval) :
  WebhoundCrewAI.contains_key c "data" payload = Return true →
  WebhoundCrewAI.contains_key c "sources" payload = Return true →
  WebhoundCrewAI.contains_key c "validation_status" payload = Return true →
  WebhoundCrewAI.contains_key c "quality_score" payload = Return true →
  WebhoundCrewAI.contains_key c "validation_notes" payload = Return true →
  has_required_fields c payload.
Proof.
  intros H1 H2 H3 H4 H5 key Hin.
  repeat (apply elem_of_cons in Hin as [-> | Hin]; [done |]).
  by apply elem_of_nil in Hin.
Qed.

Lemma ensure_required_fields_has_them (v p : pyval) :
  WebhoundCrewAI.ensure_required_fields c v = Return p →
  has_required_fields c p.
Proof.
  destruct v as [| b | z | f | s | l | d]; try discriminate.
  - unfold WebhoundCrewAI.ensure_required_fields, WebhoundCrewAI.ensure_field.
    simpl. destruct (PyStr.contains "data" s) eqn:H1; [| discriminate].
    simpl. destruct (PyStr.contains "sources" s) eqn:H2; [| discriminate].
    simpl. destruct (PyStr.contains "validation_status" s) eqn:H3; [| discriminate].
    simpl. destruct (PyStr.contains "quality_score" s) eqn:H4; [| discriminate].
    simpl. destruct (PyStr.contains "validation_notes" s) eqn:H5; [| discriminate].
    intros [= <-]. apply has_required_fields_intro; simpl; congruence.
  - unfold WebhoundCrewAI.ensure_required_fields, WebhoundCrewAI.ensure_field.
    simpl. destruct (existsb (λ x, eq_str x "data") l) eqn:H1; [| discriminate].
    simpl. destruct (existsb (λ x, eq_str x "sources") l) eqn:H2; [| discriminate].
    simpl. destruct (existsb (λ x, eq_str x "validation_status") l) eqn:H3;
      [| discriminate].
    simpl. destruct (existsb (λ x, eq_str x "quality_score") l) eqn:H4;
      [| discriminate].
    simpl. destruct (existsb (λ x, eq_str x "validation_notes") l) eqn:H5;
      [| discriminate].
    intros [= <-]. apply has_required_fields_intro; simpl; congruence.
  - destruct (ensure_required_fields_dict d) as (d' & -> & H1 & H2 & H3 & H4 & H5).
    intros [= <-]. apply has_required_fields_intro; simpl;
      by rewrite ?H1, ?H2, ?H3, ?H4, ?H5.
Qed.

Lemma find_json_unparsed (query text : string) (payload : pyval) :
  CrewAI.find_json rt query text = CrewAI.Unparsed payload →
  ∃ notes, payload = CrewAI.unparsed_payload query text notes.
Proof.
  unfold CrewAI.find_json.
  destruct (Re.code_block_search text);
    [| destruct (Re.brace_search text)];
    try destruct (json_loads rt _); try discriminate;
    intros [= <-]; eauto.
Qed.

(** X11. Once the crew is built, [create_dataset] returns a payload whatever
    the crew does, and each of the five names data, sources,
    validation_status, quality_score and validation_notes is [in] it:
    as a key when the payload is a dict, which it is unless the crew's
    JSON decodes to a list or a string that holds all five. *)
Theorem create_dataset_returns_the_required_fields (query : string) :
  WebhoundCrewAI.build_crew c query = Return () →
  ∃ payload, WebhoundCrewAI.create_dataset rt c query = Return payload
    ∧ has_required_fields c payload.
Proof.
  intros Hbuild. unfold WebhoundCrewAI.create_dataset.
  rewrite Hbuild. unfold mbind at 1, outcome_bind at 1.
  assert (∀ st notes, has_required_fields c (WebhoundCrewAI.error_payload st notes))
    as Herr by (intros; by apply has_required_fields_intro).
  assert (∀ text notes,
            has_required_fields c (CrewAI.unparsed_payload query text notes))
    as Hun by (intros; by apply has_required_fields_intro).
  destruct (WebhoundCrewAI.kickoff c query ≫= _) as [payload|e] eqn:Hrun.
  - exists payload. split; [reflexivity |].
    unfold mbind, outcome_bind in Hrun.
    destruct (WebhoundCrewAI.kickoff c query) as [out|]; [| discriminate].
    unfold WebhoundCrewAI.parse_result in Hrun.
    destruct (WebhoundCrewAI.raw out) as [r|]; [| by injection Hrun as <-].
    destruct (truthy r); [| by injection Hrun as <-].
    destruct (CrewAI.find_json rt query (py_str rt r)) as [v|p] eqn:Hfind.
    + by apply (ensure_required_fields_has_them v).
    + injection Hrun as <-.
      by destruct (find_json_unparsed _ _ _ Hfind) as [notes ->].
  - destruct (Main.is_quota_error _); eexists; split; try reflexivity; apply Herr.
Qed.

End CreateDataset.

Lemma create_dataset_returns_the_required_fields_witness :
  ∃ payload,
    WebhoundCrewAI.create_dataset Sample.rt
      (sample_crew (Return (WebhoundCrewAI.mk_crew_output
                              (Some (PStr Examples.fenced_text)) "")))
      "some query" = Return payload
    ∧ has_required_fields
        (sample_crew (Return (WebhoundCrewAI.mk_crew_output
                                (Some (PStr Examples.fenced_text)) ""))) payload.
Proof.
  apply (create_dataset_returns_the_required_fields Sample.rt
           (sample_crew (Return (WebhoundCrewAI.mk_crew_output
                                   (Some (PStr Examples.fenced_text)) "")))
           "some query").
  reflexivity.
Defined.

(** ** From the crew to the job row *)

Section CrewToJob.
Context (rt : runtime) (c : WebhoundCrewAI.crew).

(** The run of the task on a payload that reports the quota. *)
Lemma process_dataset_quota_in_result (payload : pyval) (job_id q : string)
    (w : world) (r : row) (raw : option string) :
  JobDatabase.bind_text rt true payload = Return raw →
  Main.reports_quota payload = true →
  jobs w !! job_id = Some r →
  jobs (exec (Main.process_dataset rt (Return payload) job_id q) w) !! job_id
  = Some (mk_row (query r) "quota_exceeded"
            (Some (json_dumps rt (PList []))) (Some (json_dumps rt (PList [])))
            raw 0 (Some "quota_exceeded") (Some "unknown")
            (Some "API quota exceeded. Please try again later or upgrade your plan.")
            (user_rating r) (rating_timestamp r) (created_at r)
            (clock rt (S (ticks w)))).
Proof.
  intros Hraw Hq Hr.
  unfold exec, Main.process_dataset, try_except, Main.process_dataset_body.
  unfold mbind at 1, M_bind at 1, lift at 1.
  unfold mbind at 1, M_bind at 1.
  erewrite update_job_binds; [| simpl; rewrite Hraw; reflexivity].
  rewrite Hq.
  erewrite update_job_binds; [| apply quota_in_result_update_binds]. simpl.
  by rewrite !lookup_alter_eq, Hr.
Qed.

(** The run of the task that ends in [completed], row by row. *)
Lemma process_dataset_completed_row (payload : pyval) (job_id q : string)
    (w : world) (r : row) (raw : option string) (p : Main.parsed) (total : Z)
    (cd cs cv cq cn : option string) :
  JobDatabase.bind_text rt true payload = Return raw →
  Main.reports_quota payload = false →
  Main.extract_result rt q payload = Return p →
  Main.py_len (Main.parsed_data p) = Return total →
  JobDatabase.bind_text rt true (Main.parsed_data p) = Return cd →
  JobDatabase.bind_text rt true (Main.parsed_sources p) = Return cs →
  JobDatabase.bind_text rt false (Main.parsed_validation_status p) = Return cv →
  JobDatabase.bind_text rt false (Main.parsed_quality_score p) = Return cq →
  JobDatabase.bind_text rt false (Main.parsed_validation_notes p) = Return cn →
  jobs w !! job_id = Some r →
  jobs (exec (Main.process_dataset rt (Return payload) job_id q) w) !! job_id
  = Some (mk_row (query r) "completed" cd cs raw total cv cq cn
            (user_rating r) (rating_timestamp r) (created_at r)
            (clock rt (S (ticks w)))).
Proof.
  intros Hraw Hq Hp Hlen Hd Hs Hv Hqs Hn Hr. unfold exec.
  erewrite (process_dataset_completes rt payload job_id q w raw p total
              (completed_columns cd cs total cv cq cn) Hraw Hq Hp Hlen).
  - simpl. by rewrite !lookup_alter_eq, Hr.
  - unfold Main.completed_update; simpl.
    by rewrite Hd, Hs, Hv, Hqs, Hn.
Qed.

(** What the task makes of the payload of [create_dataset]'s [except]
    block. *)
Lemma crew_error_payload_row (msg job_id q : string) (w : world) (r : row) :
  jobs w !! job_id = Some r →
  jobs (exec (Main.process_dataset rt (Return (crew_error_payload msg)) job_id q) w)
    !! job_id
  = Some (crew_error_row rt msg r (clock rt (S (ticks w)))).
Proof.
  intros Hr. unfold crew_error_row, crew_error_payload. cbv zeta.
  destruct (Main.is_quota_error msg).
  - by apply process_dataset_quota_in_result.
  - by eapply process_dataset_completed_row.
Qed.

(** X12. An error of the crew's run does not fail the job. [create_dataset]
    catches it and returns a payload with no data, and the task stores
    that payload: unless the error text holds a quota keyword the job
    ends completed, with zero records, validation status failed and
    the error text in its notes; with a quota keyword it ends
    quota_exceeded with the task's fixed note, the error text staying
    in the raw data only. *)
Theorem crew_error_is_stored_by_the_task (e : pyexc) (job_id q : string)
    (w : world) (r : row) :
  WebhoundCrewAI.init c = Return () →
  WebhoundCrewAI.build_crew c q = Return () →
  WebhoundCrewAI.kickoff c q = Raise e →
  jobs w !! job_id = Some r →
  let msg := Main.exc_str rt e in
  let pipeline := WebhoundCrewAI.create_dataset_async rt c q in
  pipeline = Return (crew_error_payload msg)
  ∧ jobs (exec (Main.process_dataset rt pipeline job_id q) w) !! job_id
    = Some (crew_error_row rt msg r (clock rt (S (ticks w)))).
Proof.
  intros Hinit Hbuild Hrun Hr msg pipeline.
  assert (pipeline = Return (crew_error_payload msg)) as ->.
  { unfold pipeline, WebhoundCrewAI.create_dataset_async,
      WebhoundCrewAI.create_dataset, crew_error_payload.
    rewrite Hinit, Hbuild, Hrun. unfold mbind, outcome_bind. fold msg.
    by destruct (Main.is_quota_error msg). }
  split; [reflexivity |]. by apply crew_error_payload_row.
Qed.

(** X13. Crew output whose JSON decodes to an array that does not hold the
    string data: the insertion of the missing field raises, the
    [except] block of [create_dataset] takes it for an error of the
    crew, and the job is stored as after such an error. *)
Theorem decoded_array_is_stored_as_a_crew_error (out : WebhoundCrewAI.crew_output)
    (raw : pyval) (l : list pyval) (job_id q : string) (w : world) (r : row) :
  WebhoundCrewAI.init c = Return () →
  WebhoundCrewAI.build_crew c q = Return () →
  WebhoundCrewAI.kickoff c q = Return out →
  WebhoundCrewAI.raw out = Some raw →
  truthy raw = true →
  CrewAI.find_json rt q (py_str rt raw) = CrewAI.Decoded (PList l) →
  existsb (λ x, eq_str x "data") l = false →
  jobs w !! job_id = Some r →
  let msg := WebhoundCrewAI.no_item_assignment_text c (PList l) in
  let pipeline := WebhoundCrewAI.create_dataset_async rt c q in
  pipeline = Return (crew_error_payload msg)
  ∧ jobs (exec (Main.process_dataset rt pipeline job_id q) w) !! job_id
    = Some (crew_error_row rt msg r (clock rt (S (ticks w)))).
Proof.
  intros Hinit Hbuild Hrun Hraw Htruthy Hfind Hdata Hr msg pipeline.
  assert (pipeline = Return (crew_error_payload msg)) as ->.
  { unfold pipeline, WebhoundCrewAI.create_dataset_async,
      WebhoundCrewAI.create_dataset, crew_error_payload.
    rewrite Hinit, Hbuild, Hrun. unfold mbind, outcome_bind.
    unfold WebhoundCrewAI.parse_result. rewrite Hraw, Htruthy, Hfind.
    unfold WebhoundCrewAI.ensure_required_fields, WebhoundCrewAI.ensure_field.
    simpl. rewrite Hdata. simpl. fold msg.
    by destruct (Main.is_quota_error msg). }
  split; [reflexivity |]. by apply crew_error_payload_row.
Qed.

(** X14. Without the API key the pipeline cannot be built: the constructor
    raises before any crew runs, the task catches the error, and the job
    ends failed with the constructor's message in its notes and with the
    raw data it had. *)
Theorem missing_api_key_fails_the_job (job_id q : string) (w : world) (r : row) :
  WebhoundCrewAI.gemini_api_key c = None
  ∨ WebhoundCrewAI.gemini_api_key c = Some "" →
  jobs w !! job_id = Some r →
  let pipeline := WebhoundCrewAI.create_dataset_async rt c q in
  pipeline = Raise (Raised "GEMINI_API_KEY not found in environment variables")
  ∧ jobs (exec (Main.process_dataset rt pipeline job_id q) w) !! job_id
    = Some (mk_row (query r) "failed"
              (Some (json_dumps rt (PList []))) (Some (json_dumps rt (PList [])))
              (raw_data r) 0 (Some "failed") (Some "unknown")
              (Some "Error: GEMINI_API_KEY not found in environment variables")
              (user_rating r) (rating_timestamp r) (created_at r)
              (clock rt (ticks w))).
Proof.
  intros Hkey Hr pipeline.
  assert (pipeline
          = Raise (Raised "GEMINI_API_KEY not found in environment variables"))
    as ->.
  { unfold pipeline, WebhoundCrewAI.create_dataset_async, WebhoundCrewAI.init.
    by destruct Hkey as [-> | ->]. }
  split; [reflexivity |].
  pose proof (handler_run rt job_id
                (Raised "GEMINI_API_KEY not found in environment variables") w)
    as Hh.
  cbv zeta in Hh.
  change (Main.is_quota_error (Main.exc_str rt (Raised ?m))) with false in Hh.
  unfold exec, Main.process_dataset, try_except, Main.process_dataset_body.
  unfold mbind at 1, M_bind at 1, lift at 1. cbv beta iota.
  rewrite Hh. cbn [fst jobs]. by rewrite lookup_alter_eq, Hr.
Qed.


(** X16. Crew output whose JSON decodes to an object with a list of records
    that the task does not parse further (the first record has no
    [result] column): the job ends completed with exactly that list as
    its records, its length as total_records, and the object's sources
    and quality fields, the defaults of [create_dataset] standing in for
    those the object lacks; the raw data is the object with the five
    required fields. *)
Theorem decoded_object_becomes_the_dataset (out : WebhoundCrewAI.crew_output)
    (raw : pyval) (pj : pydict) (rows : list pyval)
    (cs cv cq cn : option string) (job_id q : string) (w : world) (r : row) :
  WebhoundCrewAI.init c = Return () →
  WebhoundCrewAI.build_crew c q = Return () →
  WebhoundCrewAI.kickoff c q = Return out →
  WebhoundCrewAI.raw out = Some raw →
  truthy raw = true →
  CrewAI.find_json rt q (py_str rt raw) = CrewAI.Decoded (PDict pj) →
  dict_get pj "data" = Some (PList rows) →
  first_has_no_result rows →
  Main.reports_quota (PDict pj) = false →
  JobDatabase.bind_text rt true (dict_get_default pj "sources" (PList []))
  = Return cs →
  JobDatabase.bind_text rt false
    (dict_get_default pj "validation_status" (PStr "completed")) = Return cv →
  JobDatabase.bind_text rt false
    (dict_get_default pj "quality_score" (PStr "unknown")) = Return cq →
  JobDatabase.bind_text rt false
    (dict_get_default pj "validation_notes" (PStr "")) = Return cn →
  jobs w !! job_id = Some r →
  let pipeline := WebhoundCrewAI.create_dataset_async rt c q in
  ∃ d', pipeline = Return (PDict d')
    ∧ has_required_fields c (PDict d')
    ∧ jobs (exec (Main.process_dataset rt pipeline job_id q) w) !! job_id
      = Some (mk_row (query r) "completed"
                (Some (json_dumps rt (PList rows))) cs
                (Some (json_dumps rt (PDict d'))) (Z.of_nat (length rows))
                cv cq cn
                (user_rating r) (rating_timestamp r) (created_at r)
                (clock rt (S (ticks w)))).
Proof.
  intros Hinit Hbuild Hrun Hraw Htruthy Hfind Hdata Hfirst Hquota
    Hs Hv Hqs Hn Hr pipeline.
  destruct (ensure_required_fields_dict c pj)
    as (d' & Hens & H1 & H2 & H3 & H4 & H5).
  exists d'.
  assert (pipeline = Return (PDict d')) as ->.
  { unfold pipeline, WebhoundCrewAI.create_dataset_async,
      WebhoundCrewAI.create_dataset.
    rewrite Hinit, Hbuild, Hrun. unfold mbind, outcome_bind.
    unfold WebhoundCrewAI.parse_result. by rewrite Hraw, Htruthy, Hfind, Hens. }
  split; [reflexivity |].
  split; [by apply (ensure_required_fields_has_them c (PDict pj)) |].
  unfold dict_get_default in *. rewrite Hdata in H1; simpl in H1.
  assert (Main.extract_result rt q (PDict d')
          = Return (Main.mk_parsed (PList rows)
                      (default (PList []) (dict_get pj "sources"))
                      (default (PStr "completed") (dict_get pj "validation_status"))
                      (default (PStr "unknown") (dict_get pj "quality_score"))
                      (default (PStr "") (dict_get pj "validation_notes")))) as Hex.
  { unfold Main.extract_result, Main.fields_of, dict_get_default.
    rewrite H1, H2, H3, H4, H5; simpl.
    destruct rows as [|x rows]; [reflexivity |]. simpl.
    destruct x as [| | | | | |fi]; try reflexivity.
    simpl in Hfirst. by rewrite Hfirst. }
  eapply process_dataset_completed_row; try exact Hex; try exact Hr;
    try reflexivity; try assumption.
  unfold Main.reports_quota in *. rewrite H3.
  destruct (dict_get pj "validation_status"); [exact Hquota | reflexivity].
Qed.

End CrewToJob.

Lemma crew_error_is_stored_by_the_task_witness :
  (λ r, (status r, validation_status r, validation_notes r))
    <$> jobs (exec (Main.process_dataset Sample.rt
                      (WebhoundCrewAI.create_dataset_async Sample.rt
                         (sample_crew (Raise (Raised "model overloaded")))
                         "some query")
                      "job-1" "some query") Examples.submitted) !! "job-1"
  = Some ("completed", Some "failed", Some "Error: model overloaded").
Proof.
  edestruct (crew_error_is_stored_by_the_task Sample.rt
               (sample_crew (Raise (Raised "model overloaded")))
               (Raised "model overloaded") "job-1" "some query"
               Examples.submitted) as [_ Hrow].
  - reflexivity.
  - reflexivity.
  - reflexivity.
  - vm_compute. reflexivity.
  - rewrite Hrow. vm_compute. reflexivity.
Defined.

Lemma decoded_array_is_stored_as_a_crew_error_witness :
  (λ r, (status r, validation_status r, validation_notes r))
    <$> jobs (exec (Main.process_dataset Sample.rt
                      (WebhoundCrewAI.create_dataset_async Sample.rt
                         (sample_crew (text_output fenced_array_text))
                         "some query")
                      "job-1" "some query") Examples.submitted) !! "job-1"
  = Some ("completed", Some "failed",
          Some "Error: list indices must be integers or slices, not str").
Proof.
  edestruct (decoded_array_is_stored_as_a_crew_error Sample.rt
               (sample_crew (text_output fenced_array_text))
               (WebhoundCrewAI.mk_crew_output (Some (PStr fenced_array_text))
                  fenced_array_text)
               (PStr fenced_array_text) [PDict [("a", PInt 1)]]
               "job-1" "some query" Examples.submitted) as [_ Hrow].
  - reflexivity.
  - reflexivity.
  - reflexivity.
  - reflexivity.
  - reflexivity.
  - vm_compute. reflexivity.
  - reflexivity.
  - vm_compute. reflexivity.
  - rewrite Hrow. vm_compute. reflexivity.
Defined.

Lemma missing_api_key_fails_the_job_witness :
  (λ r, (status r, raw_data r, validation_notes r))
    <$> jobs (exec (Main.process_dataset Sample.rt
                      (WebhoundCrewAI.create_dataset_async Sample.rt keyless_crew
                         "some query")
                      "job-1" "some query") Examples.submitted) !! "job-1"
  = Some ("failed", None,
          Some "Error: GEMINI_API_KEY not found in environment variables").
Proof.
  edestruct (missing_api_key_fails_the_job Sample.rt keyless_crew
               "job-1" "some query" Examples.submitted) as [_ Hrow].
  - left. reflexivity.
  - vm_compute. reflexivity.
  - rewrite Hrow. vm_compute. reflexivity.
Defined.


Lemma decoded_object_becomes_the_dataset_witness :
  (λ r, (status r, dataset r, total_records r))
    <$> jobs (exec (Main.process_dataset Sample.rt
                      (WebhoundCrewAI.create_dataset_async Sample.rt
                         (sample_crew (text_output fenced_rows_text))
                         "some query")
                      "job-1" "some query") Examples.submitted) !! "job-1"
  = Some ("completed",
          Some (Examples.dq "[{'city': 'Oslo'}, {'city': 'Bergen'}]"), 2).
Proof.
  edestruct (decoded_object_becomes_the_dataset Sample.rt
               (sample_crew (text_output fenced_rows_text))
               (WebhoundCrewAI.mk_crew_output (Some (PStr fenced_rows_text))
                  fenced_rows_text)
               (PStr fenced_rows_text)
               [("data", PList [PDict [("city", PStr "Oslo")];
                                PDict [("city", PStr "Bergen")]])]
               [PDict [("city", PStr "Oslo")]; PDict [("city", PStr "Bergen")]]
               (Some "[]") (Some "completed") (Some "unknown") (Some "")
               "job-1" "some query" Examples.submitted) as (d' & _ & _ & Hrow).
  - reflexivity.
  - reflexivity.
  - reflexivity.
  - reflexivity.
  - reflexivity.
  - vm_compute. reflexivity.
  - reflexivity.
  - reflexivity.
  - reflexivity.
  - reflexivity.
  - reflexivity.
  - reflexivity.
  - reflexivity.
  - vm_compute. reflexivity.
  - rewrite Hrow. vm_compute. reflexivity.
Defined.

(** ** A payload that is no mapping *)

Section OtherPayloads.
Context (rt : runtime).

(** X17. A payload that is not a mapping (and that sqlite3 can bind) is kept
    whole: the job ends completed with one record, the query and the
    [str] of the payload, no sources, and the note "Processing
    completed". *)
Theorem non_mapping_payload_becomes_one_record (payload : pyval)
    (raw : option string) (job_id q : string) (w : world) (r : row) :
  is_dict payload = false →
  JobDatabase.bind_text rt true payload = Return raw →
  jobs w !! job_id = Some r →
  let record := PList [PDict [("query", PStr q);
                              ("result", PStr (py_str rt payload))]] in
  jobs (exec (Main.process_dataset rt (Return payload) job_id q) w) !! job_id
  = Some (mk_row (query r) "completed"
            (Some (json_dumps rt record)) (Some (json_dumps rt (PList [])))
            raw 1 (Some "completed") (Some "unknown")
            (Some "Processing completed")
            (user_rating r) (rating_timestamp r) (created_at r)
            (clock rt (S (ticks w)))).
Proof.
  intros Hd Hraw Hr record.
  eapply process_dataset_completed_row; try exact Hraw; try exact Hr.
  - by destruct payload.
  - by destruct payload.
  - reflexivity.
  - reflexivity.
  - reflexivity.
  - reflexivity.
  - reflexivity.
  - reflexivity.
Qed.

End OtherPayloads.

Lemma non_mapping_payload_becomes_one_record_witness :
  (λ r, (status r, dataset r, raw_data r))
    <$> jobs (exec (Main.process_dataset Sample.rt (Return (PStr "plain text"))
                      "job-1" "some query") Examples.submitted) !! "job-1"
  = Some ("completed",
          Some (Examples.dq "[{'query': 'some query', 'result': 'plain text'}]"),
          Some "plain text").
Proof.
  rewrite (non_mapping_payload_becomes_one_record Sample.rt (PStr "plain text")
             (Some "plain text") "job-1" "some query" Examples.submitted
             (mk_row "some query" "processing" None None None 0 None None None
                None None (Sample.clock 0) (Sample.clock 1))).
  - vm_compute. reflexivity.
  - reflexivity.
  - reflexivity.
  - vm_compute. reflexivity.
Defined.

(** ** The purge, in general *)

Section CleanupInGeneral.
Context (rt : runtime).


End CleanupInGeneral.

(** ** The rating request never answers 500 *)

Section RatingAnswers.
Context (rt : runtime).

(** X19. A rating request returns one of three answers and never raises:
    400 for a rating that is not one of the two values, 404 for a valid
    rating of a job that does not exist, in which case the table and the
    journal are left as they were, and 200 otherwise. The handler's
    fourth answer, 500 "Failed to update rating", is never given: the
    job that was just read is there to be updated. *)
Theorem rate_job_answers (job_id rating : string) (w : world) :
  let run := Main.rate_job rt job_id rating in
  if negb (JobDatabase.valid_rating rating)
  then run w = (w, Return (Main.HTTPException 400
                             "Rating must be 'good_dog' or 'bad_dog'"))
  else match jobs w !! job_id with
       | None => run w = (w, Return (Main.HTTPException 404 "Job not found"))
       | Some r =>
           result run w
           = Return (Main.Ok200 (Main.mk_JobRatingResponse job_id rating true
                                   ("Job rated as " ++ rating)))
           ∧ user_rating <$> jobs (exec run w) !! job_id = Some (Some rating)
       end.
Proof.
  intros run. unfold run.
  destruct (negb (JobDatabase.valid_rating rating)) eqn:Hv.
  - unfold Main.rate_job. unfold JobDatabase.valid_rating in Hv. by rewrite Hv.
  - destruct (jobs w !! job_id) as [r|] eqn:Hr.
    + apply negb_false_iff in Hv. unfold result, exec.
      rewrite (rate_job_existing rt job_id rating w r Hr Hv); simpl.
      split; [reflexivity |]. by rewrite lookup_insert_eq.
    + unfold Main.rate_job. unfold JobDatabase.valid_rating in Hv.
      rewrite Hv. unfold mbind, mret, M_bind, M_ret, JobDatabase.get_job,
        JobDatabase.sql_select; simpl. by rewrite Hr.
Qed.

End RatingAnswers.

(** ** Invariants of the table over any history *)

Section Invariants.
Context (rt : runtime).

(** A property of rows that the fresh row has and that the writes of the
    task and of a rating preserve holds of every row after any history. *)
Lemma invariant_of_histories (P : row → Prop) :
  (∀ q t1 t2, P (mk_row q "processing" None None None 0 None None None
                   None None t1 t2)) →
  (∀ c t r, P r → P (JobDatabase.set_updated_at t (JobDatabase.set_raw_data c r))) →
  (∀ st notes t r, st = "failed" ∨ st = "quota_exceeded" → P r →
     P (JobDatabase.set_updated_at t (terminal_columns rt st notes r))) →
  (∀ p total cd cs cv cq cn t r,
     Main.py_len (Main.parsed_data p) = Return total → P r →
     P (JobDatabase.set_updated_at t (completed_columns cd cs total cv cq cn r))) →
  (∀ rating t1 t2 r, JobDatabase.valid_rating rating = true → P r →
     P (JobDatabase.set_updated_at t2 (JobDatabase.set_rating rating t1 r))) →
  ∀ history, map_Forall (λ _ r, P r) (jobs (after rt history)).
Proof.
  intros Hfresh Hraw Hterminal Hcompleted Hrating.
  assert (∀ job_id payload,
            keeps P (JobDatabase.update_job rt job_id [F_raw_data payload]))
    as Hsave.
  { intros job_id payload. apply keeps_update_job. intros upd t r Hb Hr.
    simpl in Hb. unfold mbind, outcome_bind, fmap, outcome_fmap in Hb.
    destruct (JobDatabase.bind_text rt true payload) as [c|]; [| discriminate].
    injection Hb as <-. by apply Hraw. }
  assert (∀ job_id e, keeps P (Main.process_dataset_handler rt job_id e))
    as Hhandler.
  { intros job_id e. unfold Main.process_dataset_handler.
    destruct (Main.is_quota_error (Main.exc_str rt e));
      apply keeps_update_job; intros upd t r Hb Hr.
    - rewrite quota_error_update_binds in Hb. injection Hb as <-.
      apply Hterminal; [by right | done].
    - rewrite failed_update_binds in Hb. injection Hb as <-.
      apply Hterminal; [by left | done]. }
  assert (∀ ev, keeps P (λ w, (handle rt ev w, Return ()))) as Hstep.
  { intros ev w Hw. cbn [fst]. destruct ev; unfold handle, exec.
    - revert w Hw. unfold Main.generate_dataset, JobDatabase.create_job.
      apply keeps_bind; [apply keeps_now | intros t1].
      apply keeps_bind; [apply keeps_now | intros t2].
      apply keeps_sql_insert, Hfresh.
    - by apply Hsave.
    - revert w Hw. unfold Main.process_dataset.
      apply keeps_try_except; [| apply Hhandler].
      unfold Main.process_dataset_body.
      apply keeps_bind; [apply keeps_lift | intros payload].
      apply keeps_bind; [apply Hsave | intros _].
      destruct (Main.reports_quota payload).
      + apply keeps_update_job. intros upd t r Hb Hr.
        rewrite quota_in_result_update_binds in Hb. injection Hb as <-.
        apply Hterminal; [by right | done].
      + apply keeps_bind_lift. intros p _.
        apply keeps_bind_lift. intros total Hlen.
        apply keeps_update_job. intros upd t r Hb Hr.
        destruct (completed_update_binds rt p total upd Hb)
          as (cd & cs & cv & cq & cn & _ & _ & _ & _ & _ & ->).
        by apply (Hcompleted p).
    - revert w Hw. unfold Main.rate_job.
      destruct (negb _) eqn:Hv; [apply keeps_ret |].
      apply keeps_bind;
        [unfold JobDatabase.get_job;
         apply keeps_bind; [apply keeps_sql_select | intros ?; apply keeps_ret] |].
      intros [jd|]; [| apply keeps_ret].
      apply keeps_bind; [| intros []; apply keeps_ret].
      unfold JobDatabase.rate_job, JobDatabase.valid_rating. rewrite Hv.
      apply keeps_bind; [apply keeps_now | intros t1].
      apply keeps_bind; [apply keeps_now | intros t2].
      apply keeps_bind; [| intros ?; apply keeps_ret].
      apply keeps_sql_update. intros r Hr. apply Hrating; [| done].
      by apply negb_false_iff in Hv.
    - revert w Hw. unfold JobDatabase.get_job.
      apply keeps_bind; [apply keeps_sql_select | intros ?; apply keeps_ret].
    - revert w Hw. unfold JobDatabase.get_job_rating_stats.
      repeat first [ apply keeps_ret | apply keeps_lift
                   | apply keeps_sql_count_where
                   | apply keeps_bind; [| intros ?] ].
    - revert w Hw. unfold JobDatabase.delete_job.
      apply keeps_bind; [apply keeps_sql_delete | intros ?; apply keeps_ret].
    - revert w Hw. unfold Main.cleanup_old_jobs, JobDatabase.cleanup_old_jobs.
      apply keeps_bind; [apply keeps_now | intros t].
      apply keeps_bind; [apply keeps_lift | intros cutoff].
      apply keeps_sql_delete_where. }
  intros history. unfold after.
  assert (∀ w, map_Forall (λ _ r, P r) (jobs w) →
               map_Forall (λ _ r, P r)
                 (jobs (foldl (λ w ev, handle rt ev w) w history))) as Hfold.
  { induction history as [|ev history IH]; intros w Hw; simpl; [done |].
    apply IH. by apply (Hstep ev w). }
  apply Hfold. apply map_Forall_empty.
Qed.

Lemma rating_known_after (history : list event) :
  map_Forall (λ _ r, rating_known r) (jobs (after rt history)).
Proof.
  apply invariant_of_histories; try done.
  - intros q t1 t2. by left.
  - intros rating t1 t2 r Hv _. unfold rating_known; simpl.
    unfold JobDatabase.valid_rating in Hv.
    apply orb_true_iff in Hv as [Hv | Hv]; apply String.eqb_eq in Hv;
      subst rating; tauto.
Qed.

(** X20. After any history of submissions, task runs, ratings, reads,
    deletions and purges, every job row has the shape of its status: in
    processing it has no records, sources or quality fields and counts
    zero records; failed or quota_exceeded it has the empty list as
    records and sources, zero records, its status repeated as
    validation status, quality unknown and a note; completed it counts
    no less than zero records. No other status occurs. *)
Theorem job_rows_have_the_shape_of_their_status
    (history : list event) (job_id : string) (r : row) :
  jobs (after rt history) !! job_id = Some r → job_shape rt r.
Proof.
  revert job_id r. apply (invariant_of_histories (job_shape rt)).
  - intros q t1 t2. left. repeat split.
  - intros c t r Hr. exact Hr.
  - intros st notes t r Hst _. right. right. simpl.
    repeat split; eauto.
  - intros p total cd cs cv cq cn t r Hlen _. right. left. simpl.
    split; [reflexivity |].
    destruct (Main.parsed_data p); simpl in Hlen; try discriminate;
      injection Hlen as <-; lia.
  - intros rating t1 t2 r _ Hr. exact Hr.
Qed.

Lemma size_rows_where_insert (p : row → bool) (m : gmap string row)
    (i : string) (x : row) :
  m !! i = None →
  size (JobDatabase.rows_where p (<[i := x]> m))
  = ((if p x then 1 else 0) + size (JobDatabase.rows_where p m))%nat.
Proof.
  intros Hi. unfold JobDatabase.rows_where.
  destruct (p x) eqn:Hp.
  - rewrite map_filter_insert_True by done.
    rewrite map_size_insert_None; [done |].
    apply map_lookup_filter_None. by left.
  - rewrite map_filter_insert_False by (simpl; congruence).
    by rewrite delete_id.
Qed.

Lemma rated_rows_split (m : gmap string row) :
  map_Forall (λ _ r, rating_known r) m →
  size (JobDatabase.rows_where (λ r, bool_decide (is_Some (user_rating r))) m)
  = (size (JobDatabase.rows_where
             (λ r, bool_decide (user_rating r = Some "good_dog")) m)
     + size (JobDatabase.rows_where
               (λ r, bool_decide (user_rating r = Some "bad_dog")) m))%nat.
Proof.
  induction m as [|i x m Hi IH] using map_ind; intros Hm.
  - unfold JobDatabase.rows_where. by rewrite !map_filter_empty, !map_size_empty.
  - apply map_Forall_insert in Hm as [Hx Hm]; [| done].
    rewrite !size_rows_where_insert by done. rewrite (IH Hm).
    destruct Hx as [Hx | [Hx | Hx]]; rewrite Hx; simpl; lia.
Qed.

(** X21. After any history the rating statistics add up: every rated job is
    a good dog or a bad dog, so the two counts sum to the number of
    rated jobs, and none of the three is negative. *)
Theorem rating_counts_add_up (history : list event) :
  ∃ st, result JobDatabase.get_job_rating_stats (after rt history) = Return st
    ∧ JobDatabase.good_dogs st + JobDatabase.bad_dogs st
      = JobDatabase.total_rated st
    ∧ 0 <= JobDatabase.good_dogs st
    ∧ 0 <= JobDatabase.bad_dogs st.
Proof.
  unfold result, JobDatabase.get_job_rating_stats, JobDatabase.sql_count_where,
    mbind, mret, M_bind, M_ret, lift; simpl.
  rewrite !percentage_guarded by lia. simpl.
  eexists. split; [reflexivity |]. simpl.
  rewrite (rated_rows_split _ (rating_known_after history)). lia.
Qed.

End Invariants.

Lemma job_rows_have_the_shape_of_their_status_witness :
  ∃ r, jobs (after Sample.rt [Generate "job-1" "q";
                              Process (Raise (Raised "boom")) "job-1" "q"])
         !! "job-1" = Some r
    ∧ status r = "failed"
    ∧ job_shape Sample.rt r.
Proof.
  assert (∃ r, jobs (after Sample.rt [Generate "job-1" "q";
                                      Process (Raise (Raised "boom")) "job-1" "q"])
                 !! "job-1" = Some r
               ∧ status r = "failed") as (r & Hr & Hst).
  { vm_compute. eexists. split; reflexivity. }
  exists r. split; [exact Hr |]. split; [exact Hst |].
  exact (job_rows_have_the_shape_of_their_status Sample.rt _ "job-1" r Hr).
Defined.

(** ** Newest first, and no more than the limit *)

Lemma lex_ltb_asym (a b : list Z) : lex_ltb a b = true → lex_ltb b a = false.
Proof.
  revert b. induction a as [|x a IH]; intros [|y b]; simpl; try done.
  intros H. apply orb_true_iff in H as [H | H].
  - apply Z.ltb_lt in H.
    destruct (Z.ltb_spec y x); [lia |]. destruct (Z.eqb_spec y x); [lia | done].
  - apply andb_true_iff in H as [Hxy H]. apply Z.eqb_eq in Hxy as ->.
    rewrite Z.ltb_irrefl, Z.eqb_refl; simpl. by apply IH.
Qed.

Lemma lex_ltb_between (a b c : list Z) :
  length a = length b → lex_ltb a c = true →
  lex_ltb a b = true ∨ lex_ltb b c = true.
Proof.
  revert b c. induction a as [|x a IH]; intros [|y b] [|z c]; simpl; try done.
  intros [= Hlen] H. apply orb_true_iff in H as [H | H].
  - apply Z.ltb_lt in H. destruct (Z.ltb_spec x y); [by left |].
    right. destruct (Z.ltb_spec y z); [done | lia].
  - apply andb_true_iff in H as [Hxz H]. apply Z.eqb_eq in Hxz as ->.
    destruct (Z.ltb_spec z y); [by left |].
    destruct (Z.ltb_spec y z); [by right |].
    assert (y = z) as -> by lia. rewrite Z.eqb_refl; simpl. by apply IH.
Qed.

Lemma dt_ltb_asym (a b : datetime) : dt_ltb a b = true → dt_ltb b a = false.
Proof. apply lex_ltb_asym. Qed.

Lemma dt_ltb_irrefl (a : datetime) : dt_ltb a a = false.
Proof.
  destruct (dt_ltb a a) eqn:H; [| done].
  pose proof (dt_ltb_asym a a H). congruence.
Qed.

Lemma dt_ltb_between (a b c : datetime) :
  dt_ltb a c = true → dt_ltb a b = true ∨ dt_ltb b c = true.
Proof. by apply lex_ltb_between. Qed.

Section NewestFirst.
Context {A : Type} (created : A → datetime).

Lemma not_older_than_trans (x y z : A) :
  not_older_than created x y → not_older_than created y z →
  not_older_than created x z.
Proof.
  unfold not_older_than. intros Hxy Hyz.
  destruct (dt_ltb (created x) (created z)) eqn:Hxz; [| done].
  destruct (dt_ltb_between _ (created y) _ Hxz); congruence.
Qed.

Lemma insert_newest_first_perm (x : A) (l : list A) :
  JobQueries.insert_newest_first created x l ≡ₚ x :: l.
Proof.
  induction l as [|y l IH]; simpl; [done |].
  destruct (dt_ltb (created y) (created x)); [done |].
  rewrite IH. apply Permutation_swap.
Qed.

Lemma order_by_desc_perm (l : list A) : JobQueries.order_by_desc created l ≡ₚ l.
Proof.
  induction l as [|x l IH]; simpl; [done |].
  by rewrite insert_newest_first_perm, IH.
Qed.

Lemma insert_newest_first_sorted (x : A) (l : list A) :
  StronglySorted (not_older_than created) l →
  StronglySorted (not_older_than created)
    (JobQueries.insert_newest_first created x l).
Proof.
  induction l as [|y l IH]; simpl; intros Hl.
  - repeat constructor.
  - apply StronglySorted_cons in Hl as [Hy Hl].
    destruct (dt_ltb (created y) (created x)) eqn:Hyx.
    + apply StronglySorted_cons. split; [| by apply StronglySorted_cons].
      assert (not_older_than created x y) as Hxy by by apply dt_ltb_asym.
      constructor; [done |].
      eapply Forall_impl; [exact Hy |]. intros z Hz.
      by apply (not_older_than_trans x y z).
    + apply StronglySorted_cons. split; [| by apply IH].
      rewrite insert_newest_first_perm. by constructor.
Qed.

Lemma order_by_desc_sorted (l : list A) :
  StronglySorted (not_older_than created) (JobQueries.order_by_desc created l).
Proof.
  induction l as [|x l IH]; simpl; [constructor |].
  by apply insert_newest_first_sorted.
Qed.

Lemma sql_limit_split (limit : Z) (l : list A) :
  ∃ rest, l = (JobQueries.sql_limit limit l ++ rest)%list.
Proof.
  unfold JobQueries.sql_limit. destruct (limit <? 0).
  - exists []. by rewrite app_nil_r.
  - exists (drop (Z.to_nat limit) l). by rewrite take_drop.
Qed.

Lemma length_sql_limit (limit : Z) (l : list A) :
  length (JobQueries.sql_limit limit l) = limited limit (length l).
Proof.
  unfold JobQueries.sql_limit, limited.
  destruct (limit <? 0); [done | apply length_take].
Qed.

End NewestFirst.

Lemma order_by_desc_fmap {A B} (f : A → B) (created : A → datetime)
    (created' : B → datetime) (l : list A) :
  (∀ x, created' (f x) = created x) →
  JobQueries.order_by_desc created' (f <$> l)
  = f <$> JobQueries.order_by_desc created l.
Proof.
  intros Hf.
  assert (∀ x k, JobQueries.insert_newest_first created' (f x) (f <$> k)
                 = f <$> JobQueries.insert_newest_first created x k) as Hins.
  { intros x k. induction k as [|y k IH]; csimpl; [done |].
    rewrite !Hf. destruct (dt_ltb (created y) (created x)); [done |].
    by rewrite IH. }
  induction l as [|x l IH]; [done |].
  change (JobQueries.order_by_desc created' (f <$> x :: l))
    with (JobQueries.insert_newest_first created' (f x)
            (JobQueries.order_by_desc created' (f <$> l))).
  by rewrite IH, Hins.
Qed.

Lemma sql_limit_fmap {A B} (f : A → B) (limit : Z) (l : list A) :
  JobQueries.sql_limit limit (f <$> l) = f <$> JobQueries.sql_limit limit l.
Proof.
  unfold JobQueries.sql_limit. destruct (limit <? 0); [done |].
  by rewrite fmap_take.
Qed.

Section Listings.
Context (rt : runtime) (scan : gmap string row → list (string * row)).
Hypothesis scan_visits_each_row_once : ∀ t, scan t ≡ₚ map_to_list t.

(** What [SELECT * FROM jobs ORDER BY created_at DESC LIMIT ?] gives. *)
Lemma newest_rows (limit : Z) (w : world) :
  let rows := JobQueries.sql_limit limit
                (JobQueries.order_by_desc (λ kr, created_at kr.2)
                   (scan (jobs w))) in
  length rows = limited limit (size (jobs w))
  ∧ NoDup rows.*1
  ∧ (∀ k r, (k, r) ∈ rows → jobs w !! k = Some r)
  ∧ StronglySorted (not_older_than (λ kr : string * row, created_at kr.2)) rows
  ∧ ∀ k r k' r', (k, r) ∈ rows → jobs w !! k' = Some r' → k' ∉ rows.*1 →
                 dt_ltb (created_at r) (created_at r') = false.
Proof.
  intros rows.
  set (l := JobQueries.order_by_desc (λ kr : string * row, created_at kr.2)
              (scan (jobs w))) in *.
  assert (l ≡ₚ map_to_list (jobs w)) as Hperm.
  { unfold l. by rewrite order_by_desc_perm, scan_visits_each_row_once. }
  assert (StronglySorted (not_older_than (λ kr : string * row, created_at kr.2)) l)
    as Hsorted by apply order_by_desc_sorted.
  destruct (sql_limit_split limit l) as [rest Hsplit]. fold rows in Hsplit.
  assert (NoDup l.*1) as Hnodup.
  { rewrite Hperm. apply NoDup_fst_map_to_list. }
  split.
  { unfold rows. rewrite length_sql_limit.
    by rewrite Hperm, length_map_to_list. }
  split.
  { rewrite Hsplit, fmap_app in Hnodup. by apply NoDup_app in Hnodup as [? _]. }
  split.
  { intros k r Hin. apply elem_of_map_to_list. rewrite <- Hperm, Hsplit.
    apply elem_of_app. by left. }
  split.
  { rewrite Hsplit in Hsorted. by apply StronglySorted_app_1_l in Hsorted. }
  intros k r k' r' Hin Hr' Hnot.
  apply elem_of_map_to_list in Hr'. rewrite <- Hperm, Hsplit in Hr'.
  apply elem_of_app in Hr' as [Hr' | Hr'].
  - destruct Hnot. by apply (list_elem_of_fmap_2 fst) in Hr'.
  - rewrite Hsplit in Hsorted.
    apply (StronglySorted_app_1_elem_of _ _ _ _ _ Hsorted Hin Hr').
Qed.

(** X22. [get_all_jobs(limit)] for a limit that fits 64 bits leaves the
    table alone and lists stored jobs, each once and newest first: as
    many as the limit allows (all of them for a negative limit), no
    listed job older than a later one, and no job left out that is newer
    than a listed one. Records and sources are decoded as [get_job]
    decodes them; the raw data stays the stored text. *)
Theorem get_all_jobs_lists_the_newest (limit : Z) (w : world) :
  JobDatabase.fits_int64 limit = true →
  ∃ rows,
    JobQueries.get_all_jobs rt scan limit w
    = (w, Return ((λ kr, (kr.1, JobQueries.listed_job rt kr.2)) <$> rows))
    ∧ length rows = limited limit (size (jobs w))
    ∧ NoDup rows.*1
    ∧ (∀ k r, (k, r) ∈ rows →
         ∃ jd, result (JobDatabase.get_job rt k) w = Return (Some jd)
           ∧ JobDatabase.jd_row jd = r
           ∧ JobDatabase.jd_dataset (JobQueries.listed_job rt r)
             = JobDatabase.jd_dataset jd
           ∧ JobDatabase.jd_sources (JobQueries.listed_job rt r)
             = JobDatabase.jd_sources jd
           ∧ JobDatabase.jd_raw_data (JobQueries.listed_job rt r)
             = JobQueries.undecoded (raw_data r))
    ∧ StronglySorted (not_older_than (λ kr : string * row, created_at kr.2)) rows
    ∧ ∀ k r k' r', (k, r) ∈ rows → jobs w !! k' = Some r' → k' ∉ rows.*1 →
                   dt_ltb (created_at r) (created_at r') = false.
Proof.
  intros Hfits.
  destruct (newest_rows limit w) as (Hlen & Hnodup & Hin & Hsorted & Htop).
  eexists. split.
  { unfold JobQueries.get_all_jobs, JobQueries.bind_int. rewrite Hfits.
    reflexivity. }
  split; [exact Hlen |]. split; [exact Hnodup |].
  split; [| split; [exact Hsorted | exact Htop]].
  intros k r Hkr. eexists. split.
  { unfold result, JobDatabase.get_job, JobDatabase.sql_select,
      mbind, mret, M_bind, M_ret; simpl. by rewrite (Hin k r Hkr). }
  done.
Qed.

Lemma distinct_of_distinct_jobs (l : list (string * row)) :
  NoDup l.*1 →
  JobQueries.distinct (JobQueries.recent_query_of <$> l)
  = JobQueries.recent_query_of <$> l.
Proof.
  assert (∀ (p : JobQueries.recent_query → bool) k,
            Forall (λ y, p y = true) k → List.filter p k = k) as Hall.
  { intros p k Hk. induction Hk as [|y k Hy Hk IH]; simpl; [done |].
    by rewrite Hy, IH. }
  induction l as [|[k r] l IH]; csimpl; [done |].
  intros [Hk Hl]%NoDup_cons. rewrite (IH Hl). f_equal.
  apply Hall. apply Forall_fmap, Forall_forall. intros [k' r'] Hin; simpl.
  unfold JobQueries.recent_query_eqb; simpl.
  destruct (String.eqb_spec k k') as [->|]; [| done].
  destruct Hk. by apply (list_elem_of_fmap_2 fst) in Hin.
Qed.

(** X23. [get_recent_queries(limit)] lists, for every limit, exactly the jobs
    that [get_all_jobs(limit)] lists, in the same order, each with its
    id, query, creation time, status and rating. The [DISTINCT] of its
    query removes nothing, as no two rows share a job id: a query that
    was asked twice is listed twice. For a limit beyond 64 bits both
    raise the same [OverflowError]. The table is left alone. *)
Theorem get_recent_queries_is_one_entry_per_job (limit : Z) (w : world) :
  JobQueries.get_recent_queries scan limit w
  = (w,
     fmap (M := outcome)
       (fmap (M := list)
          (λ kj : string * JobDatabase.job_dict,
             JobQueries.recent_query_of (kj.1, JobDatabase.jd_row kj.2)))
       (result (JobQueries.get_all_jobs rt scan limit) w)).
Proof.
  unfold result, JobQueries.get_recent_queries, JobQueries.get_all_jobs,
    JobQueries.bind_int.
  destruct (JobDatabase.fits_int64 limit); [| reflexivity].
  unfold mbind, mret, M_bind, M_ret, lift, JobQueries.sql_select_recent,
    JobQueries.sql_select_newest; simpl. f_equal. f_equal.
  rewrite distinct_of_distinct_jobs.
  2: { rewrite scan_visits_each_row_once. apply NoDup_fst_map_to_list. }
  rewrite (order_by_desc_fmap JobQueries.recent_query_of
             (λ kr : string * row, created_at kr.2)) by done.
  rewrite sql_limit_fmap, <- list_fmap_compose.
  apply list_fmap_ext. by intros _ [k r] _.
Qed.

End Listings.

(** ** Grouping by query *)

Lemma size_rows_where_scan (p : row → bool) (m : gmap string row)
    (l : list (string * row)) :
  l ≡ₚ map_to_list m →
  length (filter (λ kr : string * row, p kr.2 = true) l)
  = size (JobDatabase.rows_where p m).
Proof.
  intros ->. induction m as [|i x m Hi IH] using map_ind.
  - unfold JobDatabase.rows_where.
    by rewrite map_to_list_empty, map_filter_empty, map_size_empty.
  - rewrite map_to_list_insert, size_rows_where_insert by done.
    rewrite filter_cons; simpl. rewrite <- IH.
    destruct (p x); by case_decide.
Qed.

Lemma dt_max_not_older_l (a b : datetime) :
  dt_ltb (JobQueries.dt_max a b) a = false.
Proof.
  unfold JobQueries.dt_max. destruct (dt_ltb a b) eqn:H.
  - by apply dt_ltb_asym.
  - apply dt_ltb_irrefl.
Qed.

Lemma dt_max_not_older_r (a b : datetime) :
  dt_ltb (JobQueries.dt_max a b) b = false.
Proof.
  unfold JobQueries.dt_max. destruct (dt_ltb a b) eqn:H; [| done].
  apply dt_ltb_irrefl.
Qed.

Lemma add_to_group_queries (q : string) (t : datetime)
    (groups : list JobQueries.unique_query) :
  JobQueries.uq_query <$> JobQueries.add_to_group q t groups
  = ((JobQueries.uq_query <$> groups)
     ++ if decide (q ∈ JobQueries.uq_query <$> groups) then [] else [q])%list.
Proof.
  induction groups as [|g groups IH]; csimpl.
  - done.
  - destruct (String.eqb_spec (JobQueries.uq_query g) q) as [<-|Hne]; csimpl.
    + rewrite decide_True by apply list_elem_of_here. by rewrite app_nil_r.
    + rewrite IH. f_equal.
      destruct (decide (q ∈ JobQueries.uq_query <$> groups)) as [Hin|Hin].
      * rewrite decide_True; [done | by apply list_elem_of_further].
      * rewrite decide_False; [done |].
        intros [?|?]%elem_of_cons; congruence.
Qed.

Lemma elem_of_add_to_group (q : string) (t : datetime)
    (groups : list JobQueries.unique_query) (g : JobQueries.unique_query) :
  NoDup (JobQueries.uq_query <$> groups) →
  g ∈ JobQueries.add_to_group q t groups →
  (JobQueries.uq_query g ≠ q ∧ g ∈ groups)
  ∨ ((q ∉ JobQueries.uq_query <$> groups)
     ∧ g = JobQueries.mk_unique_query q t 1)
  ∨ (∃ g0, g0 ∈ groups ∧ JobQueries.uq_query g0 = q
       ∧ g = JobQueries.mk_unique_query q
               (JobQueries.dt_max (JobQueries.uq_last_asked g0) t)
               (JobQueries.uq_times_asked g0 + 1)).
Proof.
  induction groups as [|g1 groups IH]; csimpl.
  - intros _ ->%list_elem_of_singleton. right. left.
    split; [apply not_elem_of_nil | done].
  - intros [Hg1 Hnodup]%NoDup_cons.
    destruct (String.eqb_spec (JobQueries.uq_query g1) q) as [Hq|Hne].
    + intros [-> | Hin]%elem_of_cons.
      * right. right. exists g1. split; [apply list_elem_of_here | done].
      * left. split; [| by apply list_elem_of_further].
        intros Heq. destruct Hg1. rewrite Hq, <- Heq.
        by apply list_elem_of_fmap_2.
    + intros [-> | Hin]%elem_of_cons.
      * left. split; [done | apply list_elem_of_here].
      * destruct (IH Hnodup Hin) as [[Hgq Hg] | [[Hq ->] | (g0 & Hg0 & Hq & ->)]].
        -- left. split; [done | by apply list_elem_of_further].
        -- right. left. split; [| done].
           intros [?|?]%elem_of_cons; congruence.
        -- right. right. exists g0. split; [by apply list_elem_of_further | done].
Qed.

(** What [GROUP BY query] makes of a list of rows. *)
Lemma group_by_query_spec (l : list (string * row)) :
  let groups := JobQueries.group_by_query l in
  NoDup (JobQueries.uq_query <$> groups)
  ∧ (∀ kr, kr ∈ l → query kr.2 ∈ JobQueries.uq_query <$> groups)
  ∧ ∀ g, g ∈ groups →
      JobQueries.uq_times_asked g
      = Z.of_nat (length (filter (λ kr : string * row,
                                    String.eqb (query kr.2) (JobQueries.uq_query g)
                                    = true) l))
      ∧ (∃ kr, kr ∈ l ∧ query kr.2 = JobQueries.uq_query g
           ∧ created_at kr.2 = JobQueries.uq_last_asked g)
      ∧ ∀ kr, kr ∈ l → query kr.2 = JobQueries.uq_query g →
              dt_ltb (JobQueries.uq_last_asked g) (created_at kr.2) = false.
Proof.
  induction l as [|[k r] l IH]; simpl.
  - split; [constructor |]. split; intros ? Hin; by apply elem_of_nil in Hin.
  - destruct IH as (Hnodup & Hall & Hgroups).
    set (groups := JobQueries.group_by_query l) in *.
    split.
    { rewrite add_to_group_queries. case_decide; [by rewrite app_nil_r |].
      apply NoDup_app. split; [done |]. split; [| apply NoDup_singleton].
      intros q Hq ->%list_elem_of_singleton. done. }
    split.
    { intros kr Hin. rewrite add_to_group_queries.
      apply elem_of_app. apply elem_of_cons in Hin as [-> | Hin]; simpl.
      - case_decide; [by left | right; apply list_elem_of_here].
      - left. by apply Hall. }
    intros g Hg.
    destruct (elem_of_add_to_group _ _ _ _ Hnodup Hg)
      as [[Hgq Hin] | [[Hq ->] | (g0 & Hg0 & Hq & ->)]].
    + destruct (Hgroups g Hin) as (Hn & (kr & Hkr & Hkq & Hkt) & Hmax).
      split.
      { rewrite filter_cons; simpl.
        destruct (String.eqb_spec (query r) (JobQueries.uq_query g));
          [congruence |]. by rewrite decide_False. }
      split.
      { exists kr. split; [by apply list_elem_of_further | done]. }
      intros kr' [-> | Hin']%elem_of_cons Hq'; simpl in *; [congruence |].
      by apply Hmax.
    + assert (∀ kr, kr ∈ l → query kr.2 ≠ query r) as Hfresh.
      { intros kr Hin Heq. destruct Hq. rewrite <- Heq. by apply Hall. }
      simpl. split.
      { rewrite filter_cons; simpl. rewrite String.eqb_refl.
        rewrite decide_True by done. simpl.
        assert (filter (λ kr : string * row,
                          String.eqb (query kr.2) (query r) = true) l = [])
          as ->; [| done].
        clear -Hfresh. induction l as [|kr l IH]; [done |].
        rewrite filter_cons.
        destruct (String.eqb_spec (query kr.2) (query r)) as [Heq|_].
        - destruct (Hfresh kr (list_elem_of_here _ _) Heq).
        - rewrite decide_False by done. apply IH.
          intros kr' Hin. apply Hfresh. by apply list_elem_of_further. }
      split.
      { exists (k, r). split; [apply list_elem_of_here | done]. }
      intros kr' [-> | Hin']%elem_of_cons Hq'; simpl in *.
      * apply dt_ltb_irrefl.
      * destruct (Hfresh kr' Hin' Hq').
    + destruct (Hgroups g0 Hg0) as (Hn & (kr & Hkr & Hkq & Hkt) & Hmax).
      simpl. split.
      { rewrite filter_cons; simpl. rewrite String.eqb_refl.
        rewrite decide_True by done. simpl length.
        rewrite Hn, Hq. lia. }
      split.
      { unfold JobQueries.dt_max.
        destruct (dt_ltb (JobQueries.uq_last_asked g0) (created_at r)).
        - exists (k, r). split; [apply list_elem_of_here | done].
        - exists kr. split; [by apply list_elem_of_further |].
          split; [congruence | done]. }
      intros kr' [-> | Hin']%elem_of_cons Hq'; simpl in *.
      * apply dt_max_not_older_r.
      * destruct (dt_ltb (JobQueries.dt_max (JobQueries.uq_last_asked g0)
                            (created_at r)) (created_at kr'.2)) eqn:Hlt; [| done].
        destruct (dt_ltb_between _ (JobQueries.uq_last_asked g0) _ Hlt) as [H | H].
        -- by rewrite dt_max_not_older_l in H.
        -- rewrite Hmax in H; [done | done | congruence].
Qed.

Section UniqueQueries.
Context (scan : gmap string row → list (string * row)).
Hypothesis scan_visits_each_row_once : ∀ t, scan t ≡ₚ map_to_list t.

(** X24. [get_unique_recent_queries(limit)] for a limit that fits 64 bits
    leaves the table alone and returns the first groups, as many as the
    limit allows, of a list that has one group for each query in the
    table and no other, newest first: a group counts the jobs that asked
    its query, carries the creation time of one of them, and none of
    them is newer. [rest] is what the limit cuts off. *)
Theorem get_unique_recent_queries_groups_by_query (limit : Z) (w : world) :
  JobDatabase.fits_int64 limit = true →
  ∃ groups rest,
    JobQueries.get_unique_recent_queries scan limit w = (w, Return groups)
    ∧ length groups = limited limit (length (groups ++ rest)%list)
    ∧ NoDup (JobQueries.uq_query <$> (groups ++ rest)%list)
    ∧ StronglySorted (not_older_than JobQueries.uq_last_asked)
        (groups ++ rest)%list
    ∧ (∀ g, g ∈ (groups ++ rest)%list → sums_up (jobs w) g)
    ∧ ∀ k r, jobs w !! k = Some r →
             query r ∈ JobQueries.uq_query <$> (groups ++ rest)%list.
Proof.
  intros Hfits.
  set (l := scan (jobs w)).
  set (all := JobQueries.order_by_desc JobQueries.uq_last_asked
                (JobQueries.group_by_query l)).
  destruct (sql_limit_split limit all) as [rest Hsplit].
  exists (JobQueries.sql_limit limit all), rest. rewrite <- Hsplit.
  assert (all ≡ₚ JobQueries.group_by_query l) as Hperm
    by apply order_by_desc_perm.
  destruct (group_by_query_spec l) as (Hnodup & Hall & Hgroups).
  split.
  { unfold JobQueries.get_unique_recent_queries, JobQueries.bind_int.
    by rewrite Hfits. }
  split; [apply length_sql_limit |].
  split; [by rewrite Hperm |].
  split; [apply order_by_desc_sorted |].
  split.
  - intros g Hg. rewrite Hperm in Hg.
    destruct (Hgroups g Hg) as (Hn & (kr & Hkr & Hkq & Hkt) & Hmax).
    split; [| split].
    + rewrite Hn. f_equal.
      apply (size_rows_where_scan
               (λ r, String.eqb (query r) (JobQueries.uq_query g))).
      apply scan_visits_each_row_once.
    + exists kr.1, kr.2. split; [| done].
      apply elem_of_map_to_list. rewrite <- scan_visits_each_row_once.
      by destruct kr.
    + intros k r Hr Hq. apply (Hmax (k, r)); [| done].
      unfold l. rewrite scan_visits_each_row_once.
      by apply elem_of_map_to_list.
  - intros k r Hr. rewrite Hperm. apply (Hall (k, r)).
    unfold l. rewrite scan_visits_each_row_once.
    by apply elem_of_map_to_list.
Qed.

End UniqueQueries.

(** ** The statistics of the table *)

Section Statistics.
Context (rt : runtime).

Lemma sum_counts_insert (counts : gmap string Z) (k : string) (v : Z) :
  sum_counts (<[k := v]> counts)
  = sum_counts counts - default 0 (counts !! k) + v.
Proof.
  assert (∀ (c : gmap string Z) (i : string) (x : Z),
            c !! i = None → sum_counts (<[i := x]> c) = x + sum_counts c) as Hnew.
  { intros c i x Hi. unfold sum_counts.
    rewrite map_fold_insert_L; [done | intros; lia | done]. }
  destruct (counts !! k) as [u|] eqn:Hk; simpl.
  - rewrite <- (insert_delete_id counts k u Hk) at 2.
    rewrite <- insert_delete_eq.
    rewrite !Hnew by apply lookup_delete_eq. lia.
  - rewrite Hnew by done. lia.
Qed.

Lemma count_by_status_spec (m : gmap string row) :
  sum_counts (JobQueries.count_by_status m) = Z.of_nat (size m)
  ∧ ∀ s, JobQueries.count_by_status m !! s
         = if decide (jobs_in_status s m = 0%nat) then None
           else Some (Z.of_nat (jobs_in_status s m)).
Proof.
  unfold JobQueries.count_by_status.
  pose (P := λ (counts : gmap string Z) (m0 : gmap string row),
              sum_counts counts = Z.of_nat (size m0)
              ∧ ∀ s, counts !! s
                     = if decide (jobs_in_status s m0 = 0%nat) then None
                       else Some (Z.of_nat (jobs_in_status s m0))).
  apply (map_fold_weak_ind P); unfold P; clear P.
  - split; [done |]. intros s. rewrite lookup_empty.
    unfold jobs_in_status, JobDatabase.rows_where.
    by rewrite map_filter_empty, map_size_empty.
  - intros i x m' counts Hi [Hsum Hcounts]. split.
    + rewrite sum_counts_insert, Hsum, map_size_insert_None by done. lia.
    + intros s. unfold jobs_in_status in *.
      rewrite size_rows_where_insert by done.
      destruct (String.eqb_spec (status x) s) as [<-|Hne].
      * rewrite lookup_insert_eq, Hcounts.
        repeat case_decide; simpl; try lia; f_equal; lia.
      * rewrite lookup_insert_ne by done. by rewrite Hcounts.
Qed.

(** X25. [get_job_stats()] reads the clock once, leaves the table alone and
    returns the number of jobs; for each status that occurs, and for no
    other, the number of jobs in it, these numbers adding up to the
    total; and as recent jobs the number of jobs created since the last
    midnight, at most the total. *)
Theorem get_job_stats_adds_up (w : world) :
  ∃ st,
    JobQueries.get_job_stats rt w
    = (mk_world (jobs w) (S (ticks w)) (journal w), Return st)
    ∧ JobQueries.total_jobs st = Z.of_nat (size (jobs w))
    ∧ (∀ s n, JobQueries.status_counts st !! s = Some n
              ↔ 0 < n ∧ n = Z.of_nat (jobs_in_status s (jobs w)))
    ∧ sum_counts (JobQueries.status_counts st) = JobQueries.total_jobs st
    ∧ JobQueries.recent_jobs_24h st
      = Z.of_nat (size (JobDatabase.rows_where
                          (λ r, negb (dt_ltb (created_at r)
                                        (at_midnight (clock rt (ticks w)))))
                          (jobs w)))
    ∧ 0 <= JobQueries.recent_jobs_24h st <= JobQueries.total_jobs st.
Proof.
  destruct (count_by_status_spec (jobs w)) as [Hsum Hcounts].
  assert (JobDatabase.rows_where (λ _, true) (jobs w) = jobs w) as Hall
    by by apply map_filter_id.
  eexists. split.
  { unfold JobQueries.get_job_stats, JobDatabase.sql_count_where,
      JobQueries.sql_count_by_status, JobDatabase.now,
      mbind, mret, M_bind, M_ret; simpl. reflexivity. }
  simpl. rewrite Hall.
  split; [done |]. split; [| split; [done |]].
  - intros s n. rewrite Hcounts. case_decide as Hn.
    + split; [done | lia].
    + split; [intros [= <-]; lia | intros [_ ->]; done].
  - split; [done |]. split; [lia |].
    apply inj_le, map_size_filter.
Qed.

End Statistics.

Lemma get_all_jobs_lists_the_newest_witness :
  ∃ rows,
    JobQueries.get_all_jobs Sample.rt map_to_list 2 Examples.rated_world
    = (Examples.rated_world,
       Return ((λ kr, (kr.1, JobQueries.listed_job Sample.rt kr.2)) <$> rows))
    ∧ length rows = 2%nat.
Proof.
  destruct (get_all_jobs_lists_the_newest Sample.rt map_to_list
              (λ t, reflexivity (map_to_list t)) 2 Examples.rated_world)
    as (rows & Hrun & Hlen & _).
  - reflexivity.
  - exists rows. split; [exact Hrun |]. rewrite Hlen. vm_compute. reflexivity.
Defined.

Lemma get_recent_queries_is_one_entry_per_job_witness :
  length <$> result (JobQueries.get_recent_queries map_to_list 10)
               Examples.rated_world
  = Return 4%nat.
Proof.
  unfold result.
  rewrite (get_recent_queries_is_one_entry_per_job Sample.rt map_to_list
             (λ t, reflexivity (map_to_list t)) 10 Examples.rated_world).
  vm_compute. reflexivity.
Defined.

Lemma get_unique_recent_queries_groups_by_query_witness :
  ∃ groups,
    JobQueries.get_unique_recent_queries map_to_list 10 Examples.rated_world
    = (Examples.rated_world, Return groups)
    ∧ ∀ g, g ∈ groups → sums_up (jobs Examples.rated_world) g.
Proof.
  destruct (get_unique_recent_queries_groups_by_query map_to_list
              (λ t, reflexivity (map_to_list t)) 10 Examples.rated_world)
    as (groups & rest & Hrun & _ & _ & _ & Hsums & _).
  - reflexivity.
  - exists groups. split; [exact Hrun |].
    intros g Hg. apply Hsums, elem_of_app. by left.
Defined.

(** ** The other request handlers *)

Section OtherHandlers.
Context (rt : runtime).
Context (validate : Endpoints.DatasetResult → outcome Endpoints.DatasetResult).
Context (to_csv : pyval → string → outcome unit).
Context (scan : gmap string row → list (string * row)).
Hypothesis scan_visits_each_row_once : ∀ t, scan t ≡ₚ map_to_list t.

Lemma get_job_of_row (job_id : string) (w : world) :
  JobDatabase.get_job rt job_id w
  = (w, Return ((λ r, JobDatabase.mk_job_dict r
                        (JobDatabase.decode_column rt (PList []) (dataset r))
                        (JobDatabase.decode_column rt (PList []) (sources r))
                        (JobDatabase.decode_column rt (PDict []) (raw_data r)))
                  <$> jobs w !! job_id)).
Proof. reflexivity. Qed.

(** A list or dict that [update_job] serialised is what [get_job]
    decodes, when [json.loads] undoes [json.dumps] on it. *)
Lemma decode_column_dumps (dflt v : pyval) :
  json_dumps rt v ≠ "" →
  json_loads rt (json_dumps rt v) = Some v →
  JobDatabase.decode_column rt dflt (Some (json_dumps rt v)) = v.
Proof.
  intros Hne Hloads. unfold JobDatabase.decode_column.
  destruct (String.eqb_spec (json_dumps rt v) ""); [done |].
  by rewrite Hloads.
Qed.

(** X26. The raw endpoint after the task. When the pipeline returned a
    mapping that is not empty and that [json.loads] reads back from its
    [json.dumps] text, the endpoint serves exactly that mapping, with
    the job's query and creation time and the terminal status the task
    chose. When the pipeline raised and the job had no raw data, the
    endpoint answers 404: a failed job has none. In both cases the
    request leaves the world as it is. *)
Theorem get_raw_data_after_the_task (job_id q : string) (w : world) (r : row) :
  jobs w !! job_id = Some r →
  (∀ d, d ≠ [] →
        json_dumps rt (PDict d) ≠ "" →
        json_loads rt (json_dumps rt (PDict d)) = Some (PDict d) →
        let w' := exec (Main.process_dataset rt (Return (PDict d)) job_id q) w in
        ∃ st t, terminal_status st
          ∧ Endpoints.get_raw_data rt job_id w'
            = (w', Return (Main.Ok200
                             (Endpoints.mk_RawData job_id (query r) st (PDict d)
                                (created_at r) t))))
  ∧ ∀ e, raw_data r = None →
         let w' := exec (Main.process_dataset rt (Raise e) job_id q) w in
         Endpoints.get_raw_data rt job_id w'
         = (w', Return (Main.HTTPException 404 "Raw data not found for this job")).
Proof.
  intros Hr. split.
  - intros d Hd Hne Hloads w'.
    destruct (process_dataset_last_write rt (Return (PDict d)) job_id q w r Hr)
      as (st & cd & cs & rd & n & cv & cq & cn & t & Hst & _ & Hrow).
    destruct (returned_payload_run rt d job_id q w)
      as (terminal & upd & s & t' & n' & _ & _ & _ & _ & Hcols & Hrun).
    assert (rd = Some (json_dumps rt (PDict d))) as ->.
    { apply (f_equal (fmap raw_data)) in Hrow.
      unfold exec in Hrow. rewrite Hrun in Hrow. cbn [fst jobs] in Hrow.
      rewrite !lookup_alter_eq, Hr in Hrow; simpl in Hrow.
      injection Hrow as <-.
      by destruct (Hcols (JobDatabase.set_updated_at (clock rt (ticks w))
                            (JobDatabase.set_raw_data
                               (Some (json_dumps rt (PDict d))) r))) as [_ ->]. }
    exists st, t. split; [exact Hst |].
    unfold Endpoints.get_raw_data, try_except.
    unfold mbind, M_bind. rewrite get_job_of_row. subst w'.
    rewrite Hrow. cbn -[JobDatabase.decode_column truthy].
    rewrite (decode_column_dumps _ _ Hne Hloads).
    by destruct d.
  - intros e Hnone w'.
    assert (∃ r', jobs w' !! job_id = Some r' ∧ raw_data r' = None)
      as (r' & Hr' & Hraw).
    { unfold w', exec, Main.process_dataset, try_except,
        Main.process_dataset_body, mbind, M_bind, lift; simpl.
      rewrite handler_run; simpl. rewrite lookup_alter_eq, Hr; simpl.
      eexists. split; [reflexivity |].
      by destruct (Main.is_quota_error (Main.exc_str rt e)). }
    unfold Endpoints.get_raw_data, try_except.
    unfold mbind, M_bind. rewrite get_job_of_row, Hr'; simpl.
    by rewrite Hraw.
Qed.

(** X27. The results endpoint returns what step 4 of the task stored. After
    the completed update with a list of records and a list of sources
    that [json.loads] reads back from their [json.dumps] texts, the
    endpoint hands to the response model the status completed, the
    job's query, those two lists, the stored count and the three quality
    texts as they were bound, and answers with the validated model (or
    raises its validation error). *)
Theorem get_dataset_results_after_the_completed_update
    (p : Main.parsed) (total : Z) (records srcs : list pyval)
    (cv cq cn : option string) (job_id : string) (w : world) (r : row) :
  Main.parsed_data p = PList records →
  Main.parsed_sources p = PList srcs →
  json_dumps rt (PList records) ≠ "" →
  json_loads rt (json_dumps rt (PList records)) = Some (PList records) →
  json_dumps rt (PList srcs) ≠ "" →
  json_loads rt (json_dumps rt (PList srcs)) = Some (PList srcs) →
  JobDatabase.bind_text rt false (Main.parsed_validation_status p) = Return cv →
  JobDatabase.bind_text rt false (Main.parsed_quality_score p) = Return cq →
  JobDatabase.bind_text rt false (Main.parsed_validation_notes p) = Return cn →
  jobs w !! job_id = Some r →
  let w' := exec (JobDatabase.update_job rt job_id (Main.completed_update p total))
              w in
  result (Endpoints.get_dataset_results rt validate job_id) w'
  = Main.Ok200
      <$> validate (Endpoints.mk_DatasetResult job_id "completed" (query r)
                      (PList records) (PList srcs) total cv cq cn
                      (user_rating r)).
Proof.
  intros Hdata Hsrcs Hne1 Hl1 Hne2 Hl2 Hv Hq Hn Hr w'.
  assert (jobs w' !! job_id
          = Some (JobDatabase.set_updated_at (clock rt (ticks w))
                    (completed_columns
                       (Some (json_dumps rt (PList records)))
                       (Some (json_dumps rt (PList srcs))) total cv cq cn r)))
    as Hrow.
  { unfold w', exec. erewrite update_job_binds.
    - simpl. by rewrite lookup_alter_eq, Hr.
    - unfold Main.completed_update; simpl.
      by rewrite Hdata, Hsrcs, Hv, Hq, Hn. }
  unfold result, Endpoints.get_dataset_results.
  unfold mbind at 1, M_bind at 1. rewrite get_job_of_row, Hrow.
  cbn -[JobDatabase.decode_column Endpoints.py_or mbind].
  rewrite !decode_column_dumps by done.
  assert (∀ l, Endpoints.py_or (PList l) (PList []) = PList l) as Hor
    by (by intros []).
  rewrite !Hor. unfold mbind, M_bind, lift.
  by destruct (validate _).
Qed.

(** X28. A file is served only for a completed job that has records: when
    the download endpoint answers with a file, the job exists, its
    status is completed, its stored records are a text that is not
    empty and decodes to a value that is not empty, pandas wrote that
    value without error, the file is named after the job, and the
    world is as it was. *)
Theorem download_only_of_completed_records (job_id : string) (w : world)
    (file : Endpoints.FileResponse) :
  result (Endpoints.download_dataset_csv rt to_csv job_id) w
  = Return (Main.Ok200 file) →
  exec (Endpoints.download_dataset_csv rt to_csv job_id) w = w
  ∧ file = Endpoints.mk_FileResponse
             ("/tmp/webhound_dataset_" ++ job_id ++ ".csv")
             ("webhound_dataset_" ++ job_id ++ ".csv") "text/csv"
  ∧ ∃ r text,
      jobs w !! job_id = Some r
      ∧ status r = "completed"
      ∧ dataset r = Some text ∧ text ≠ ""
      ∧ truthy (default (PList []) (json_loads rt text)) = true
      ∧ to_csv (default (PList []) (json_loads rt text))
          ("/tmp/webhound_dataset_" ++ job_id ++ ".csv")
        = Return ().
Proof.
  unfold result, exec, Endpoints.download_dataset_csv.
  unfold mbind at 1 3, M_bind at 1 3. rewrite get_job_of_row.
  destruct (jobs w !! job_id) as [r|] eqn:Hr; simpl; [| discriminate].
  destruct (String.eqb_spec (status r) "completed") as [Hst|]; simpl;
    [| discriminate].
  unfold JobDatabase.decode_column.
  destruct (dataset r) as [text|] eqn:Hd; simpl; [| discriminate].
  destruct (String.eqb_spec text "") as [->|Hne]; simpl; [discriminate |].
  destruct (truthy (default (PList []) (json_loads rt text))) eqn:Ht;
    [| discriminate].
  unfold mbind, M_bind, lift.
  destruct (to_csv _ _) as [[]|] eqn:Hcsv; simpl; [| discriminate].
  intros [= <-]. split; [reflexivity |]. split; [reflexivity |].
  exists r, text. repeat (split; [done |]). exact Hcsv.
Qed.

(** X29. Once the admin endpoint has deleted a job, every endpoint that
    takes a job id answers 404 for it: raw data, results, download,
    rating, and a second deletion. *)
Theorem deleted_job_is_not_found (job_id rating : string) (w : world) (r : row) :
  jobs w !! job_id = Some r →
  JobDatabase.valid_rating rating = true →
  let w' := exec (Endpoints.delete_job job_id) w in
  result (Endpoints.delete_job job_id) w
  = Return (Main.Ok200 "Job deleted successfully")
  ∧ Endpoints.get_raw_data rt job_id w'
    = (w', Return (Main.HTTPException 404 "Job not found"))
  ∧ Endpoints.get_dataset_results rt validate job_id w'
    = (w', Return (Main.HTTPException 404 "Job not found"))
  ∧ Endpoints.download_dataset_csv rt to_csv job_id w'
    = (w', Return (Main.HTTPException 404 "Job not found"))
  ∧ Main.rate_job rt job_id rating w'
    = (w', Return (Main.HTTPException 404 "Job not found"))
  ∧ Endpoints.delete_job job_id w'
    = (w', Return (Main.HTTPException 404 "Job not found")).
Proof.
  intros Hr Hv w'.
  assert (jobs w' !! job_id = None) as Hgone.
  { unfold w', exec, Endpoints.delete_job, JobDatabase.delete_job,
      JobDatabase.sql_delete, mbind, mret, M_bind, M_ret; simpl.
    rewrite Hr; simpl. apply lookup_delete_eq. }
  split.
  { unfold result, Endpoints.delete_job, JobDatabase.delete_job,
      JobDatabase.sql_delete, mbind, mret, M_bind, M_ret; simpl.
    by rewrite Hr. }
  split.
  { unfold Endpoints.get_raw_data, try_except, mbind, M_bind.
    by rewrite get_job_of_row, Hgone. }
  split.
  { unfold Endpoints.get_dataset_results, mbind, M_bind.
    by rewrite get_job_of_row, Hgone. }
  split.
  { unfold Endpoints.download_dataset_csv, mbind, M_bind.
    by rewrite get_job_of_row, Hgone. }
  split.
  { unfold Main.rate_job. unfold JobDatabase.valid_rating in Hv. rewrite Hv.
    simpl. unfold mbind, M_bind. by rewrite get_job_of_row, Hgone. }
  unfold Endpoints.delete_job, JobDatabase.delete_job, JobDatabase.sql_delete,
    mbind, mret, M_bind, M_ret; simpl. rewrite Hgone; simpl.
  destruct w' as [t n j]; simpl in *. f_equal. f_equal.
  by apply delete_id.
Qed.

Lemma length_add_to_group (q : string) (t : datetime)
    (groups : list JobQueries.unique_query) :
  (length (JobQueries.add_to_group q t groups) ≤ S (length groups))%nat.
Proof.
  induction groups as [|g groups IH]; simpl; [lia |].
  destruct (String.eqb (JobQueries.uq_query g) q); simpl; lia.
Qed.

Lemma length_group_by_query (l : list (string * row)) :
  (length (JobQueries.group_by_query l) ≤ length l)%nat.
Proof.
  induction l as [|kr l IH]; simpl; [lia |].
  pose proof (length_add_to_group (query kr.2) (created_at kr.2)
                (JobQueries.group_by_query l)). lia.
Qed.

(** X30. The recent-queries endpoint never raises and leaves the world as
    it is. For a limit that fits 64 bits it answers 200 with two lists,
    the recent queries, of which there are never fewer than unique ones;
    for a larger limit it answers 500 with the text of the
    [OverflowError] that sqlite3 raised. *)
Theorem get_recent_queries_never_raises (limit : Z) (w : world) :
  if JobDatabase.fits_int64 limit
  then ∃ recent unique,
         Endpoints.get_recent_queries rt scan limit w
         = (w, Return (Main.Ok200
                         (Endpoints.mk_RecentQueriesResponse recent unique)))
         ∧ result (JobQueries.get_recent_queries scan limit) w = Return recent
         ∧ result (JobQueries.get_unique_recent_queries scan limit) w
           = Return unique
         ∧ (length unique ≤ length recent)%nat
  else Endpoints.get_recent_queries rt scan limit w
       = (w, Return (Main.HTTPException 500
                       ("Failed to get recent queries: "
                        ++ error_text rt (OverflowError_bind limit)))).
Proof.
  unfold Endpoints.get_recent_queries, try_except, result,
    JobQueries.get_recent_queries, JobQueries.get_unique_recent_queries,
    JobQueries.bind_int.
  destruct (JobDatabase.fits_int64 limit); [| reflexivity].
  unfold mbind, mret, M_bind, M_ret, lift, JobQueries.sql_select_recent,
    JobQueries.sql_select_unique; simpl.
  eexists _, _. split; [reflexivity |]. split; [reflexivity |].
  split; [reflexivity |].
  rewrite !length_sql_limit.
  rewrite (Permutation_length (order_by_desc_perm _ _)).
  rewrite (Permutation_length (order_by_desc_perm _ _)).
  rewrite distinct_of_distinct_jobs.
  2: { rewrite scan_visits_each_row_once. apply NoDup_fst_map_to_list. }
  rewrite length_fmap.
  pose proof (length_group_by_query (scan (jobs w))) as Hle.
  unfold limited. destruct (limit <? 0); lia.
Qed.

End OtherHandlers.

Lemma get_raw_data_after_the_task_witness :
  result (Endpoints.get_raw_data Sample.rt "job-1")
    (exec (Main.process_dataset Sample.rt (Raise (Raised "boom"))
             "job-1" "some query") Examples.submitted)
  = Return (Main.HTTPException 404 "Raw data not found for this job").
Proof.
  destruct (get_raw_data_after_the_task Sample.rt "job-1" "some query"
              Examples.submitted submitted_row) as [_ Hfailed].
  - vm_compute. reflexivity.
  - unfold result. rewrite (Hfailed (Raised "boom")); reflexivity.
Defined.

Lemma get_dataset_results_after_the_completed_update_witness :
  result (Endpoints.get_dataset_results Sample.rt Return "job-1")
    (exec (JobDatabase.update_job Sample.rt "job-1"
             (Main.completed_update fenced_parsed 1)) Examples.submitted)
  = Return (Main.Ok200
              (Endpoints.mk_DatasetResult "job-1" "completed" "some query"
                 (PList [PDict [("a", PInt 1)]]) (PList [PStr "u"]) 1
                 (Some "completed") (Some "unknown") (Some "") None)).
Proof.
  rewrite (get_dataset_results_after_the_completed_update Sample.rt Return
             fenced_parsed 1 [PDict [("a", PInt 1)]] [PStr "u"]
             (Some "completed") (Some "unknown") (Some "")
             "job-1" Examples.submitted submitted_row).
  - reflexivity.
  - reflexivity.
  - reflexivity.
  - vm_compute. discriminate.
  - vm_compute. reflexivity.
  - vm_compute. discriminate.
  - vm_compute. reflexivity.
  - reflexivity.
  - reflexivity.
  - reflexivity.
  - vm_compute. reflexivity.
Defined.

Lemma download_only_of_completed_records_witness :
  status <$> jobs completed_world !! "job-1" = Some "completed".
Proof.
  destruct (download_only_of_completed_records Sample.rt (λ _ _, Return ())
              "job-1" completed_world
              (Endpoints.mk_FileResponse "/tmp/webhound_dataset_job-1.csv"
                 "webhound_dataset_job-1.csv" "text/csv"))
    as (_ & _ & r & text & Hr & Hst & _).
  - vm_compute. reflexivity.
  - rewrite Hr. simpl. by rewrite Hst.
Defined.

Lemma deleted_job_is_not_found_witness :
  Endpoints.get_raw_data Sample.rt "job-1"
    (exec (Endpoints.delete_job "job-1") Examples.submitted)
  = (exec (Endpoints.delete_job "job-1") Examples.submitted,
     Return (Main.HTTPException 404 "Job not found")).
Proof.
  destruct (deleted_job_is_not_found Sample.rt Return (λ _ _, Return ())
              "job-1" "good_dog" Examples.submitted submitted_row)
    as (_ & Hraw & _).
  - vm_compute. reflexivity.
  - reflexivity.
  - exact Hraw.
Defined.

Lemma get_recent_queries_never_raises_witness :
  Endpoints.get_recent_queries Sample.rt map_to_list (2 ^ 64) Examples.submitted
  = (Examples.submitted,
     Return (Main.HTTPException 500
               ("Failed to get recent queries: "
                ++ "Python int too large to convert to SQLite INTEGER"))).
Proof.
  exact (get_recent_queries_never_raises Sample.rt map_to_list
           (λ t, reflexivity (map_to_list t)) (2 ^ 64) Examples.submitted).
Defined.
